(** * The session and request layer of the requests library

    A shallow embedding of [requests/sessions.py], [requests/api.py] and
    [requests/exceptions.py].  Python values are embedded in one universe
    [pyobj]; dictionaries are insertion-ordered association lists; cookie
    jars are mutable and live in a store addressed by location, so that the
    jar of a session and a jar handed in by a caller can be one and the same
    object.  Dictionaries are values: what a method writes into a dictionary
    its caller passed is seen by the method, not by the caller. *)

From Stdlib Require Import String List ZArith Bool Lia.
Import ListNotations.
Open Scope string_scope.
Open Scope list_scope.

Set Warnings "-register-all".

(** ** Python values *)

Inductive pyobj : Type :=
| PNone
| PBool (b : bool)
| PInt (z : Z)
| PStr (s : string)
| PTuple (items : list pyobj)
| PList (items : list pyobj)
| PDict (d : list (string * pyobj))
| PCallable (f : nat)
| PJar (loc : nat)
| PObj (cls : string) (truth : bool) (attrs : list (string * pyobj)).

(** A [dict] (or [OrderedDict]) with string keys, in insertion order. *)
Definition pdict : Type := list (string * pyobj).

(** The exceptions the embedded code can run into. *)
Inductive exn : Type :=
| TypeError
| ValueError
| KeyError
| AttributeError
| Raised (e : pyobj).

Inductive res (A : Type) : Type :=
| Ok (a : A)
| Err (e : exn).
Arguments Ok {A} a.
Arguments Err {A} e.

Definition rbind {A B : Type} (r : res A) (k : A -> res B) : res B :=
  match r with
  | Ok a => k a
  | Err e => Err e
  end.

Declare Scope res_scope.
Delimit Scope res_scope with res.
Notation "'let?' x ':=' r 'in' k" := (rbind r (fun x => k))
  (at level 10, x name, r at level 100, k at level 200) : res_scope.

(** ** Dictionaries *)

Definition keys (d : pdict) : list string := map fst d.

(** [d.get(k)]: the value stored under [k], if any. *)
Fixpoint dict_get (k : string) (d : pdict) : option pyobj :=
  match d with
  | [] => None
  | (k', v) :: t => if String.eqb k' k then Some v else dict_get k t
  end.

(** [k in d] *)
Definition dict_contains (k : string) (d : pdict) : bool :=
  match dict_get k d with
  | Some _ => true
  | None => false
  end.

(** [d[k] = v]: an existing key keeps its position, a new one goes last. *)
Fixpoint dict_set (k : string) (v : pyobj) (d : pdict) : pdict :=
  match d with
  | [] => [(k, v)]
  | (k', v') :: t =>
      if String.eqb k' k then (k, v) :: t else (k', v') :: dict_set k v t
  end.

Fixpoint dict_remove (k : string) (d : pdict) : pdict :=
  match d with
  | [] => []
  | (k', v') :: t =>
      if String.eqb k' k then t else (k', v') :: dict_remove k t
  end.

(** [del d[k]]: raises [KeyError] when [k] is absent. *)
Definition dict_del (k : string) (d : pdict) : res pdict :=
  if dict_contains k d then Ok (dict_remove k d) else Err KeyError.

(** [d.update(other)] *)
Definition dict_update (d other : pdict) : pdict :=
  fold_left (fun acc kv => dict_set (fst kv) (snd kv) acc) other d.

(** [d.setdefault(k, v)], for its effect on [d]. *)
Definition dict_setdefault (k : string) (v : pyobj) (d : pdict) : pdict :=
  if dict_contains k d then d else dict_set k v d.

(** [d.get(k, default)] *)
Definition dict_get_default (k : string) (default : pyobj) (d : pdict)
  : pyobj :=
  match dict_get k d with
  | Some v => v
  | None => default
  end.

(** The invariant of a Python dictionary: no key occurs twice. *)
Definition dict_wf (d : pdict) : Prop := NoDup (keys d).

(** ** utils.py *)

(** The 2-tuples of a list of pairs, [None] when an element is not a pair
    with a string key. *)
Fixpoint pairs_of (l : list pyobj) : option pdict :=
  match l with
  | [] => Some []
  | PTuple [PStr k; v] :: t | PList [PStr k; v] :: t =>
      match pairs_of t with
      | Some d => Some ((k, v) :: d)
      | None => None
      end
  | _ => None
  end.

(** Modelled from the spec: [from_key_val_list] of [utils.py], which is not
    among the sources.  A settings bag is "an ordered mapping" given as a
    mapping or as a list of pairs: the function builds the ordered mapping
    by inserting the entries one after the other, and leaves an absent bag
    ([None]) as it is.  A scalar is no bag and is refused. *)
Definition from_key_val_list (value : pyobj) : res pyobj :=
  match value with
  | PNone => Ok PNone
  | PStr _ | PBool _ | PInt _ => Err ValueError
  | PDict d => Ok (PDict (dict_update [] d))
  | PList l | PTuple l =>
      match pairs_of l with
      | Some d => Ok (PDict (dict_update [] d))
      | None => Err ValueError
      end
  | PCallable _ | PJar _ | PObj _ _ _ => Err TypeError
  end.

(** ** sessions.py: merge_kwargs *)

(** [hasattr(o, 'items')] *)
Definition hasattr_items (o : pyobj) : bool :=
  match o with
  | PDict _ => true
  | PObj _ _ attrs => dict_contains "items" attrs
  | _ => false
  end.

(** The loop [for (k, v) in local_kwarg.items(): if v is None:
    del kwargs[k]]. *)
Fixpoint del_none_keys (items : pdict) (kwargs : pdict) : res pdict :=
  match items with
  | [] => Ok kwargs
  | (k, PNone) :: t =>
      match dict_del k kwargs with
      | Ok kwargs' => del_none_keys t kwargs'
      | Err e => Err e
      end
  | _ :: t => del_none_keys t kwargs
  end.

Definition merge_kwargs (local_kwarg default_kwarg : pyobj) : res pyobj :=
  match default_kwarg with
  | PNone => Ok local_kwarg
  | _ =>
    match local_kwarg with
    | PStr _ => Ok local_kwarg
    | PNone => Ok default_kwarg
    | _ =>
      if negb (hasattr_items default_kwarg) then Ok local_kwarg
      else
        (let? default_kwarg := from_key_val_list default_kwarg in
         let? local_kwarg := from_key_val_list local_kwarg in
         match default_kwarg, local_kwarg with
         | PDict dd, PDict ll =>
             let kwargs := dict_update dd ll in
             let? kwargs := del_none_keys ll kwargs in
             Ok (PDict kwargs)
         | _, _ => Err AttributeError
         end)%res
    end
  end.

(** A settings bag none of whose values is the unset sentinel: a scalar, a
    string, a list of pairs, or a dictionary that stores no [None]. *)
Definition unset_free (x : pyobj) : Prop :=
  match x with
  | PDict d => dict_wf d /\ Forall (fun kv => snd kv <> PNone) d
  | PObj _ _ _ => False
  | _ => True
  end.

(** ** Cookies and cookie jars *)

Record Cookie : Type := mkCookie {
  cookie_name : string;
  cookie_value : pyobj;
  cookie_domain : string;
  cookie_path : string
}.

(** A jar holds at most one cookie per (domain, path, name). *)
Definition jar : Type := list Cookie.

Definition same_key (c c' : Cookie) : bool :=
  String.eqb (cookie_domain c) (cookie_domain c')
  && String.eqb (cookie_path c) (cookie_path c')
  && String.eqb (cookie_name c) (cookie_name c').

Definition cookie_key (c : Cookie) : string * string * string :=
  (cookie_domain c, cookie_path c, cookie_name c).

Definition jar_wf (j : jar) : Prop := NoDup (map cookie_key j).

(** [CookieJar.set_cookie]: a cookie with the same key is overwritten. *)
Fixpoint set_cookie (c : Cookie) (j : jar) : jar :=
  match j with
  | [] => [c]
  | c' :: t => if same_key c' c then c :: t else c' :: set_cookie c t
  end.

(** The cookie a plain name/value entry stands for. *)
Definition create_cookie (name : string) (value : pyobj) : Cookie :=
  mkCookie name value "" "/".

(** ** The world: the store of jars and the calls made to the transport *)

Record world : Type := mkWorld {
  jars : list jar;
  sent : list pyobj
}.

Definition M (A : Type) : Type := world -> res A * world.

Definition ret {A : Type} (a : A) : M A := fun w => (Ok a, w).

Definition raise {A : Type} (e : exn) : M A := fun w => (Err e, w).

Definition bind {A B : Type} (m : M A) (k : A -> M B) : M B :=
  fun w =>
    match m w with
    | (Ok a, w') => k a w'
    | (Err e, w') => (Err e, w')
    end.

Definition lift {A : Type} (r : res A) : M A := fun w => (r, w).

Declare Scope m_scope.
Delimit Scope m_scope with M.
Notation "x <- m ;; k" := (bind m (fun x => k))
  (at level 61, m at next level, right associativity) : m_scope.
Notation "m ;;; k" := (bind m (fun _ => k))
  (at level 61, right associativity) : m_scope.

(** [for x in l: body(x)] *)
Fixpoint for_each {A : Type} (l : list A) (body : A -> M unit) : M unit :=
  match l with
  | [] => ret tt
  | x :: t => (body x ;;; for_each t body)%M
  end.

(** Replace the element at position [n], if there is one. *)
Fixpoint update_nth {A : Type} (n : nat) (x : A) (l : list A) : list A :=
  match l, n with
  | [], _ => []
  | _ :: t, O => x :: t
  | y :: t, S n' => y :: update_nth n' x t
  end.

Definition new_jar (j : jar) : M nat :=
  fun w => (Ok (length (jars w)), mkWorld (jars w ++ [j]) (sent w)).

Definition read_jar (loc : nat) : M jar :=
  fun w =>
    match nth_error (jars w) loc with
    | Some j => (Ok j, w)
    | None => (Err AttributeError, w)
    end.

Definition write_jar (loc : nat) (j : jar) : M unit :=
  fun w => (Ok tt, mkWorld (update_nth loc j (jars w)) (sent w)).

(** The call of the transport's [send], recorded in the world. *)
Definition record_send (request : pyobj) : M unit :=
  fun w => (Ok tt, mkWorld (jars w) (sent w ++ [request])).

(** The truth value of an object.  A [CookieJar] has a [__len__]; an
    instance of another class carries the verdict of its class. *)
Definition truthy (js : list jar) (o : pyobj) : bool :=
  match o with
  | PNone => false
  | PBool b => b
  | PInt z => negb (Z.eqb z 0)
  | PStr s => negb (String.eqb s "")
  | PTuple l | PList l => match l with [] => false | _ => true end
  | PDict d => match d with [] => false | _ => true end
  | PCallable _ => true
  | PJar loc =>
      match nth_error js loc with
      | Some [] => false
      | _ => true
      end
  | PObj _ truth _ => truth
  end.

(** [o.name] *)
Definition getattr (o : pyobj) (name : string) : res pyobj :=
  match o with
  | PObj _ _ attrs =>
      match dict_get name attrs with
      | Some v => Ok v
      | None => Err AttributeError
      end
  | _ => Err AttributeError
  end.

(** [setattr(o, name, v)], as the updated object. *)
Definition setattr (o : pyobj) (name : string) (v : pyobj) : res pyobj :=
  match o with
  | PObj cls truth attrs => Ok (PObj cls truth (dict_set name v attrs))
  | _ => Err AttributeError
  end.

(** ** cookies.py *)

(** Modelled from the spec: [cookiejar_from_dict] of [cookies.py], which is
    not among the sources ("builds a store from a plain name to value
    mapping (each entry becomes one session-scoped cookie)").  The store is
    filled by iterating over what is passed and looking each name up in it:
    with nothing to iterate over ([None], an empty mapping, an empty
    sequence or string) the store is empty; a sequence or string that is
    not empty cannot be looked up by name, and a scalar or a callable
    cannot be iterated over. *)
Definition cookiejar_from_dict (cookie_dict : pyobj) : M pyobj :=
  match cookie_dict with
  | PNone | PList [] | PTuple [] | PStr EmptyString =>
      (loc <- new_jar [] ;; ret (PJar loc))%M
  | PDict d =>
      (loc <- new_jar
         (fold_left (fun j kv => set_cookie (create_cookie (fst kv) (snd kv)) j)
            d []) ;;
       ret (PJar loc))%M
  | _ => raise TypeError
  end.

(** Modelled from the spec: [remove_cookie_by_name] of [cookies.py], which
    is not among the sources ("deletes all cookies with that name from the
    store; no-op, not an error, if absent"). *)
Definition remove_cookie_by_name (cookiejar : pyobj) (name : string)
  : M unit :=
  match cookiejar with
  | PJar loc =>
      (j <- read_jar loc ;;
       write_jar loc
         (filter (fun c => negb (String.eqb (cookie_name c) name)) j))%M
  | _ => raise AttributeError
  end.

(** [isinstance(o, cookielib.CookieJar)] *)
Definition is_cookiejar (o : pyobj) : bool :=
  match o with
  | PJar _ => true
  | _ => false
  end.

(** [for cookie in source: target.set_cookie(cookie)].  The cookies of
    [source] are read when the loop starts; [set_cookie] never changes the
    set of keys of a jar it already holds the cookie of, so this is also
    what happens when both are the same jar. *)
Definition set_cookies_from (source target : pyobj) : M unit :=
  match source, target with
  | PJar src, PJar dst =>
      (cookies <- read_jar src ;;
       for_each cookies
         (fun c => j <- read_jar dst ;; write_jar dst (set_cookie c j)))%M
  | _, _ => raise AttributeError
  end.

(** ** External collaborators

    The functions and methods the three modules call and do not define:
    callables handed in by the caller (hooks), [utils.header_expand],
    [defaults.defaults], [Request.prepare], the transport
    ([HTTPAdapter.send]), the method [_send_request] that [old_request]
    hands over to, and for [api.py] [get_config], [setup_hooks] and
    [Request.send].  Callables, preparing and the transport are functions
    of their argument that may fail; they do not reach into the store of
    jars.  [_send_request] runs in the world. *)
Record collaborators : Type := mkCollaborators {
  call_hook : nat -> pyobj -> res pyobj;
  header_expand : pyobj -> res pyobj;
  defaults : pdict;
  Request_prepare : pyobj -> res pyobj;
  HTTPAdapter_send : pyobj -> res pyobj;
  Session_send_request : pdict -> pyobj -> pdict -> M pyobj;
  get_config : pyobj -> res pyobj;
  setup_hooks : pyobj -> res pyobj;
  Request_send : pyobj -> res pyobj
}.

(** ** hooks.py *)

(** The fold of a value through a chain of callbacks, left to right: each
    callback receives what the one before it returned, and a callback that
    returns nothing leaves the value as it was. *)
Fixpoint run_hooks (E : collaborators) (chain : list pyobj)
  (hook_data : pyobj) : res pyobj :=
  match chain with
  | [] => Ok hook_data
  | PCallable f :: t =>
      match call_hook E f hook_data with
      | Ok PNone => run_hooks E t hook_data
      | Ok hook_data' => run_hooks E t hook_data'
      | Err e => Err e
      end
  | _ :: _ => Err TypeError
  end.

(** The hooks registered under one name: a single callable or a list. *)
Definition chain_of (hooks : pyobj) : res (list pyobj) :=
  match hooks with
  | PCallable f => Ok [PCallable f]
  | PList l | PTuple l => Ok l
  | _ => Err TypeError
  end.

(** Modelled from the spec: [dispatch_hook] of [hooks.py], which is not
    among the sources ("folds value through the chain for name, left to
    right"; "a callback returning an empty result is skipped by the fold";
    a callback that fails aborts the request). *)
Definition dispatch_hook (E : collaborators) (key : string) (hooks : pyobj)
  (hook_data : pyobj) : res pyobj :=
  match hooks with
  | PDict h =>
      match dict_get key h with
      | Some registered =>
          (let? chain := chain_of registered in
           run_hooks E chain hook_data)%res
      | None => Ok hook_data
      end
  | PNone => Ok hook_data
  | _ => Err TypeError
  end.

(** Modelled from the spec: [dispatch_hooks] of [hooks.py] as [api.py]
    imports it, not among the sources: the same fold, over a chain that has
    already been looked up. *)
Definition dispatch_hooks (E : collaborators) (hooks : pyobj)
  (hook_data : pyobj) : res pyobj :=
  (let? chain := chain_of hooks in run_hooks E chain hook_data)%res.

(** ** Calling conventions *)

(** A call with keyword arguments [kwargs] of a function whose keyword
    parameters are [allowed]: an unexpected keyword is a [TypeError]. *)
Definition check_kwargs (allowed : list string) (kwargs : pdict)
  : res unit :=
  if forallb (fun k => existsb (String.eqb k) allowed) (keys kwargs)
  then Ok tt else Err TypeError.

Definition upper_ascii (c : Ascii.ascii) : Ascii.ascii :=
  let n := Ascii.nat_of_ascii c in
  if (97 <=? n)%nat && (n <=? 122)%nat then Ascii.ascii_of_nat (n - 32)
  else c.

(** [s.upper()], on ASCII letters. *)
Fixpoint upper (s : string) : string :=
  match s with
  | EmptyString => EmptyString
  | String c t => String (upper_ascii c) (upper t)
  end.

(** [x if x is not None else y] *)
Definition if_none (x y : pyobj) : pyobj :=
  match x with
  | PNone => y
  | _ => x
  end.

(** [self.name] on an instance given by its attributes. *)
Definition self_attr (self : pdict) (name : string) : res pyobj :=
  match dict_get name self with
  | Some v => Ok v
  | None => Err AttributeError
  end.

(** [d[k]] *)
Definition dict_item (k : string) (d : pdict) : res pyobj :=
  match dict_get k d with
  | Some v => Ok v
  | None => Err KeyError
  end.

(** [bool(o)], read in the current world. *)
Definition truthyM (o : pyobj) : M bool :=
  fun w => (Ok (truthy (jars w) o), w).

(** [x or y] *)
Definition or_else (x y : pyobj) : M pyobj :=
  (t <- truthyM x ;; ret (if t then x else y))%M.

(** ** models.py *)

(** Modelled from the spec: the constructor of [Request] in [models.py],
    which is not among the sources: a request holds the fields it is given
    (method, url, params, data, headers, cookies, files, auth, hooks,
    timeout, allow_redirects, proxies, config, transport handle). *)
Definition Request_new (kwargs : pdict) : pyobj := PObj "Request" true kwargs.

(** ** Header expansion *)

(** [for k, v in list(headers.items()): headers[k] = header_expand(v)] *)
Fixpoint expand_headers (E : collaborators) (items : pdict)
  (headers : pdict) : res pdict :=
  match items with
  | [] => Ok headers
  | (k, v) :: t =>
      (let? v' := header_expand E v in
       expand_headers E t (dict_set k v' headers))%res
  end.

(** [if headers: ...], lines 227 to 229 and lines 53 to 55 of [api.py]. *)
Definition expanded_headers (E : collaborators) (headers : pyobj)
  : M pyobj :=
  (t <- truthyM headers ;;
   if t then
     match headers with
     | PDict h => (h' <- lift (expand_headers E h h) ;; ret (PDict h'))
     | _ => raise AttributeError
     end
   else ret headers)%M.

(** ** sessions.py: Session *)

Module Session.

Definition __attrs__ : list string :=
  ["headers"; "cookies"; "auth"; "timeout"; "proxies"; "hooks";
   "params"; "config"; "verify"; "cert"; "prefetch"].

Definition init_params : list string :=
  ["headers"; "cookies"; "auth"; "timeout"; "proxies"; "hooks";
   "params"; "config"; "prefetch"; "verify"; "cert"].

(** [Session.__init__]: the attributes of the new session. *)
Definition __init__ (E : collaborators) (kwargs : pdict) : M pdict :=
  (lift (check_kwargs init_params kwargs) ;;;
   let headers := dict_get_default "headers" PNone kwargs in
   let cookies := dict_get_default "cookies" PNone kwargs in
   let auth := dict_get_default "auth" PNone kwargs in
   let timeout := dict_get_default "timeout" PNone kwargs in
   let proxies := dict_get_default "proxies" PNone kwargs in
   let hooks := dict_get_default "hooks" PNone kwargs in
   let params := dict_get_default "params" PNone kwargs in
   let config := dict_get_default "config" PNone kwargs in
   let prefetch := dict_get_default "prefetch" (PBool true) kwargs in
   let verify := dict_get_default "verify" (PBool true) kwargs in
   let cert := dict_get_default "cert" PNone kwargs in
   headers <- or_else headers (PList []) ;;
   headers <- lift (from_key_val_list headers) ;;
   let self := dict_set "headers" headers [] in
   let self := dict_set "auth" auth self in
   let self := dict_set "timeout" timeout self in
   proxies <- or_else proxies (PList []) ;;
   proxies <- lift (from_key_val_list proxies) ;;
   let self := dict_set "proxies" proxies self in
   hooks <- or_else hooks (PDict []) ;;
   hooks <- lift (from_key_val_list hooks) ;;
   let self := dict_set "hooks" hooks self in
   params <- or_else params (PList []) ;;
   params <- lift (from_key_val_list params) ;;
   let self := dict_set "params" params self in
   config <- or_else config (PDict []) ;;
   config <- lift (from_key_val_list config) ;;
   let self := dict_set "config" config self in
   let self := dict_set "prefetch" prefetch self in
   let self := dict_set "verify" verify self in
   let self := dict_set "cert" cert self in
   config <- match config with
             | PDict c =>
                 ret (PDict (fold_left
                               (fun c kv => dict_setdefault (fst kv) (snd kv) c)
                               (defaults E) c))
             | _ => raise AttributeError
             end ;;
   let self := dict_set "config" config self in
   cookies <- (if is_cookiejar cookies then ret cookies
               else cookiejar_from_dict cookies) ;;
   ret (dict_set "cookies" cookies self))%M.

(** The keyword parameters of [Session.request] and [Session.old_request]. *)
Definition request_params : list string :=
  ["params"; "data"; "headers"; "cookies"; "files"; "auth"; "timeout";
   "allow_redirects"; "proxies"; "hooks"; "return_response"; "config";
   "prefetch"; "verify"; "cert"].

(** [Session.send]: hands the prepared request to the transport. *)
Definition send (E : collaborators) (self : pdict)
  (request : pyobj) : M pyobj :=
  (record_send request ;;; lift (HTTPAdapter_send E request))%M.

(** The [Request] that [Session.request] builds, lines 151 to 163: the
    attributes the method assigns, on an object that [Request()] creates
    with none of its own. *)
Definition request_req (method : string) (url : pyobj)
  (kwargs : pdict) : pyobj :=
  let params := dict_get_default "params" PNone kwargs in
  let data := dict_get_default "data" PNone kwargs in
  let headers := dict_get_default "headers" PNone kwargs in
  let cookies := dict_get_default "cookies" PNone kwargs in
  let files := dict_get_default "files" PNone kwargs in
  let auth := dict_get_default "auth" PNone kwargs in
  let allow_redirects :=
    dict_get_default "allow_redirects" (PBool true) kwargs in
  let proxies := dict_get_default "proxies" PNone kwargs in
  let hooks := dict_get_default "hooks" PNone kwargs in
  let req := dict_set "method" (PStr method) [] in
  let req := dict_set "url" url req in
  let req := dict_set "headers" headers req in
  let req := dict_set "files" files req in
  let req := dict_set "data" data req in
  let req := dict_set "params" params req in
  let req := dict_set "auth" auth req in
  let req := dict_set "cookies" cookies req in
  let req := dict_set "allow_redirects" allow_redirects req in
  let req := dict_set "proxies" proxies req in
  let req := dict_set "hooks" hooks req in
  PObj "Request" true req.

(** [Session.request] *)
Definition request (E : collaborators) (self : pdict)
  (method : string) (url : pyobj) (kwargs : pdict) : M pyobj :=
  (lift (check_kwargs request_params kwargs) ;;;
   let req := request_req method url kwargs in
   prep <- lift (Request_prepare E req) ;;
   send E self prep)%M.

(** [for key, cb in list(self.hooks.items()): hooks.setdefault(key, cb)] *)
Fixpoint default_hooks (session_hooks : pdict) (hooks : pyobj)
  : res pyobj :=
  match session_hooks with
  | [] => Ok hooks
  | (key, cb) :: t =>
      match hooks with
      | PDict h => default_hooks t (PDict (dict_setdefault key cb h))
      | _ => Err AttributeError
      end
  end.

(** [[name for name in cookies if cookies[name] is None]] *)
Fixpoint dead_names (cookies : pdict) : list string :=
  match cookies with
  | [] => []
  | (name, PNone) :: t => name :: dead_names t
  | _ :: t => dead_names t
  end.

(** Lines 251 to 268: the cookies of the session merged into the ones
    passed in.  The result is the jar the request works with. *)
Definition merge_cookies (self : pdict) (cookies : pyobj) : M pyobj :=
  (p <- (if negb (is_cookiejar cookies) then
           (cj <- cookiejar_from_dict cookies ;;
            match cookies with
            | PNone => ret (cj, None)
            | PDict d => ret (cj, Some (dead_names d))
            | PList [] | PTuple [] | PStr EmptyString => ret (cj, Some [])
            | _ => raise TypeError
            end)
         else ret (cookies, None)) ;;
   let working := fst p in
   let dead_cookies : option (list string) := snd p in
   session_cookies <- lift (self_attr self "cookies") ;;
   set_cookies_from session_cookies working ;;;
   match dead_cookies with
   | Some names =>
       for_each names (fun name => remove_cookie_by_name working name)
   | None => ret tt
   end ;;;
   ret working)%M.

(** Lines 271 to 278: every attribute of the session but the cookies is
    merged into the arguments. *)
Fixpoint merge_session_attrs (self : pdict) (attrs : list string)
  (args : pdict) : res pdict :=
  match attrs with
  | [] => Ok args
  | attr :: t =>
      if String.eqb attr "cookies" then merge_session_attrs self t args
      else
        let session_val := dict_get_default attr PNone self in
        let local_val := dict_get_default attr PNone args in
        (let? merged := merge_kwargs local_val session_val in
         merge_session_attrs self t (dict_set attr merged args))%res
  end.

(** [Session.old_request] up to line 278: the merged arguments. *)
Definition old_request_args (E : collaborators) (self : pdict)
  (method : string) (url : pyobj) (kwargs : pdict) : M pdict :=
  (lift (check_kwargs request_params kwargs) ;;;
   let params := dict_get_default "params" PNone kwargs in
   let data := dict_get_default "data" PNone kwargs in
   let headers := dict_get_default "headers" PNone kwargs in
   let cookies := dict_get_default "cookies" PNone kwargs in
   let files := dict_get_default "files" PNone kwargs in
   let auth := dict_get_default "auth" PNone kwargs in
   let timeout := dict_get_default "timeout" PNone kwargs in
   let allow_redirects :=
     dict_get_default "allow_redirects" (PBool true) kwargs in
   let proxies := dict_get_default "proxies" PNone kwargs in
   let hooks := dict_get_default "hooks" PNone kwargs in
   let config := dict_get_default "config" PNone kwargs in
   let prefetch := dict_get_default "prefetch" PNone kwargs in
   let verify := dict_get_default "verify" PNone kwargs in
   let cert := dict_get_default "cert" PNone kwargs in
   let method := upper method in
   let data := if_none data (PList []) in
   let files := if_none files (PList []) in
   let headers := if_none headers (PDict []) in
   let params := if_none params (PDict []) in
   let hooks := if_none hooks (PDict []) in
   prefetch <- match prefetch with
               | PNone => lift (self_attr self "prefetch")
               | _ => ret prefetch
               end ;;
   session_hooks <- lift (self_attr self "hooks") ;;
   hooks <- match session_hooks with
            | PDict sh => lift (default_hooks sh hooks)
            | _ => raise AttributeError
            end ;;
   headers <- expanded_headers E headers ;;
   params <- lift (from_key_val_list params) ;;
   headers <- lift (from_key_val_list headers) ;;
   hooks <- lift (from_key_val_list hooks) ;;
   proxies <- lift (from_key_val_list proxies) ;;
   config <- lift (from_key_val_list config) ;;
   poolmanager <- lift (self_attr self "poolmanager") ;;
   let args :=
     [("method", PStr method); ("url", url); ("data", data);
      ("params", params); ("headers", headers); ("cookies", cookies);
      ("files", files); ("auth", auth); ("hooks", hooks);
      ("timeout", timeout); ("allow_redirects", allow_redirects);
      ("proxies", proxies); ("config", config); ("prefetch", prefetch);
      ("verify", verify); ("cert", cert); ("_poolmanager", poolmanager)] in
   working <- merge_cookies self cookies ;;
   let args := dict_set "cookies" working args in
   lift (merge_session_attrs self __attrs__ args))%M.

(** [Session.old_request] *)
Definition old_request (E : collaborators) (self : pdict)
  (method : string) (url : pyobj) (kwargs : pdict) : M pyobj :=
  (let return_response :=
     dict_get_default "return_response" (PBool true) kwargs in
   args <- old_request_args E self method url kwargs ;;
   hooks <- lift (dict_item "hooks" args) ;;
   args <- lift (dispatch_hook E "args" hooks (PDict args)) ;;
   args <- match args with
           | PDict a => ret a
           | _ => raise TypeError
           end ;;
   let r := Request_new args in
   r <- lift (setattr r "session" (PObj "Session" true self)) ;;
   t <- truthyM return_response ;;
   if negb t then ret r
   else Session_send_request E self r args)%M.

Definition get (E : collaborators) (self : pdict) (url : pyobj)
  (kwargs : pdict) : M pyobj :=
  let kwargs := dict_setdefault "allow_redirects" (PBool true) kwargs in
  request E self "get" url kwargs.

Definition options (E : collaborators) (self : pdict) (url : pyobj)
  (kwargs : pdict) : M pyobj :=
  let kwargs := dict_setdefault "allow_redirects" (PBool true) kwargs in
  request E self "options" url kwargs.

Definition head (E : collaborators) (self : pdict) (url : pyobj)
  (kwargs : pdict) : M pyobj :=
  let kwargs := dict_setdefault "allow_redirects" (PBool false) kwargs in
  request E self "head" url kwargs.

Definition post (E : collaborators) (self : pdict) (url : pyobj)
  (data : pyobj) (kwargs : pdict) : M pyobj :=
  request E self "post" url (dict_set "data" data kwargs).

Definition put (E : collaborators) (self : pdict) (url : pyobj)
  (data : pyobj) (kwargs : pdict) : M pyobj :=
  request E self "put" url (dict_set "data" data kwargs).

Definition patch (E : collaborators) (self : pdict) (url : pyobj)
  (data : pyobj) (kwargs : pdict) : M pyobj :=
  request E self "patch" url (dict_set "data" data kwargs).

Definition delete (E : collaborators) (self : pdict) (url : pyobj)
  (kwargs : pdict) : M pyobj :=
  request E self "delete" url kwargs.

(** [Session.close]: [pass]. *)
Definition close (self : pdict) : M unit := ret tt.

(** [Session.__enter__] *)
Definition __enter__ (self : pdict) : pdict := self.

(** [Session.__exit__] *)
Definition __exit__ (self : pdict) (args : list pyobj) : M unit :=
  close self.

(** [Session.__getstate__]: the dictionary of the attributes [__attrs__]
    names, [None] standing for one the session does not have. *)
Definition __getstate__ (self : pdict) : pdict :=
  dict_update []
    (map (fun attr => (attr, dict_get_default attr PNone self)) __attrs__).

(** [Session.__setstate__]: every item of [state] becomes an attribute,
    then [init_poolmanager] is called, a method the class does not define
    in the sources and that is taken as a parameter. *)
Definition __setstate__ (init_poolmanager : pdict -> M pdict)
  (self : pdict) (state : pyobj) : M pdict :=
  match state with
  | PDict st => init_poolmanager (dict_update self st)
  | _ => raise AttributeError
  end.

End Session.

(** The function [session]: a [Session] for context-management. *)
Definition session (E : collaborators) (kwargs : pdict) : M pdict :=
  Session.__init__ E kwargs.

(** ** api.py *)

Module api.

Definition request_params : list string :=
  ["params"; "data"; "headers"; "cookies"; "files"; "auth"; "timeout";
   "allow_redirects"; "proxies"; "hooks"; "config"; "_pools";
   "_return_request"].

(** [config.get(name)] *)
Definition config_get (config : pyobj) (name : string) : res pyobj :=
  match config with
  | PDict c => Ok (dict_get_default name PNone c)
  | _ => Err AttributeError
  end.

(** [x or config.get(name)] *)
Definition or_config (x config : pyobj) (name : string) : M pyobj :=
  (t <- truthyM x ;;
   if t then ret x else lift (config_get config name))%M.

(** [hooks[name]], for the dictionary [setup_hooks] returns. *)
Definition hooks_item (hooks : pyobj) (name : string) : res pyobj :=
  match hooks with
  | PDict h => dict_item name h
  | _ => Err TypeError
  end.

(** [api.request] up to line 71: the arguments of the request. *)
Definition request_args (E : collaborators) (method : string)
  (url : pyobj) (kwargs : pdict) : M pdict :=
  (lift (check_kwargs request_params kwargs) ;;;
   let params := dict_get_default "params" PNone kwargs in
   let data := dict_get_default "data" PNone kwargs in
   let headers := dict_get_default "headers" PNone kwargs in
   let cookies := dict_get_default "cookies" PNone kwargs in
   let files := dict_get_default "files" PNone kwargs in
   let auth := dict_get_default "auth" PNone kwargs in
   let timeout := dict_get_default "timeout" PNone kwargs in
   let allow_redirects :=
     dict_get_default "allow_redirects" (PBool false) kwargs in
   let proxies := dict_get_default "proxies" PNone kwargs in
   let hooks := dict_get_default "hooks" PNone kwargs in
   let config := dict_get_default "config" PNone kwargs in
   let _pools := dict_get_default "_pools" PNone kwargs in
   let method := upper method in
   config <- lift (get_config E config) ;;
   headers <- expanded_headers E headers ;;
   timeout <- or_config timeout config "timeout" ;;
   proxies <- or_config proxies config "proxies" ;;
   ret [("method", PStr method); ("url", url); ("data", data);
        ("params", params); ("headers", headers); ("cookies", cookies);
        ("files", files); ("auth", auth); ("timeout", timeout);
        ("hooks", hooks); ("allow_redirects", allow_redirects);
        ("proxies", proxies); ("_pools", _pools)])%M.

(** [api.request] *)
Definition request (E : collaborators) (method : string) (url : pyobj)
  (kwargs : pdict) : M pyobj :=
  (let hooks := dict_get_default "hooks" PNone kwargs in
   let _return_request :=
     dict_get_default "_return_request" (PBool false) kwargs in
   args <- request_args E method url kwargs ;;
   hooks <- lift (setup_hooks E (if_none hooks (PDict []))) ;;
   args_hooks <- lift (hooks_item hooks "args") ;;
   args <- lift (dispatch_hooks E args_hooks (PDict args)) ;;
   args <- match args with
           | PDict a => ret a
           | _ => raise TypeError
           end ;;
   let r := Request_new args in
   pre_hooks <- lift (hooks_item hooks "pre_request") ;;
   r <- lift (dispatch_hooks E pre_hooks r) ;;
   t <- truthyM _return_request ;;
   if t then ret r
   else
     (record_send r ;;;
      r <- lift (Request_send E r) ;;
      post_hooks <- lift (hooks_item hooks "post_request") ;;
      r <- lift (dispatch_hooks E post_hooks r) ;;
      response_hooks <- lift (hooks_item hooks "response") ;;
      response <- lift (getattr r "response") ;;
      response <- lift (dispatch_hooks E response_hooks response) ;;
      ret response))%M.

(** [if 'allow_redirects' not in kwargs: kwargs['allow_redirects'] = True] *)
Definition allow_redirects_by_default (kwargs : pdict) : pdict :=
  if negb (dict_contains "allow_redirects" kwargs)
  then dict_set "allow_redirects" (PBool true) kwargs
  else kwargs.

Definition get (E : collaborators) (url : pyobj) (kwargs : pdict)
  : M pyobj :=
  request E "get" url (allow_redirects_by_default kwargs).

Definition head (E : collaborators) (url : pyobj) (kwargs : pdict)
  : M pyobj :=
  request E "head" url (allow_redirects_by_default kwargs).

Definition post (E : collaborators) (url : pyobj) (data : pyobj)
  (kwargs : pdict) : M pyobj :=
  request E "post" url (dict_set "data" data kwargs).

Definition put (E : collaborators) (url : pyobj) (data : pyobj)
  (kwargs : pdict) : M pyobj :=
  request E "put" url (dict_set "data" data kwargs).

Definition patch (E : collaborators) (url : pyobj) (data : pyobj)
  (kwargs : pdict) : M pyobj :=
  request E "patch" url (dict_set "data" data kwargs).

Definition delete (E : collaborators) (url : pyobj) (kwargs : pdict)
  : M pyobj :=
  request E "delete" url kwargs.

End api.

(** ** exceptions.py *)

Inductive exc_class : Type :=
| RequestException
| HTTPError
| ConnectionError
| ProxyError
| SSLError
| Timeout
| URLRequired
| TooManyRedirects
| MissingSchema
| InvalidSchema
| InvalidURL
| ChunkedEncodingError
| ContentDecodingError.

Definition class_name (c : exc_class) : string :=
  match c with
  | RequestException => "RequestException"
  | HTTPError => "HTTPError"
  | ConnectionError => "ConnectionError"
  | ProxyError => "ProxyError"
  | SSLError => "SSLError"
  | Timeout => "Timeout"
  | URLRequired => "URLRequired"
  | TooManyRedirects => "TooManyRedirects"
  | MissingSchema => "MissingSchema"
  | InvalidSchema => "InvalidSchema"
  | InvalidURL => "InvalidURL"
  | ChunkedEncodingError => "ChunkedEncodingError"
  | ContentDecodingError => "ContentDecodingError"
  end.

(** [kwargs.pop(k, None)]: the value and what is left of [kwargs]. *)
Definition dict_pop (k : string) (kwargs : pdict) : pyobj * pdict :=
  (dict_get_default k PNone kwargs, dict_remove k kwargs).

(** The [args] the built-in [IOError] keeps of its positional arguments.
    Given three to five of them it reads them as errno, strerror, filename
    and so on, and when the filename is not [None] it keeps the first two
    only; otherwise it keeps them all. *)
Definition IOError_args (args : list pyobj) : list pyobj :=
  match args with
  | errno :: strerror :: filename :: more =>
      match filename with
      | PNone => args
      | _ => if (length more <=? 2)%nat then [errno; strerror] else args
      end
  | _ => args
  end.

(** [RequestException.__init__], which every class of the module inherits:
    the exception object of class [c] built from [*args] and [**kwargs],
    with the attributes the method assigns and the [args] of the base
    class.  The base class [IOError] takes no keyword argument. *)
Definition RequestException_init (js : list jar) (c : exc_class)
  (args : list pyobj) (kwargs : pdict) : res pyobj :=
  let (response, kwargs) := dict_pop "response" kwargs in
  let (request, kwargs) := dict_pop "request" kwargs in
  (let? request :=
     if truthy js response && negb (truthy js request)
     then getattr response "request"
     else Ok request in
   match kwargs with
   | [] =>
       Ok (PObj (class_name c) true
             [("response", response); ("request", request);
              ("args", PTuple (IOError_args args))])
   | _ :: _ => Err TypeError
   end)%res.

(** The classes the exception classes of the module derive from: one
    another, the built-in [IOError] and [ValueError], and urllib3's
    [HTTPError], imported as [BaseHTTPError]. *)
Inductive pyclass : Type :=
| Class (c : exc_class)
| Builtin_IOError
| Builtin_ValueError
| BaseHTTPError.

(** The bases each [class] statement of the module names. *)
Definition class_bases (c : pyclass) : list pyclass :=
  match c with
  | Class RequestException => [Builtin_IOError]
  | Class HTTPError => [Class RequestException]
  | Class ConnectionError => [Class RequestException]
  | Class ProxyError => [Class ConnectionError]
  | Class SSLError => [Class ConnectionError]
  | Class Timeout => [Class RequestException]
  | Class URLRequired => [Class RequestException]
  | Class TooManyRedirects => [Class RequestException]
  | Class MissingSchema => [Class RequestException; Builtin_ValueError]
  | Class InvalidSchema => [Class RequestException; Builtin_ValueError]
  | Class InvalidURL => [Class RequestException; Builtin_ValueError]
  | Class ChunkedEncodingError => [Class RequestException]
  | Class ContentDecodingError => [Class RequestException; BaseHTTPError]
  | Builtin_IOError | Builtin_ValueError | BaseHTTPError => []
  end.

Definition exc_class_eq_dec (a b : exc_class) : {a = b} + {a <> b}.
Proof. decide equality. Defined.

Definition pyclass_eqb (a b : pyclass) : bool :=
  match a, b with
  | Class x, Class y => if exc_class_eq_dec x y then true else false
  | Builtin_IOError, Builtin_IOError => true
  | Builtin_ValueError, Builtin_ValueError => true
  | BaseHTTPError, BaseHTTPError => true
  | _, _ => false
  end.

(** [c] is [target] or reaches it through at most [depth] base classes. *)
Fixpoint issubclass_upto (depth : nat) (c target : pyclass) : bool :=
  pyclass_eqb c target
  || match depth with
     | O => false
     | S d => existsb (fun b => issubclass_upto d b target) (class_bases c)
     end.

(** [issubclass(c, target)]: no chain of bases is longer than the number
    of classes of the module. *)
Definition issubclass (c target : pyclass) : bool :=
  issubclass_upto 13 c target.

(** All the exception classes of the module. *)
Definition exception_classes : list exc_class :=
  [RequestException; HTTPError; ConnectionError; ProxyError; SSLError;
   Timeout; URLRequired; TooManyRedirects; MissingSchema; InvalidSchema;
   InvalidURL; ChunkedEncodingError; ContentDecodingError].

(** ** Vocabulary of the statements *)

(** [m] keeps the property [I] of the world, whether it returns or
    raises. *)
Definition preserves {A : Type} (I : world -> Prop) (m : M A) : Prop :=
  forall w, I w -> I (snd (m w)).

(** The jar at location [l] holds exactly the cookies [j]. *)
Definition jar_at (l : nat) (j : jar) (w : world) : Prop :=
  nth_error (jars w) l = Some j.

(** The transport has been called with exactly the requests [s]. *)
Definition sent_is (s : list pyobj) (w : world) : Prop := sent w = s.

(** The jar of a plain name to value mapping. *)
Definition jar_of (d : pdict) : jar :=
  fold_left (fun j kv => set_cookie (create_cookie (fst kv) (snd kv)) j) d [].

(** [session.poolmanager = pm], the attribute [Session.old_request] reads at
    line 248 and [__init__] does not set. *)
Definition with_poolmanager (pm : pyobj) (self : pdict) : pdict :=
  dict_set "poolmanager" pm self.

(** Collaborators that do the least: hooks and header expansion return
    their argument, there are no configuration defaults, preparing wraps
    the request and the transport answers with a response that refers to
    the request it was given. *)
Definition plain_collaborators : collaborators :=
  mkCollaborators
    (fun _ x => Ok x)
    (fun v => Ok v)
    []
    (fun req => Ok (PObj "PreparedRequest" true [("request", req)]))
    (fun prep => Ok (PObj "Response" true [("request", prep)]))
    (fun _ r _ =>
       (record_send r ;;; ret (PObj "Response" true [("request", r)]))%M)
    (fun config => Ok (if_none config (PDict [])))
    (fun hooks =>
       match hooks with
       | PDict h =>
           Ok (PDict
                 (fold_left (fun h name => dict_setdefault name (PList []) h)
                    ["args"; "pre_request"; "post_request"; "response"] h))
       | _ => Err TypeError
       end)
    (fun r => setattr r "response" (PObj "Response" true [("request", r)])).

(** The attributes of a session created with nothing but cookies, its jar
    being [cookies]. *)
Definition new_session (E : collaborators) (cookies : pyobj) : pdict :=
  [("headers", PDict []); ("auth", PNone); ("timeout", PNone);
   ("proxies", PDict []); ("hooks", PDict []); ("params", PDict []);
   ("config",
    PDict (fold_left (fun c kv => dict_setdefault (fst kv) (snd kv) c)
             (defaults E) []));
   ("prefetch", PBool true); ("verify", PBool true); ("cert", PNone);
   ("cookies", cookies)].

(** The jar a request works with: the cookies [sj] of the session set in
    the jar of the mapping [cd] passed in, the names [cd] maps to [None]
    removed. *)
Definition working_jar (cd : pdict) (sj : jar) : jar :=
  fold_left
    (fun j name => filter (fun c => negb (String.eqb (cookie_name c) name)) j)
    (Session.dead_names cd)
    (fold_left (fun j c => set_cookie c j) sj (jar_of cd)).

(** The arguments of a GET request that passes nothing but cookies, on a
    session created with nothing but cookies. *)
Definition built_args (E : collaborators) (pm url cookies : pyobj) : pdict :=
  [("method", PStr "GET"); ("url", url); ("data", PList []);
   ("params", PDict []); ("headers", PDict []); ("cookies", cookies);
   ("files", PList []); ("auth", PNone); ("hooks", PDict []);
   ("timeout", PNone); ("allow_redirects", PBool true);
   ("proxies", PDict []);
   ("config",
    PDict (fold_left (fun c kv => dict_setdefault (fst kv) (snd kv) c)
             (defaults E) []));
   ("prefetch", PBool true); ("verify", PBool true); ("cert", PNone);
   ("_poolmanager", pm)].

Definition empty_world : world := mkWorld [] [].

(** The bag [ll] maps [k] to the unset sentinel. *)
Definition is_unset (ll : pdict) (k : string) : bool :=
  match dict_get k ll with
  | Some PNone => true
  | _ => false
  end.

Ltac wf_by_computation :=
  unfold dict_wf, jar_wf; simpl;
  repeat (constructor; [simpl; intuition discriminate|]); constructor.

(** * Properties *)

(** ** Dictionaries *)

Lemma dict_get_set (k k' : string) (v : pyobj) (d : pdict) :
  dict_get k (dict_set k' v d)
  = if String.eqb k' k then Some v else dict_get k d.
Proof.
  induction d as [|[a b] t IH]; simpl.
  - reflexivity.
  - destruct (String.eqb a k') eqn:Eak; simpl.
    + apply String.eqb_eq in Eak; subst a.
      destruct (String.eqb k' k); reflexivity.
    + rewrite IH.
      destruct (String.eqb k' k) eqn:Ek; [|reflexivity].
      apply String.eqb_eq in Ek; subst k'. rewrite Eak. reflexivity.
Qed.

Lemma dict_get_None (k : string) (d : pdict) :
  dict_get k d = None <-> ~ In k (keys d).
Proof.
  induction d as [|[a b] t IH]; simpl.
  - tauto.
  - destruct (String.eqb a k) eqn:E.
    + apply String.eqb_eq in E. split; [discriminate | tauto].
    + apply String.eqb_neq in E. tauto.
Qed.

Lemma dict_contains_In (k : string) (d : pdict) :
  dict_contains k d = true <-> In k (keys d).
Proof.
  unfold dict_contains.
  destruct (dict_get k d) eqn:E.
  - split; [intros _|reflexivity].
    destruct (in_dec string_dec k (keys d)) as [H|H]; [exact H|].
    apply dict_get_None in H. congruence.
  - split; [discriminate|]. intros H. apply dict_get_None in E. tauto.
Qed.

Lemma dict_set_fresh (k : string) (v : pyobj) (d : pdict) :
  ~ In k (keys d) -> dict_set k v d = d ++ [(k, v)].
Proof.
  induction d as [|[a b] t IH]; simpl; intros H.
  - reflexivity.
  - destruct (String.eqb a k) eqn:E.
    + apply String.eqb_eq in E. tauto.
    + rewrite IH by tauto. reflexivity.
Qed.

Lemma keys_dict_set_present (k : string) (v : pyobj) (d : pdict) :
  In k (keys d) -> keys (dict_set k v d) = keys d.
Proof.
  induction d as [|[a b] t IH]; simpl; intros H.
  - tauto.
  - destruct (String.eqb a k) eqn:E; simpl.
    + apply String.eqb_eq in E. subst. reflexivity.
    + apply String.eqb_neq in E. f_equal. apply IH. tauto.
Qed.

Lemma dict_set_wf (k : string) (v : pyobj) (d : pdict) :
  dict_wf d -> dict_wf (dict_set k v d).
Proof.
  unfold dict_wf. intros H.
  destruct (in_dec string_dec k (keys d)) as [Hin|Hin].
  - rewrite keys_dict_set_present by exact Hin. exact H.
  - rewrite dict_set_fresh by exact Hin.
    unfold keys. rewrite map_app. simpl.
    apply NoDup_app; [exact H | repeat constructor; simpl; tauto |].
    intros a Ha [<-|[]]. auto.
Qed.

Lemma dict_update_wf (other d : pdict) :
  dict_wf d -> dict_wf (dict_update d other).
Proof.
  unfold dict_update. revert d.
  induction other as [|[a b] t IH]; simpl; intros d H.
  - exact H.
  - apply IH, dict_set_wf, H.
Qed.

Lemma dict_get_update (other d : pdict) (k : string) :
  dict_wf other ->
  dict_get k (dict_update d other)
  = match dict_get k other with
    | Some v => Some v
    | None => dict_get k d
    end.
Proof.
  unfold dict_update, dict_wf. revert d.
  induction other as [|[a b] t IH]; simpl; intros d H.
  - reflexivity.
  - inversion H as [|? ? Hnotin Hnodup]; subst.
    rewrite IH by exact Hnodup. rewrite dict_get_set.
    destruct (String.eqb a k) eqn:E.
    + apply String.eqb_eq in E; subst a.
      apply dict_get_None in Hnotin. rewrite Hnotin. reflexivity.
    + reflexivity.
Qed.

Lemma dict_update_app (items pre : pdict) :
  dict_wf (pre ++ items) -> dict_update pre items = pre ++ items.
Proof.
  unfold dict_update, dict_wf, keys. revert pre.
  induction items as [|[a b] t IH]; simpl; intros pre H.
  - now rewrite app_nil_r.
  - rewrite dict_set_fresh.
    + rewrite IH; rewrite <- app_assoc; [reflexivity | exact H].
    + rewrite map_app in H. simpl in H.
      apply NoDup_remove_2 in H. intros Hin. apply H.
      apply in_or_app. left. exact Hin.
Qed.

Lemma dict_update_nil (d : pdict) : dict_wf d -> dict_update [] d = d.
Proof. intros H. apply (dict_update_app d []). exact H. Qed.

Lemma dict_set_app (k : string) (v : pyobj) (pre d : pdict) :
  ~ In k (keys pre) -> dict_set k v (pre ++ d) = pre ++ dict_set k v d.
Proof.
  induction pre as [|[a b] t IH]; simpl; intros H.
  - reflexivity.
  - destruct (String.eqb a k) eqn:E.
    + apply String.eqb_eq in E. tauto.
    + rewrite IH by tauto. reflexivity.
Qed.

Lemma dict_update_self_app (items pre : pdict) :
  dict_wf (pre ++ items) -> dict_update (pre ++ items) items = pre ++ items.
Proof.
  unfold dict_update, dict_wf, keys. revert pre.
  induction items as [|[a b] t IH]; simpl; intros pre H.
  - reflexivity.
  - rewrite dict_set_app.
    + simpl. rewrite String.eqb_refl.
      replace (pre ++ (a, b) :: t) with ((pre ++ [(a, b)]) ++ t)
        by (rewrite <- app_assoc; reflexivity).
      apply IH. rewrite <- app_assoc. exact H.
    + rewrite map_app in H. simpl in H.
      apply NoDup_remove_2 in H. intros Hin. apply H.
      apply in_or_app. left. exact Hin.
Qed.

Lemma dict_update_self (d : pdict) : dict_wf d -> dict_update d d = d.
Proof. intros H. apply (dict_update_self_app d []). exact H. Qed.

Lemma keys_dict_remove (k : string) (d : pdict) :
  forall x, In x (keys (dict_remove k d)) -> In x (keys d).
Proof.
  induction d as [|[a b] t IH]; simpl; intros x H.
  - exact H.
  - destruct (String.eqb a k); simpl in *; [tauto|].
    destruct H as [H|H]; [tauto|]. right. apply IH, H.
Qed.

Lemma dict_remove_wf (k : string) (d : pdict) :
  dict_wf d -> dict_wf (dict_remove k d).
Proof.
  unfold dict_wf.
  induction d as [|[a b] t IH]; simpl; intros H.
  - exact H.
  - inversion H as [|? ? Hnotin Hnodup]; subst.
    destruct (String.eqb a k); simpl; [exact Hnodup|].
    constructor; [|apply IH, Hnodup].
    intros Hin. apply Hnotin. eapply keys_dict_remove, Hin.
Qed.

Lemma dict_get_remove (k k' : string) (d : pdict) :
  dict_wf d ->
  dict_get k (dict_remove k' d)
  = if String.eqb k' k then None else dict_get k d.
Proof.
  unfold dict_wf.
  induction d as [|[a b] t IH]; simpl; intros H.
  - destruct (String.eqb k' k); reflexivity.
  - inversion H as [|? ? Hnotin Hnodup]; subst.
    destruct (String.eqb a k') eqn:Eak; simpl.
    + apply String.eqb_eq in Eak; subst a.
      destruct (String.eqb k' k) eqn:Ek; [|reflexivity].
      apply String.eqb_eq in Ek; subst k'.
      apply dict_get_None. exact Hnotin.
    + rewrite IH by exact Hnodup.
      destruct (String.eqb k' k) eqn:Ek; [|reflexivity].
      apply String.eqb_eq in Ek; subst k'. rewrite Eak. reflexivity.
Qed.

(** ** merge_kwargs *)

Lemma del_none_keys_noop (items kwargs : pdict) :
  Forall (fun kv => snd kv <> PNone) items ->
  del_none_keys items kwargs = Ok kwargs.
Proof.
  induction 1 as [|[a b] t Hb _ IH]; simpl.
  - reflexivity.
  - simpl in Hb. destruct b; try exact IH. congruence.
Qed.

(** The removal loop never fails on the keys it has just inserted, and it
    removes exactly the keys the local bag maps to [None]. *)
Lemma del_none_keys_spec (items : pdict) :
  forall kwargs : pdict,
  dict_wf items -> dict_wf kwargs ->
  (forall k, In k (keys items) -> dict_contains k kwargs = true) ->
  exists m,
    del_none_keys items kwargs = Ok m /\ dict_wf m /\
    forall k,
      dict_get k m
      = match dict_get k items with
        | Some PNone => None
        | _ => dict_get k kwargs
        end.
Proof.
  induction items as [|[a b] t IH]; intros kwargs Hi Hk Hin.
  - exists kwargs. simpl. auto.
  - inversion Hi as [|? ? Hnotin Hnodup]; subst.
    assert (Hskip :
      b <> PNone ->
      exists m,
        del_none_keys t kwargs = Ok m /\ dict_wf m /\
        forall k,
          dict_get k m
          = match dict_get k ((a, b) :: t) with
            | Some PNone => None
            | _ => dict_get k kwargs
            end).
    { intros Hb.
      destruct (IH kwargs Hnodup Hk) as (m & Hm & Hwf & Hget).
      - intros k Hkin. apply Hin. simpl. tauto.
      - exists m. repeat split; try assumption.
        intros k. rewrite Hget. simpl.
        destruct (String.eqb a k) eqn:E; [|reflexivity].
        apply String.eqb_eq in E; subst a.
        apply dict_get_None in Hnotin. rewrite Hnotin.
        destruct b; congruence. }
    destruct b; simpl; try (apply Hskip; discriminate).
    unfold dict_del. rewrite (Hin a) by (simpl; tauto).
    destruct (IH (dict_remove a kwargs) Hnodup (dict_remove_wf a kwargs Hk))
      as (m & Hm & Hwf & Hget).
    + intros k Hkin. unfold dict_contains.
      rewrite dict_get_remove by exact Hk.
      destruct (String.eqb a k) eqn:E.
      * apply String.eqb_eq in E; subst a. tauto.
      * apply Hin. simpl. tauto.
    + exists m. repeat split; try assumption.
      intros k. rewrite Hget, dict_get_remove by exact Hk.
      destruct (String.eqb a k) eqn:E; [|reflexivity].
      apply String.eqb_eq in E; subst a.
      apply dict_get_None in Hnotin. rewrite Hnotin. reflexivity.
Qed.

(** What the merge of two dictionaries holds under each key. *)
Lemma merge_kwargs_dict_lookup (ll dd : pdict) :
  dict_wf ll -> dict_wf dd ->
  exists m,
    merge_kwargs (PDict ll) (PDict dd) = Ok (PDict m) /\ dict_wf m /\
    forall k,
      dict_get k m
      = match dict_get k ll with
        | Some PNone => None
        | Some v => Some v
        | None => dict_get k dd
        end.
Proof.
  intros Hl Hd. unfold merge_kwargs. simpl.
  rewrite (dict_update_nil ll Hl), (dict_update_nil dd Hd).
  destruct (del_none_keys_spec ll (dict_update dd ll) Hl
              (dict_update_wf ll dd Hd)) as (m & Hm & Hwf & Hget).
  - intros k Hin. unfold dict_contains.
    rewrite dict_get_update by exact Hl.
    destruct (dict_get k ll) eqn:E; [reflexivity|].
    apply dict_get_None in E. tauto.
  - exists m. rewrite Hm. simpl. repeat split; try assumption.
    intros k. rewrite Hget, dict_get_update by exact Hl.
    destruct (dict_get k ll) as [[]|]; reflexivity.
Qed.

(** C1. Unset wins: when the local bag maps a key [k] to the unset sentinel
    [None], the merged bag does not contain [k], whatever value the default
    bag has for [k]; this holds for every such key of the local bag. *)
Theorem merge_kwargs_unset_wins (local default : pdict) (k : string)
  (v : pyobj) :
  dict_wf local -> dict_wf default ->
  dict_get k default = Some v ->
  dict_get k local = Some PNone ->
  exists merged,
    merge_kwargs (PDict local) (PDict default) = Ok (PDict merged) /\
    dict_contains k merged = false.
Proof.
  intros Hl Hd _ Hk.
  destruct (merge_kwargs_dict_lookup local default Hl Hd)
    as (m & Hm & _ & Hget).
  exists m. split; [exact Hm|].
  unfold dict_contains. rewrite Hget, Hk. reflexivity.
Qed.

Lemma merge_kwargs_unset_wins_witness :
  exists merged,
    merge_kwargs (PDict [("Accept", PNone); ("X-B", PStr "2")])
      (PDict [("Accept", PStr "*/*"); ("User-Agent", PStr "requests")])
    = Ok (PDict merged) /\
    dict_contains "Accept" merged = false.
Proof.
  apply (merge_kwargs_unset_wins
           [("Accept", PNone); ("X-B", PStr "2")]
           [("Accept", PStr "*/*"); ("User-Agent", PStr "requests")]
           "Accept" (PStr "*/*")).
  - wf_by_computation.
  - wf_by_computation.
  - reflexivity.
  - reflexivity.
Defined.

(** C7, as the spec states it, fails: a bag that stores the unset sentinel
    is not a fixed point of the merge, its [None] entries are removed. *)
Lemma merge_kwargs_not_idempotent :
  let x := PDict [("a", PNone); ("b", PStr "1")] in
  merge_kwargs x x = Ok (PDict [("b", PStr "1")]) /\ merge_kwargs x x <> Ok x.
Proof.
  split; [reflexivity | discriminate].
Qed.

(** C7, amended. The merge is idempotent on every settings bag that stores
    no unset sentinel: for such a bag [x], [merge_kwargs x x] is [x]. *)
Theorem merge_kwargs_idempotent (x : pyobj) :
  unset_free x -> merge_kwargs x x = Ok x.
Proof.
  destruct x; simpl; intros H; try reflexivity; [|contradiction].
  destruct H as [Hwf Hnone].
  unfold merge_kwargs. simpl.
  rewrite (dict_update_nil d Hwf), (dict_update_self d Hwf).
  rewrite (del_none_keys_noop d d Hnone). reflexivity.
Qed.

Lemma merge_kwargs_idempotent_witness :
  merge_kwargs (PDict [("http", PStr "proxy:3128"); ("https", PStr "p:1")])
    (PDict [("http", PStr "proxy:3128"); ("https", PStr "p:1")])
  = Ok (PDict [("http", PStr "proxy:3128"); ("https", PStr "p:1")]).
Proof.
  apply (merge_kwargs_idempotent
           (PDict [("http", PStr "proxy:3128"); ("https", PStr "p:1")])).
  simpl. split.
  - wf_by_computation.
  - repeat constructor; simpl; discriminate.
Defined.

(** ** The store of jars *)

Lemma nth_error_snoc {A : Type} (l : list A) (x : A) :
  nth_error (l ++ [x]) (length l) = Some x.
Proof.
  rewrite nth_error_app2 by lia. now rewrite Nat.sub_diag.
Qed.

Lemma nth_error_app_Some {A : Type} (l l' : list A) (n : nat) (x : A) :
  nth_error l n = Some x -> nth_error (l ++ l') n = Some x.
Proof.
  intros H. rewrite nth_error_app1; [exact H|].
  apply nth_error_Some. congruence.
Qed.

Lemma update_nth_snoc {A : Type} (l : list A) (x y : A) :
  update_nth (length l) y (l ++ [x]) = l ++ [y].
Proof.
  induction l as [|a t IH]; simpl; [reflexivity | now rewrite IH].
Qed.

Lemma update_nth_same {A : Type} (l : list A) (n : nat) (x : A) :
  nth_error l n = Some x -> update_nth n x l = l.
Proof.
  revert n. induction l as [|a t IH]; intros [|n]; simpl; intros H;
    try reflexivity.
  - congruence.
  - now rewrite IH.
Qed.

Lemma nth_error_update_nth_ne {A : Type} (l : list A) (n m : nat) (x : A) :
  n <> m -> nth_error (update_nth n x l) m = nth_error l m.
Proof.
  revert n m. induction l as [|a t IH]; intros [|n] [|m] H; simpl;
    try reflexivity.
  - congruence.
  - apply IH. congruence.
Qed.

Lemma nth_error_update_nth_eq {A : Type} (l : list A) (n : nat) (x y : A) :
  nth_error l n = Some y -> nth_error (update_nth n x l) n = Some x.
Proof.
  revert n. induction l as [|a t IH]; intros [|n]; simpl; intros H;
    try discriminate.
  - reflexivity.
  - apply IH, H.
Qed.

Lemma update_nth_twice {A : Type} (l : list A) (n : nat) (x y : A) :
  update_nth n y (update_nth n x l) = update_nth n y l.
Proof.
  revert n. induction l as [|a t IH]; intros [|n]; simpl;
    try reflexivity.
  now rewrite IH.
Qed.

(** A loop that rewrites the jar at [dst] once per element. *)
Lemma for_each_write_run {A : Type} (f : A -> jar -> jar) (dst : nat)
  (xs : list A) :
  forall (w : world) (j : jar),
  nth_error (jars w) dst = Some j ->
  for_each xs (fun x => bind (read_jar dst)
                          (fun j => write_jar dst (f x j))) w
  = (Ok tt,
     mkWorld (update_nth dst (fold_left (fun j x => f x j) xs j) (jars w))
       (sent w)).
Proof.
  induction xs as [|x t IH]; intros [js s] j H; simpl in *.
  - now rewrite update_nth_same.
  - unfold bind at 1. unfold bind at 1. unfold read_jar at 1. simpl.
    rewrite H. unfold write_jar at 1. simpl.
    rewrite (IH _ (f x j)); simpl.
    + now rewrite update_nth_twice.
    + eapply nth_error_update_nth_eq, H.
Qed.

(** ** Cookie jars *)

Lemma same_key_true (c c' : Cookie) :
  same_key c c' = true <-> cookie_key c = cookie_key c'.
Proof.
  unfold same_key, cookie_key.
  rewrite !andb_true_iff, !String.eqb_eq.
  split; [intros [[-> ->] ->]; reflexivity | intros H; inversion H; auto].
Qed.

(** Setting a cookie the jar already holds changes nothing. *)
Lemma set_cookie_present (c : Cookie) (j : jar) :
  jar_wf j -> In c j -> set_cookie c j = j.
Proof.
  unfold jar_wf.
  induction j as [|c' t IH]; simpl; intros Hwf Hin; [tauto|].
  inversion Hwf as [|? ? Hnotin Hnodup]; subst.
  destruct (same_key c' c) eqn:E.
  - apply same_key_true in E.
    destruct Hin as [->|Hin]; [reflexivity|].
    exfalso. apply Hnotin. rewrite E. apply in_map, Hin.
  - destruct Hin as [->|Hin].
    + assert (same_key c c = true) by now apply same_key_true.
      congruence.
    + now rewrite IH.
Qed.

Lemma set_cookies_present (cs : list Cookie) (j : jar) :
  jar_wf j -> (forall c, In c cs -> In c j) ->
  fold_left (fun j c => set_cookie c j) cs j = j.
Proof.
  intros Hwf. induction cs as [|c t IH]; simpl; intros Hin.
  - reflexivity.
  - rewrite set_cookie_present by auto. apply IH. auto.
Qed.

(** ** Merging the cookies of the session into the ones passed in *)

Lemma bind_ret {A B : Type} (a : A) (k : A -> M B) (w : world) :
  bind (ret a) k w = k a w.
Proof. reflexivity. Qed.

Lemma bind_lift_ok {A B : Type} (a : A) (k : A -> M B) (w : world) :
  bind (lift (Ok a)) k w = k a w.
Proof. reflexivity. Qed.

Lemma bind_assoc {A B C : Type} (m : M A) (f : A -> M B) (g : B -> M C)
  (w : world) :
  bind (bind m f) g w = bind m (fun a => bind (f a) g) w.
Proof.
  unfold bind. destruct (m w) as [[a|e] w']; reflexivity.
Qed.

Lemma bind_new_jar {B : Type} (j : jar) (k : nat -> M B) (w : world) :
  bind (new_jar j) k w
  = k (length (jars w)) (mkWorld (jars w ++ [j]) (sent w)).
Proof. reflexivity. Qed.

(** Lines 261 to 268, once the working jar is at [n]: the cookies of the
    session are set in it and the dead names removed. *)
Lemma merge_cookies_tail_run (self : pdict) (l n : nat)
  (dead : option (list string)) (w : world) (sj wj : jar) :
  self_attr self "cookies" = Ok (PJar l) ->
  nth_error (jars w) l = Some sj ->
  nth_error (jars w) n = Some wj ->
  bind (lift (self_attr self "cookies"))
    (fun session_cookies =>
       bind (set_cookies_from session_cookies (PJar n))
         (fun _ =>
            bind match dead with
                 | Some names =>
                     for_each names
                       (fun name => remove_cookie_by_name (PJar n) name)
                 | None => ret tt
                 end
              (fun _ => ret (PJar n)))) w
  = (Ok (PJar n),
     mkWorld
       (update_nth n
          (fold_left
             (fun j name =>
                filter (fun c => negb (String.eqb (cookie_name c) name)) j)
             match dead with Some names => names | None => [] end
             (fold_left (fun j c => set_cookie c j) sj wj))
          (jars w))
       (sent w)).
Proof.
  intros Hself Hl Hn.
  rewrite Hself, bind_lift_ok. unfold set_cookies_from.
  rewrite bind_assoc. unfold bind at 1. unfold read_jar at 1. rewrite Hl.
  unfold bind at 1.
  rewrite (for_each_write_run (fun c j => set_cookie c j) n sj w wj Hn).
  destruct dead as [names|].
  - unfold bind at 1. unfold remove_cookie_by_name.
    erewrite (for_each_write_run
                (fun name j =>
                   filter (fun c => negb (String.eqb (cookie_name c) name)) j)
                n names).
    + simpl. now rewrite update_nth_twice.
    + simpl. eapply nth_error_update_nth_eq, Hn.
  - reflexivity.
Qed.

(** The jar a plain mapping stands for. *)
Lemma merge_cookies_dict_run (self : pdict) (d : pdict) (w : world)
  (l : nat) (sj : jar) :
  self_attr self "cookies" = Ok (PJar l) ->
  nth_error (jars w) l = Some sj ->
  Session.merge_cookies self (PDict d) w
  = (Ok (PJar (length (jars w))),
     mkWorld
       (jars w ++
        [fold_left
           (fun j name =>
              filter (fun c => negb (String.eqb (cookie_name c) name)) j)
           (Session.dead_names d)
           (fold_left (fun j c => set_cookie c j) sj
              (fold_left
                 (fun j kv => set_cookie (create_cookie (fst kv) (snd kv)) j)
                 d []))])
       (sent w)).
Proof.
  intros Hself Hl. unfold Session.merge_cookies. simpl.
  rewrite !bind_assoc, bind_new_jar, !bind_ret. simpl fst. simpl snd.
  erewrite merge_cookies_tail_run with (sj := sj); simpl.
  - now rewrite update_nth_snoc.
  - exact Hself.
  - apply nth_error_app_Some, Hl.
  - apply nth_error_snoc.
Qed.

Lemma merge_cookies_none_run (self : pdict) (w : world) (l : nat)
  (sj : jar) :
  self_attr self "cookies" = Ok (PJar l) ->
  nth_error (jars w) l = Some sj ->
  Session.merge_cookies self PNone w
  = (Ok (PJar (length (jars w))),
     mkWorld (jars w ++ [fold_left (fun j c => set_cookie c j) sj []])
       (sent w)).
Proof.
  intros Hself Hl. unfold Session.merge_cookies. simpl.
  rewrite !bind_assoc, bind_new_jar, !bind_ret. simpl fst. simpl snd.
  erewrite merge_cookies_tail_run with (sj := sj); simpl.
  - now rewrite update_nth_snoc.
  - exact Hself.
  - apply nth_error_app_Some, Hl.
  - apply nth_error_snoc.
Qed.

(** Nothing to iterate over: an empty sequence or string passed as cookies
    gives the jar that no cookies give. *)
Lemma merge_cookies_empty_run (self : pdict) (cookies : pyobj) (w : world)
  (l : nat) (sj : jar) :
  cookies = PList [] \/ cookies = PTuple [] \/ cookies = PStr "" ->
  self_attr self "cookies" = Ok (PJar l) ->
  nth_error (jars w) l = Some sj ->
  Session.merge_cookies self cookies w
  = (Ok (PJar (length (jars w))),
     mkWorld (jars w ++ [fold_left (fun j c => set_cookie c j) sj []])
       (sent w)).
Proof.
  intros Hc Hself Hl. unfold Session.merge_cookies.
  destruct Hc as [->|[->| ->]]; simpl;
    rewrite !bind_assoc, bind_new_jar, !bind_ret; simpl fst; simpl snd;
    (erewrite merge_cookies_tail_run with (sj := sj); simpl;
     [ now rewrite update_nth_snoc
     | exact Hself
     | apply nth_error_app_Some, Hl
     | apply nth_error_snoc ]).
Qed.

Lemma merge_cookies_jar_run (self : pdict) (w : world) (l n : nat)
  (sj wj : jar) :
  self_attr self "cookies" = Ok (PJar l) ->
  nth_error (jars w) l = Some sj ->
  nth_error (jars w) n = Some wj ->
  Session.merge_cookies self (PJar n) w
  = (Ok (PJar n),
     mkWorld
       (update_nth n (fold_left (fun j c => set_cookie c j) sj wj) (jars w))
       (sent w)).
Proof.
  intros Hself Hl Hn. unfold Session.merge_cookies. simpl.
  rewrite bind_ret. simpl fst. simpl snd.
  exact (merge_cookies_tail_run self l n None w sj wj Hself Hl Hn).
Qed.

(** The jar of the session is the same before and after the merge,
    whatever the caller passes in as cookies, the session's own jar
    included. *)
Lemma merge_cookies_keeps_session (self : pdict) (cookies : pyobj)
  (w : world) (l : nat) (sj : jar) :
  self_attr self "cookies" = Ok (PJar l) ->
  nth_error (jars w) l = Some sj ->
  jar_wf sj ->
  nth_error (jars (snd (Session.merge_cookies self cookies w))) l = Some sj.
Proof.
  intros Hself Hl Hwf.
  assert (Hempty : forall c,
             c = PList [] \/ c = PTuple [] \/ c = PStr "" ->
             nth_error (jars (snd (Session.merge_cookies self c w))) l
             = Some sj).
  { intros c Hc. rewrite (merge_cookies_empty_run self c w l sj Hc Hself Hl).
    simpl. apply nth_error_app_Some, Hl. }
  destruct cookies as [| | |s|items|items|d| |loc|];
    try (unfold Session.merge_cookies; simpl; unfold bind, raise; simpl;
         exact Hl).
  - rewrite (merge_cookies_none_run self w l sj Hself Hl). simpl.
    apply nth_error_app_Some, Hl.
  - destruct s; [apply Hempty; auto|].
    unfold Session.merge_cookies; simpl; unfold bind, raise; simpl. exact Hl.
  - destruct items; [apply Hempty; auto|].
    unfold Session.merge_cookies; simpl; unfold bind, raise; simpl. exact Hl.
  - destruct items; [apply Hempty; auto|].
    unfold Session.merge_cookies; simpl; unfold bind, raise; simpl. exact Hl.
  - rewrite (merge_cookies_dict_run self d w l sj Hself Hl). simpl.
    apply nth_error_app_Some, Hl.
  - destruct (nth_error (jars w) loc) as [wj|] eqn:En.
    + rewrite (merge_cookies_jar_run self w l loc sj wj Hself Hl En). simpl.
      destruct (Nat.eq_dec loc l) as [->|Hne].
      * assert (wj = sj) by congruence. subst wj.
        rewrite set_cookies_present by auto.
        now rewrite update_nth_same.
      * rewrite nth_error_update_nth_ne by exact Hne. exact Hl.
    + unfold Session.merge_cookies. simpl. rewrite bind_ret.
      simpl fst. simpl snd.
      rewrite Hself, bind_lift_ok. unfold set_cookies_from.
      rewrite bind_assoc. unfold bind at 1. unfold read_jar at 1. rewrite Hl.
      destruct sj as [|c t]; simpl.
      * exact Hl.
      * unfold bind, read_jar. rewrite En. simpl. exact Hl.
Qed.

(** ** The scenarios of the cookie merge *)

Lemma Session_init_cookies (E : collaborators) (d : pdict) (w : world) :
  Session.__init__ E [("cookies", PDict d)] w
  = (Ok (new_session E (PJar (length (jars w)))),
     mkWorld (jars w ++ [jar_of d]) (sent w)).
Proof.
  destruct w as [js s]. reflexivity.
Qed.

(** The arguments [Session.old_request] builds on a session created with nothing
    but cookies, for a call that passes nothing but a cookie mapping: the
    working jar is new, the jar of the session is as it was. *)
Lemma old_request_args_cookies (E : collaborators) (w : world)
  (pm url : pyobj) (cd : pdict) (sj : jar) (extra : pdict) :
  extra = [] \/ (exists v, extra = [("return_response", v)]) ->
  let l := length (jars w) in
  Session.old_request_args E
    (with_poolmanager pm (new_session E (PJar l))) "get" url
    (("cookies", PDict cd) :: extra) (mkWorld (jars w ++ [sj]) (sent w))
  = (Ok (built_args E pm url (PJar (S l))),
     mkWorld ((jars w ++ [sj]) ++ [working_jar cd sj]) (sent w)).
Proof.
  intros Hextra l.
  assert (Hrun :
    Session.merge_cookies (with_poolmanager pm (new_session E (PJar l)))
      (PDict cd) (mkWorld (jars w ++ [sj]) (sent w))
    = (Ok (PJar (S l)),
       mkWorld ((jars w ++ [sj]) ++ [working_jar cd sj]) (sent w))).
  { rewrite (merge_cookies_dict_run _ cd _ l sj).
    - simpl. rewrite length_app. simpl. now rewrite Nat.add_1_r.
    - reflexivity.
    - apply nth_error_snoc. }
  unfold Session.old_request_args. cbv zeta.
  remember
    (Session.merge_cookies (with_poolmanager pm (new_session E (PJar l))))
    as mc eqn:Hmc.
  destruct Hextra as [->|[v ->]]; cbn; subst mc; unfold bind;
    rewrite Hrun; reflexivity.
Qed.

(** The request [Session.old_request] builds from these arguments: in
    prepare-only mode it is returned unsent, otherwise it is handed to
    [_send_request]. *)
Lemma old_request_cookies (E : collaborators) (w : world) (pm url : pyobj)
  (cd : pdict) (sj : jar) :
  let l := length (jars w) in
  let self := with_poolmanager pm (new_session E (PJar l)) in
  let args := built_args E pm url (PJar (S l)) in
  let r := PObj "Request" true
             (dict_set "session" (PObj "Session" true self) args) in
  let w1 := mkWorld (jars w ++ [sj]) (sent w) in
  let w2 := mkWorld ((jars w ++ [sj]) ++ [working_jar cd sj]) (sent w) in
  Session.old_request E self "get" url
    [("cookies", PDict cd); ("return_response", PBool false)] w1
  = (Ok r, w2) /\
  Session.old_request E self "get" url [("cookies", PDict cd)] w1
  = Session_send_request E self r args w2.
Proof.
  intros l self args r w1 w2. split.
  - unfold Session.old_request. cbv zeta. unfold bind at 1.
    unfold self, w1, l.
    rewrite old_request_args_cookies by (right; eexists; reflexivity).
    reflexivity.
  - unfold Session.old_request. cbv zeta. unfold bind at 1.
    unfold self, w1, l.
    rewrite old_request_args_cookies by (left; reflexivity).
    reflexivity.
Qed.

(** The merge of [old_request], where it can run.  On a session created
    with the cookies [{a: "1", b: "2"}] and then given the [poolmanager]
    attribute the method reads, a request that passes the cookie mapping
    [{a: None}] works with a jar that equals the jar of [{b: "2"}], both
    when the request is returned unsent and when it is handed on to be
    sent, and the jar of the session still holds [{a: "1", b: "2"}]. *)
Theorem dead_cookie_purge (E : collaborators) (w : world) (pm url : pyobj) :
  let held := [("a", PStr "1"); ("b", PStr "2")] in
  let passed := [("a", PNone)] in
  exists self l w1,
    Session.__init__ E [("cookies", PDict held)] w = (Ok self, w1) /\
    self_attr self "cookies" = Ok (PJar l) /\
    jar_at l (jar_of held) w1 /\
    exists r args working w2,
      Session.old_request E (with_poolmanager pm self) "get" url
        [("cookies", PDict passed); ("return_response", PBool false)] w1
      = (Ok r, w2) /\
      Session.old_request E (with_poolmanager pm self) "get" url
        [("cookies", PDict passed)] w1
      = Session_send_request E (with_poolmanager pm self) r args w2 /\
      getattr r "cookies" = Ok (PJar working) /\
      dict_get "cookies" args = Some (PJar working) /\
      jar_at working (jar_of [("b", PStr "2")]) w2 /\
      jar_at l (jar_of held) w2 /\
      sent w2 = sent w.
Proof.
  intros held passed.
  exists (new_session E (PJar (length (jars w)))), (length (jars w)),
    (mkWorld (jars w ++ [jar_of held]) (sent w)).
  split; [apply Session_init_cookies|].
  split; [reflexivity|].
  split; [apply nth_error_snoc|].
  destruct (old_request_cookies E w pm url passed (jar_of held)) as [Hp Hs].
  do 4 eexists.
  split; [exact Hp|]. split; [exact Hs|].
  split; [reflexivity|]. split; [reflexivity|].
  split; [|split; [|reflexivity]].
  - unfold jar_at. simpl jars.
    replace (S (length (jars w))) with (length (jars w ++ [jar_of held]))
      by (rewrite length_app; simpl; lia).
    apply nth_error_snoc.
  - unfold jar_at. simpl jars.
    apply nth_error_app_Some, nth_error_snoc.
Qed.

(** ** What a request leaves as it was *)

Section Preservation.

Variable I : world -> Prop.

Lemma preserves_ret {A : Type} (a : A) : preserves I (ret a).
Proof. intros w H. exact H. Qed.

Lemma preserves_raise {A : Type} (e : exn) : preserves I (@raise A e).
Proof. intros w H. exact H. Qed.

Lemma preserves_lift {A : Type} (r : res A) : preserves I (lift r).
Proof. intros w H. exact H. Qed.

Lemma preserves_truthyM (o : pyobj) : preserves I (truthyM o).
Proof. intros w H. exact H. Qed.

Lemma preserves_bind {A B : Type} (m : M A) (k : A -> M B) :
  preserves I m -> (forall a, preserves I (k a)) -> preserves I (bind m k).
Proof.
  intros Hm Hk w H. unfold bind.
  specialize (Hm w H). destruct (m w) as [[a|e] w']; simpl in *.
  - apply Hk, Hm.
  - exact Hm.
Qed.

Lemma preserves_for_each {A : Type} (xs : list A) (body : A -> M unit) :
  (forall x, preserves I (body x)) -> preserves I (for_each xs body).
Proof.
  intros Hb. induction xs as [|x t IH]; simpl.
  - apply preserves_ret.
  - apply preserves_bind; [apply Hb | intros _; exact IH].
Qed.

End Preservation.

Ltac preserves_step :=
  match goal with
  | |- preserves _ (ret _) => apply preserves_ret
  | |- preserves _ (raise _) => apply preserves_raise
  | |- preserves _ (lift _) => apply preserves_lift
  | |- preserves _ (truthyM _) => apply preserves_truthyM
  | |- preserves _ (or_else _ _) => unfold or_else
  | |- preserves _ (api.or_config _ _ _) => unfold api.or_config
  | |- preserves _ (expanded_headers _ _) => unfold expanded_headers
  | |- preserves _ (for_each _ _) => apply preserves_for_each; intros
  | |- preserves _ (bind _ _) => apply preserves_bind; [|intros]
  | |- preserves _ (match ?x with _ => _ end) => destruct x
  end.

Ltac preserves_auto := cbv zeta; repeat (preserves_step; try assumption).

(** Up to the arguments it builds, [Session.old_request] leaves the jar of the
    session as it was. *)
Lemma old_request_args_keeps_session (E : collaborators) (self : pdict)
  (method : string) (url : pyobj) (kwargs : pdict) (l : nat) (sj : jar) :
  self_attr self "cookies" = Ok (PJar l) ->
  jar_wf sj ->
  preserves (jar_at l sj) (Session.old_request_args E self method url kwargs).
Proof.
  intros Hself Hwf.
  assert (Hmerge : forall cookies,
             preserves (jar_at l sj) (Session.merge_cookies self cookies)).
  { intros cookies w Hw.
    apply merge_cookies_keeps_session; assumption. }
  unfold Session.old_request_args. preserves_auto; apply Hmerge.
Qed.

Lemma old_request_keeps_session (E : collaborators) (self : pdict)
  (method : string) (url : pyobj) (kwargs : pdict) (l : nat) (sj : jar) :
  self_attr self "cookies" = Ok (PJar l) ->
  jar_wf sj ->
  (forall r args,
      preserves (jar_at l sj) (Session_send_request E self r args)) ->
  preserves (jar_at l sj) (Session.old_request E self method url kwargs).
Proof.
  intros Hself Hwf Hsend.
  pose proof (old_request_args_keeps_session E self method url kwargs l sj
                Hself Hwf) as Hargs.
  unfold Session.old_request. preserves_auto; apply Hsend.
Qed.

Lemma preserves_record_send_jar (l : nat) (j : jar) (request : pyobj) :
  preserves (jar_at l j) (record_send request).
Proof. intros w H. exact H. Qed.

(** The jar of the session is left alone.  Whatever the arguments of the
    call, the jar of the session holds the same cookies after
    [Session.old_request] has built its arguments as before, and after the
    whole call when what sends the request leaves it alone; on a session
    created with [{b: "2"}] and then given the [poolmanager] attribute the
    method reads, a request that passes [{a: "1"}] works with a jar that
    holds both [a] and [b], and the jar of the session still equals the
    jar of [{b: "2"}]; and [Session.request] touches no jar at all. *)
Theorem session_cookies_not_mutated :
  (forall (E : collaborators) (self : pdict) (method : string)
          (url : pyobj) (kwargs : pdict) (l : nat) (sj : jar),
      self_attr self "cookies" = Ok (PJar l) ->
      jar_wf sj ->
      preserves (jar_at l sj)
        (Session.old_request_args E self method url kwargs) /\
      ((forall r args,
           preserves (jar_at l sj) (Session_send_request E self r args)) ->
       preserves (jar_at l sj)
         (Session.old_request E self method url kwargs))) /\
  (forall (E : collaborators) (w : world) (pm url : pyobj),
      let held := [("b", PStr "2")] in
      let passed := [("a", PStr "1")] in
      exists self l w1,
        Session.__init__ E [("cookies", PDict held)] w = (Ok self, w1) /\
        self_attr self "cookies" = Ok (PJar l) /\
        jar_at l (jar_of held) w1 /\
        exists r args working w2,
          Session.old_request E (with_poolmanager pm self) "get" url
            [("cookies", PDict passed); ("return_response", PBool false)] w1
          = (Ok r, w2) /\
          Session.old_request E (with_poolmanager pm self) "get" url
            [("cookies", PDict passed)] w1
          = Session_send_request E (with_poolmanager pm self) r args w2 /\
          getattr r "cookies" = Ok (PJar working) /\
          dict_get "cookies" args = Some (PJar working) /\
          jar_at working
            [create_cookie "a" (PStr "1"); create_cookie "b" (PStr "2")] w2 /\
          jar_at l (jar_of held) w2) /\
  (forall (E : collaborators) (self : pdict) (method : string)
          (url : pyobj) (kwargs : pdict) (w : world),
      jars (snd (Session.request E self method url kwargs w)) = jars w).
Proof.
  split; [|split].
  - intros E self method url kwargs l sj Hself Hwf. split.
    + apply old_request_args_keeps_session; assumption.
    + apply old_request_keeps_session; assumption.
  - intros E w pm url held passed.
    exists (new_session E (PJar (length (jars w)))), (length (jars w)),
      (mkWorld (jars w ++ [jar_of held]) (sent w)).
    split; [apply Session_init_cookies|].
    split; [reflexivity|].
    split; [apply nth_error_snoc|].
    destruct (old_request_cookies E w pm url passed (jar_of held))
      as [Hp Hs].
    do 4 eexists.
    split; [exact Hp|]. split; [exact Hs|].
    split; [reflexivity|]. split; [reflexivity|].
    split.
    + unfold jar_at. simpl jars.
      replace (S (length (jars w))) with (length (jars w ++ [jar_of held]))
        by (rewrite length_app; simpl; lia).
      apply nth_error_snoc.
    + unfold jar_at. simpl jars.
      apply nth_error_app_Some, nth_error_snoc.
  - intros E self method url kwargs w.
    unfold Session.request, Session.send, bind, lift, record_send.
    destruct (check_kwargs _ _); [|reflexivity].
    destruct (Request_prepare E _); reflexivity.
Qed.

(** The caller passes the very jar of the session as the cookies of the
    call: the jar is the working jar, and it holds what it held. *)
Lemma session_cookies_not_mutated_witness :
  let self :=
    with_poolmanager (PObj "PoolManager" true [])
      (new_session plain_collaborators (PJar 0)) in
  let w := mkWorld [jar_of [("b", PStr "2")]] [] in
  jar_at 0 (jar_of [("b", PStr "2")])
    (snd (Session.old_request plain_collaborators self "get"
            (PStr "http://a.example/") [("cookies", PJar 0)] w)).
Proof.
  intros self w.
  apply (proj1 session_cookies_not_mutated plain_collaborators self "get"
           (PStr "http://a.example/") [("cookies", PJar 0)] 0
           (jar_of [("b", PStr "2")])).
  - reflexivity.
  - wf_by_computation.
  - intros r args. unfold plain_collaborators. simpl.
    apply preserves_bind; [apply preserves_record_send_jar|].
    intros _. apply preserves_ret.
  - reflexivity.
Defined.

(** ** The cookies of a request on a session as [__init__] builds it *)

(** A session created with nothing but cookies offers two ways to issue a
    request.  [get], through [Session.request], hands the cookies of the
    call to the request as they are and makes no jar; [old_request], which
    merges, raises before it gets there, the session having no
    [poolmanager]. *)
Lemma built_session_request_cookies (E : collaborators) (w : world)
  (url : pyobj) (held passed : pdict) :
  let self := new_session E (PJar (length (jars w))) in
  let w1 := mkWorld (jars w ++ [jar_of held]) (sent w) in
  let kwargs := [("cookies", PDict passed)] in
  let req :=
    Session.request_req "get" url
      (kwargs ++ [("allow_redirects", PBool true)]) in
  Session.__init__ E [("cookies", PDict held)] w = (Ok self, w1) /\
  Session.get E self url kwargs w1
  = bind (lift (Request_prepare E req)) (Session.send E self) w1 /\
  getattr req "cookies" = Ok (PDict passed) /\
  jars (snd (Session.get E self url kwargs w1)) = jars w1 /\
  Session.old_request E self "get" url kwargs w1 = (Err AttributeError, w1).
Proof.
  intros self w1 kwargs req.
  split; [apply Session_init_cookies|].
  split; [reflexivity|]. split; [reflexivity|]. split.
  - unfold Session.get, Session.request, Session.send, bind, lift,
      record_send. simpl.
    destruct (Request_prepare E _); reflexivity.
  - reflexivity.
Qed.

(** C3 fails on the code.  On the session [__init__] returns for the
    cookies [{a: "1", b: "2"}], a [get] that passes the cookie mapping
    [{a: None}] builds its request with that very mapping as its cookies,
    the [None] included: no working jar is made, so none equals the jar of
    [{b: "2"}]; nothing of the jar of the session is merged in and the dead
    name is not purged.  [old_request], which holds the merge and the
    purge, raises [AttributeError] on that session before it reaches them.
    The jar of the session still holds [{a: "1", b: "2"}]. *)
Theorem dead_cookie_not_purged (E : collaborators) (w : world)
  (url : pyobj) :
  let held := [("a", PStr "1"); ("b", PStr "2")] in
  let passed := [("a", PNone)] in
  let kwargs := [("cookies", PDict passed)] in
  exists self l w1,
    Session.__init__ E [("cookies", PDict held)] w = (Ok self, w1) /\
    self_attr self "cookies" = Ok (PJar l) /\
    jar_at l (jar_of held) w1 /\
    (exists req,
        Session.get E self url kwargs w1
        = bind (lift (Request_prepare E req)) (Session.send E self) w1 /\
        getattr req "cookies" = Ok (PDict passed)) /\
    jars (snd (Session.get E self url kwargs w1)) = jars w1 /\
    jar_at l (jar_of held) (snd (Session.get E self url kwargs w1)) /\
    Session.old_request E self "get" url kwargs w1
    = (Err AttributeError, w1).
Proof.
  intros held passed kwargs.
  destruct (built_session_request_cookies E w url held passed)
    as (Hinit & Hget & Hreq & Hjars & Hold).
  do 3 eexists. split; [exact Hinit|].
  split; [reflexivity|].
  assert (Hl : jar_at (length (jars w)) (jar_of held)
                 (mkWorld (jars w ++ [jar_of held]) (sent w)))
    by apply nth_error_snoc.
  split; [exact Hl|].
  split; [eexists; split; [exact Hget | exact Hreq]|].
  split; [exact Hjars|].
  split; [|exact Hold].
  unfold jar_at. fold kwargs in Hjars. rewrite Hjars. exact Hl.
Qed.

(** The same call with collaborators that do the least, from an empty
    store: the request that is sent has [{a: None}] for its cookies, and
    the only jar there is is the jar of the session. *)
Example dead_cookie_sent_unmerged :
  let E := plain_collaborators in
  let url := PStr "http://a.example/" in
  let self := new_session E (PJar 0) in
  let w1 := mkWorld [jar_of [("a", PStr "1"); ("b", PStr "2")]] [] in
  let req :=
    Session.request_req "get" url
      [("cookies", PDict [("a", PNone)]); ("allow_redirects", PBool true)] in
  let prep := PObj "PreparedRequest" true [("request", req)] in
  Session.__init__ E
    [("cookies", PDict [("a", PStr "1"); ("b", PStr "2")])] empty_world
  = (Ok self, w1) /\
  Session.get E self url [("cookies", PDict [("a", PNone)])] w1
  = (Ok (PObj "Response" true [("request", prep)]),
     mkWorld [jar_of [("a", PStr "1"); ("b", PStr "2")]] [prep]) /\
  getattr req "cookies" = Ok (PDict [("a", PNone)]).
Proof. repeat split. Qed.

(** C4 fails on the code.  On the session [__init__] returns for the
    cookies [{b: "2"}], a [get] that passes the cookie mapping [{a: "1"}]
    builds its request with that mapping as its cookies: [a] alone, no jar
    that holds both [a] and [b] is made.  [old_request], which merges the
    two, raises [AttributeError] on that session before the merge.  The
    jar of the session is not changed, as the claim says: it still holds
    [{b: "2"}]. *)
Theorem call_cookies_not_merged (E : collaborators) (w : world)
  (url : pyobj) :
  let held := [("b", PStr "2")] in
  let passed := [("a", PStr "1")] in
  let kwargs := [("cookies", PDict passed)] in
  exists self l w1,
    Session.__init__ E [("cookies", PDict held)] w = (Ok self, w1) /\
    self_attr self "cookies" = Ok (PJar l) /\
    jar_at l (jar_of held) w1 /\
    (exists req,
        Session.get E self url kwargs w1
        = bind (lift (Request_prepare E req)) (Session.send E self) w1 /\
        getattr req "cookies" = Ok (PDict passed)) /\
    jars (snd (Session.get E self url kwargs w1)) = jars w1 /\
    jar_at l (jar_of held) (snd (Session.get E self url kwargs w1)) /\
    Session.old_request E self "get" url kwargs w1
    = (Err AttributeError, w1).
Proof.
  intros held passed kwargs.
  destruct (built_session_request_cookies E w url held passed)
    as (Hinit & Hget & Hreq & Hjars & Hold).
  do 3 eexists. split; [exact Hinit|].
  split; [reflexivity|].
  assert (Hl : jar_at (length (jars w)) (jar_of held)
                 (mkWorld (jars w ++ [jar_of held]) (sent w)))
    by apply nth_error_snoc.
  split; [exact Hl|].
  split; [eexists; split; [exact Hget | exact Hreq]|].
  split; [exact Hjars|].
  split; [|exact Hold].
  unfold jar_at. fold kwargs in Hjars. rewrite Hjars. exact Hl.
Qed.

(** The same call with collaborators that do the least, from an empty
    store: the request that is sent has [{a: "1"}] for its cookies, and the
    only jar there is is the jar of the session, which holds [b] alone. *)
Example call_cookies_sent_unmerged :
  let E := plain_collaborators in
  let url := PStr "http://a.example/" in
  let self := new_session E (PJar 0) in
  let w1 := mkWorld [jar_of [("b", PStr "2")]] [] in
  let req :=
    Session.request_req "get" url
      [("cookies", PDict [("a", PStr "1")]);
       ("allow_redirects", PBool true)] in
  let prep := PObj "PreparedRequest" true [("request", req)] in
  Session.__init__ E [("cookies", PDict [("b", PStr "2")])] empty_world
  = (Ok self, w1) /\
  Session.get E self url [("cookies", PDict [("a", PStr "1")])] w1
  = (Ok (PObj "Response" true [("request", prep)]),
     mkWorld [jar_of [("b", PStr "2")]] [prep]) /\
  getattr req "cookies" = Ok (PDict [("a", PStr "1")]).
Proof. repeat split. Qed.

(** ** Hooks of the session and hooks of the call *)

Lemma bind_Ok_inv {A B : Type} (m : M A) (k : A -> M B) (w w' : world)
  (b : B) :
  bind m k w = (Ok b, w') ->
  exists a w1, m w = (Ok a, w1) /\ k a w1 = (Ok b, w').
Proof.
  unfold bind. destruct (m w) as [[a|e] w1]; intros H.
  - exists a, w1. auto.
  - discriminate.
Qed.

Lemma lift_Ok_inv {A : Type} (r : res A) (w w' : world) (a : A) :
  lift r w = (Ok a, w') -> r = Ok a /\ w' = w.
Proof. unfold lift. intros H. inversion H. auto. Qed.

Ltac bind_inv H :=
  repeat (apply bind_Ok_inv in H;
          let a := fresh "a" in
          let w := fresh "w" in
          let Hm := fresh "Hm" in
          destruct H as (a & w & Hm & H)).

Lemma dict_setdefault_wf (k : string) (v : pyobj) (d : pdict) :
  dict_wf d -> dict_wf (dict_setdefault k v d).
Proof.
  unfold dict_setdefault. destruct (dict_contains k d); [auto|].
  apply dict_set_wf.
Qed.

Lemma dict_get_setdefault (k k' : string) (v : pyobj) (d : pdict) :
  dict_get k (dict_setdefault k' v d)
  = match dict_get k d with
    | Some x => Some x
    | None => if String.eqb k' k then Some v else None
    end.
Proof.
  unfold dict_setdefault, dict_contains.
  destruct (dict_get k' d) eqn:E.
  - destruct (dict_get k d) eqn:Ek; [reflexivity|].
    destruct (String.eqb k' k) eqn:Ekk; [|reflexivity].
    apply String.eqb_eq in Ekk. congruence.
  - rewrite dict_get_set.
    destruct (String.eqb k' k) eqn:Ekk.
    + apply String.eqb_eq in Ekk. subst. now rewrite E.
    + now destruct (dict_get k d).
Qed.

(** The hooks of the session are defaults: a name the call registers
    hooks under keeps the hooks of the call. *)
Lemma default_hooks_dict (sh ch : pdict) :
  exists ch',
    Session.default_hooks sh (PDict ch) = Ok (PDict ch') /\
    (dict_wf ch -> dict_wf ch') /\
    forall k,
      dict_get k ch'
      = match dict_get k ch with
        | Some c => Some c
        | None => dict_get k sh
        end.
Proof.
  revert ch. induction sh as [|[a b] t IH]; intros ch; simpl.
  - exists ch. repeat split; auto. intros k. now destruct (dict_get k ch).
  - destruct (IH (dict_setdefault a b ch)) as (ch' & Hrun & Hwf & Hget).
    exists ch'. split; [exact Hrun|]. split.
    + intros H. apply Hwf, dict_setdefault_wf, H.
    + intros k. rewrite Hget, dict_get_setdefault.
      destruct (dict_get k ch); [reflexivity|].
      destruct (String.eqb a k) eqn:E; reflexivity.
Qed.

Lemma merge_session_attrs_other (self : pdict) (k : string)
  (attrs : list string) :
  forall args args',
  Session.merge_session_attrs self attrs args = Ok args' ->
  ~ In k attrs ->
  dict_get k args' = dict_get k args.
Proof.
  induction attrs as [|a t IH]; simpl; intros args args' H Hnotin.
  - now inversion H.
  - destruct (String.eqb a "cookies").
    + apply IH; tauto.
    + destruct (merge_kwargs _ _) as [m|e]; simpl in H; [|discriminate].
      rewrite (IH _ _ H) by tauto.
      rewrite dict_get_set.
      destruct (String.eqb a k) eqn:E; [|reflexivity].
      apply String.eqb_eq in E. tauto.
Qed.

(** What the loop over the attributes of the session leaves under an
    attribute it merges. *)
Lemma merge_session_attrs_merged (self : pdict) (k : string)
  (attrs : list string) :
  forall args args',
  Session.merge_session_attrs self attrs args = Ok args' ->
  NoDup attrs -> In k attrs -> k <> "cookies" ->
  exists m,
    merge_kwargs (dict_get_default k PNone args)
      (dict_get_default k PNone self) = Ok m /\
    dict_get k args' = Some m.
Proof.
  induction attrs as [|a t IH]; simpl; intros args args' H Hnd Hin Hk.
  - tauto.
  - inversion Hnd as [|? ? Hnotin Hnd']; subst.
    destruct (String.eqb a "cookies") eqn:Ec.
    + apply String.eqb_eq in Ec. subst a.
      destruct Hin as [Hin|Hin]; [congruence|].
      apply IH; assumption.
    + destruct (merge_kwargs (dict_get_default a PNone args) _) as [m|e] eqn:Em;
        simpl in H; [|discriminate].
      destruct Hin as [->|Hin].
      * exists m. split; [exact Em|].
        rewrite (merge_session_attrs_other self k t _ _ H Hnotin).
        rewrite dict_get_set, String.eqb_refl. reflexivity.
      * destruct (IH _ _ H Hnd' Hin Hk) as (m' & Hm' & Hget).
        exists m'. split; [|exact Hget].
        assert (Hne : String.eqb a k = false).
        { apply String.eqb_neq. intros ->. tauto. }
        unfold dict_get_default in *.
        rewrite dict_get_set, Hne in Hm'. exact Hm'.
Qed.

(** C5, as the spec states it, fails: with a hook registered by the session
    and another one by the call under the same name, the chain
    [Session.old_request] passes on holds the hook of the call only. *)
Lemma session_hooks_not_prepended :
  let E := plain_collaborators in
  let pm := PObj "PoolManager" true [] in
  let url := PStr "http://a.example/" in
  exists self w1 args w2,
    Session.__init__ E [("hooks", PDict [("response", PList [PCallable 1])])]
      empty_world = (Ok self, w1) /\
    Session.old_request_args E (with_poolmanager pm self) "get" url
      [("hooks", PDict [("response", PList [PCallable 2])])] w1
    = (Ok args, w2) /\
    dict_get "hooks" args
    = Some (PDict [("response", PList [PCallable 2])]) /\
    dict_get "hooks" args
    <> Some (PDict [("response", PList [PCallable 1; PCallable 2])]).
Proof.
  do 4 eexists.
  split; [vm_compute; reflexivity|].
  split; [vm_compute; reflexivity|].
  split; [reflexivity | discriminate].
Qed.

(** C5, amended. For every hook name under which both the session and the
    call register hooks, the chain [Session.old_request] passes on for that
    name is the hooks of the call alone; the hooks of the session are
    defaults, passed on for a name only when the call registers nothing
    under it; and [Session.request] hands the hooks of the call to the
    request as they are. *)
Theorem call_hooks_replace_session_hooks (E : collaborators) (self : pdict)
  (method : string) (url : pyobj) (kwargs : pdict) (w w' : world)
  (args sh ch : pdict) :
  self_attr self "hooks" = Ok (PDict sh) -> dict_wf sh ->
  dict_get "hooks" kwargs = Some (PDict ch) -> dict_wf ch ->
  Session.old_request_args E self method url kwargs w = (Ok args, w') ->
  (exists h,
      dict_get "hooks" args = Some (PDict h) /\
      (forall name c,
          dict_get name ch = Some c -> c <> PNone ->
          dict_get name h = Some c) /\
      (forall name s,
          dict_get name ch = None ->
          dict_get name sh = Some s -> s <> PNone ->
          dict_get name h = Some s)) /\
  getattr (Session.request_req method url kwargs) "hooks" = Ok (PDict ch).
Proof.
  intros Hself Hsh Hkw Hch H. split.
  - unfold Session.old_request_args in H. cbv zeta in H.
    unfold dict_get_default in H. rewrite Hkw in H. simpl if_none in H.
    bind_inv H.
    apply lift_Ok_inv in Hm1. destruct Hm1 as [Hm1 _].
    rewrite Hself in Hm1. inversion Hm1; subst a1. clear Hm1.
    apply lift_Ok_inv in Hm2. destruct Hm2 as [Hm2 _].
    destruct (default_hooks_dict sh ch) as (ch' & Hrun & Hwf & Hget).
    rewrite Hrun in Hm2. inversion Hm2; subst a2. clear Hm2.
    apply lift_Ok_inv in Hm6. destruct Hm6 as [Hm6 _].
    simpl in Hm6. rewrite (dict_update_nil ch' (Hwf Hch)) in Hm6.
    inversion Hm6; subst a6. clear Hm6.
    apply lift_Ok_inv in H. destruct H as [H _].
    destruct (merge_session_attrs_merged self "hooks" _ _ _ H)
      as (m & Hm' & Hargs).
    + unfold Session.__attrs__.
      repeat (constructor; [simpl; intuition discriminate|]). constructor.
    + simpl. tauto.
    + discriminate.
    + assert (Hsv : dict_get_default "hooks" PNone self = PDict sh).
      { unfold self_attr in Hself. unfold dict_get_default.
        destruct (dict_get "hooks" self); congruence. }
      rewrite Hsv in Hm'.
      match type of Hm' with
      | merge_kwargs ?x _ = _ => change x with (PDict ch') in Hm'
      end.
      destruct (merge_kwargs_dict_lookup ch' sh (Hwf Hch) Hsh)
        as (h & Hh & _ & Hlook).
      rewrite Hh in Hm'. inversion Hm'; subst m.
      exists h. split; [exact Hargs|]. split.
      * intros name c Hc Hnone.
        rewrite Hlook, Hget, Hc. destruct c; congruence.
      * intros name s Hc Hs Hnone.
        rewrite Hlook, Hget, Hc, Hs. destruct s; congruence.
  - simpl. unfold dict_get_default. now rewrite Hkw.
Qed.

(** A session with a [response] hook and a [pre_request] hook, a call with
    a [response] hook of its own: the [response] chain is the hook of the
    call, the [pre_request] chain is the hook of the session. *)
Lemma call_hooks_replace_session_hooks_witness :
  let E := plain_collaborators in
  let pm := PObj "PoolManager" true [] in
  let session_hooks :=
    [("response", PList [PCallable 1]);
     ("pre_request", PList [PCallable 3])] in
  let call_hooks := [("response", PList [PCallable 2])] in
  let self :=
    with_poolmanager pm
      (dict_set "hooks" (PDict session_hooks) (new_session E (PJar 0))) in
  let args :=
    dict_set "hooks"
      (PDict [("response", PList [PCallable 2]);
              ("pre_request", PList [PCallable 3])])
      (built_args E pm (PStr "http://a.example/") (PJar 1)) in
  exists h,
    dict_get "hooks" args = Some (PDict h) /\
    dict_get "response" h = Some (PList [PCallable 2]) /\
    dict_get "pre_request" h = Some (PList [PCallable 3]).
Proof.
  intros E pm session_hooks call_hooks self args.
  destruct (call_hooks_replace_session_hooks E self "get"
              (PStr "http://a.example/") [("hooks", PDict call_hooks)]
              (mkWorld [[]] []) (mkWorld [[]; []] []) args
              session_hooks call_hooks) as [(h & Hargs & Hcall & Hsess) _].
  - reflexivity.
  - wf_by_computation.
  - reflexivity.
  - wf_by_computation.
  - vm_compute. reflexivity.
  - exists h. split; [exact Hargs|]. split.
    + apply Hcall; [reflexivity | discriminate].
    + eapply Hsess; [reflexivity | reflexivity | discriminate].
Defined.

(** ** The verbs and their defaults *)

Lemma check_kwargs_setdefault (allowed : list string) (k : string)
  (v : pyobj) (kwargs : pdict) :
  existsb (String.eqb k) allowed = true ->
  check_kwargs allowed (dict_setdefault k v kwargs)
  = check_kwargs allowed kwargs.
Proof.
  intros Hk. unfold dict_setdefault.
  destruct (dict_contains k kwargs) eqn:E; [reflexivity|].
  assert (Hnotin : ~ In k (keys kwargs)).
  { intros Hin. apply dict_contains_In in Hin. congruence. }
  rewrite dict_set_fresh by exact Hnotin.
  unfold check_kwargs, keys. rewrite map_app, forallb_app. simpl.
  rewrite Hk. simpl. now rewrite andb_true_r.
Qed.

Lemma dict_get_default_setdefault (k : string) (v v0 : pyobj)
  (kwargs : pdict) :
  dict_get_default k v0 (dict_setdefault k v kwargs)
  = match dict_get k kwargs with
    | Some x => x
    | None => v
    end.
Proof.
  unfold dict_get_default. rewrite dict_get_setdefault, String.eqb_refl.
  now destruct (dict_get k kwargs).
Qed.

Lemma Session_head_issues (E : collaborators) (self : pdict) (url : pyobj)
  (kwargs : pdict) (w : world) :
  Session.head E self url kwargs w
  = bind (lift (check_kwargs Session.request_params kwargs))
      (fun _ =>
         bind (lift (Request_prepare E
                       (Session.request_req "head" url
                          (dict_setdefault "allow_redirects" (PBool false)
                             kwargs))))
           (Session.send E self)) w.
Proof.
  unfold Session.head, Session.request.
  now rewrite check_kwargs_setdefault by reflexivity.
Qed.

Lemma Session_get_issues (E : collaborators) (self : pdict) (url : pyobj)
  (kwargs : pdict) (w : world) :
  Session.get E self url kwargs w
  = bind (lift (check_kwargs Session.request_params kwargs))
      (fun _ =>
         bind (lift (Request_prepare E
                       (Session.request_req "get" url
                          (dict_setdefault "allow_redirects" (PBool true)
                             kwargs))))
           (Session.send E self)) w.
Proof.
  unfold Session.get, Session.request.
  now rewrite check_kwargs_setdefault by reflexivity.
Qed.

Lemma Session_request_req_allow_redirects (method : string) (url v : pyobj)
  (kwargs : pdict) :
  getattr (Session.request_req method url
             (dict_setdefault "allow_redirects" v kwargs)) "allow_redirects"
  = Ok match dict_get "allow_redirects" kwargs with
       | Some given => given
       | None => v
       end.
Proof. simpl. now rewrite dict_get_default_setdefault. Qed.

(** C6. Redirect flag defaults: [Session.head] builds, prepares and sends a
    HEAD request whose [allow_redirects] is the value the caller gave, and
    [False] when the caller gave none; [Session.get] does the same for a GET
    request, with [True] when the caller gave none. *)
Theorem Session_head_get_allow_redirects (E : collaborators) (self : pdict)
  (url : pyobj) (kwargs : pdict) (w : world) :
  (exists req,
      Session.head E self url kwargs w
      = bind (lift (check_kwargs Session.request_params kwargs))
          (fun _ => bind (lift (Request_prepare E req)) (Session.send E self))
          w /\
      getattr req "method" = Ok (PStr "head") /\
      getattr req "allow_redirects"
      = Ok match dict_get "allow_redirects" kwargs with
           | Some given => given
           | None => PBool false
           end) /\
  (exists req,
      Session.get E self url kwargs w
      = bind (lift (check_kwargs Session.request_params kwargs))
          (fun _ => bind (lift (Request_prepare E req)) (Session.send E self))
          w /\
      getattr req "method" = Ok (PStr "get") /\
      getattr req "allow_redirects"
      = Ok match dict_get "allow_redirects" kwargs with
           | Some given => given
           | None => PBool true
           end).
Proof.
  split; eexists; (split; [|split]).
  - apply Session_head_issues.
  - reflexivity.
  - apply Session_request_req_allow_redirects.
  - apply Session_get_issues.
  - reflexivity.
  - apply Session_request_req_allow_redirects.
Qed.

(** The two defaults at work, and an explicit value that overrides them. *)
Example Session_head_get_run :
  let E := plain_collaborators in
  let url := PStr "http://a.example/" in
  let prepared kwargs method :=
    PObj "PreparedRequest" true
      [("request", Session.request_req method url kwargs)] in
  sent (snd (Session.head E [] url [] empty_world))
  = [prepared [("allow_redirects", PBool false)] "head"] /\
  sent (snd (Session.get E [] url [] empty_world))
  = [prepared [("allow_redirects", PBool true)] "get"] /\
  sent (snd (Session.head E [] url [("allow_redirects", PBool true)]
               empty_world))
  = [prepared [("allow_redirects", PBool true)] "head"] /\
  sent (snd (Session.get E [] url [("allow_redirects", PBool false)]
               empty_world))
  = [prepared [("allow_redirects", PBool false)] "get"].
Proof. repeat split. Qed.

(** C2 fails on [Session.request]: the method takes [return_response] and
    never looks at it.  Asked to return the request unsent, it prepares the
    request and calls the transport with it whenever preparing succeeds,
    and returns what the transport answers. *)
Theorem Session_request_sends_when_asked_not_to (E : collaborators)
  (self : pdict) (method : string) (url : pyobj) (w : world) :
  let kwargs := [("return_response", PBool false)] in
  Session.request E self method url kwargs w
  = match Request_prepare E (Session.request_req method url kwargs) with
    | Ok prep =>
        (HTTPAdapter_send E prep, mkWorld (jars w) (sent w ++ [prep]))
    | Err e => (Err e, w)
    end.
Proof.
  intros kwargs. unfold Session.request, Session.send, bind, lift.
  simpl. destruct (Request_prepare E _); reflexivity.
Qed.

Example Session_get_sends_when_asked_not_to :
  let E := plain_collaborators in
  let url := PStr "http://a.example/" in
  let kwargs := [("return_response", PBool false)] in
  let req :=
    Session.request_req "get" url
      (kwargs ++ [("allow_redirects", PBool true)]) in
  let prep := PObj "PreparedRequest" true [("request", req)] in
  Session.get E [] url kwargs empty_world
  = (Ok (PObj "Response" true [("request", prep)]), mkWorld [] [prep]).
Proof. reflexivity. Qed.

(** ** Prepare-only mode on the paths that honour it *)

Lemma preserves_new_jar_sent (s : list pyobj) (j : jar) :
  preserves (sent_is s) (new_jar j).
Proof. intros w H. exact H. Qed.

Lemma preserves_read_jar (I : world -> Prop) (loc : nat) :
  preserves I (read_jar loc).
Proof.
  intros w H. unfold read_jar. now destruct (nth_error (jars w) loc).
Qed.

Lemma preserves_write_jar_sent (s : list pyobj) (loc : nat) (j : jar) :
  preserves (sent_is s) (write_jar loc j).
Proof. intros w H. exact H. Qed.

Lemma preserves_bind_truthy (I : world -> Prop) {B : Type} (o : pyobj)
  (b : bool) (k : bool -> M B) :
  (forall js, truthy js o = b) ->
  preserves I (k b) -> preserves I (bind (truthyM o) k).
Proof.
  intros Ho Hk w H. unfold bind, truthyM. rewrite Ho. apply Hk, H.
Qed.

Ltac preserves_sent_step :=
  match goal with
  | |- preserves _ (new_jar _) => apply preserves_new_jar_sent
  | |- preserves _ (read_jar _) => apply preserves_read_jar
  | |- preserves _ (write_jar _ _) => apply preserves_write_jar_sent
  | |- preserves _ (cookiejar_from_dict _) => unfold cookiejar_from_dict
  | |- preserves _ (set_cookies_from _ _) => unfold set_cookies_from
  | |- preserves _ (remove_cookie_by_name _ _) =>
      unfold remove_cookie_by_name
  | |- preserves _ (Session.merge_cookies _ _) => unfold Session.merge_cookies
  | _ => preserves_step
  end.

Ltac preserves_sent := cbv zeta; repeat (preserves_sent_step; try assumption).

Lemma old_request_args_never_sends (E : collaborators) (self : pdict)
  (method : string) (url : pyobj) (kwargs : pdict) (s : list pyobj) :
  preserves (sent_is s) (Session.old_request_args E self method url kwargs).
Proof. unfold Session.old_request_args. preserves_sent. Qed.

(** [Session.old_request] honours the prepare-only mode: asked to return the
    request unsent, it does not call the transport, and what it returns is
    the request it built. *)
Lemma old_request_prepare_only (E : collaborators) (self : pdict)
  (method : string) (url : pyobj) (kwargs : pdict) (rr : pyobj)
  (s : list pyobj) :
  dict_get "return_response" kwargs = Some rr ->
  (forall js, truthy js rr = false) ->
  preserves (sent_is s) (Session.old_request E self method url kwargs) /\
  forall w r w',
    Session.old_request E self method url kwargs w = (Ok r, w') ->
    exists attrs, r = PObj "Request" true attrs.
Proof.
  intros Hrr Hfalse.
  pose proof (old_request_args_never_sends E self method url kwargs s)
    as Hargs.
  unfold Session.old_request. cbv zeta. unfold dict_get_default. rewrite Hrr.
  cbv beta iota. split.
  - repeat (first
      [ match goal with
        | |- preserves _ (bind (truthyM _) _) =>
            apply (preserves_bind_truthy _ rr false); [exact Hfalse|];
            cbv beta iota delta [negb]
        end
      | preserves_step; try assumption ]).
  - intros w r w' H. bind_inv H.
    unfold truthyM in Hm4. rewrite Hfalse in Hm4.
    inversion Hm4; subst a4 w5. simpl in H. inversion H; subst.
    apply lift_Ok_inv in Hm3. destruct Hm3 as [Hm3 _].
    simpl in Hm3. inversion Hm3. eexists. reflexivity.
Qed.

Lemma api_request_args_never_sends (E : collaborators) (method : string)
  (url : pyobj) (kwargs : pdict) (s : list pyobj) :
  preserves (sent_is s) (api.request_args E method url kwargs).
Proof. unfold api.request_args. preserves_sent. Qed.

(** [api.request] honours [_return_request] in the same way. *)
Lemma api_request_prepare_only (E : collaborators) (method : string)
  (url : pyobj) (kwargs : pdict) (rr : pyobj) (s : list pyobj) :
  dict_get "_return_request" kwargs = Some rr ->
  (forall js, truthy js rr = true) ->
  preserves (sent_is s) (api.request E method url kwargs).
Proof.
  intros Hrr Htrue.
  pose proof (api_request_args_never_sends E method url kwargs s) as Hargs.
  unfold api.request. cbv zeta. unfold dict_get_default at 2. rewrite Hrr.
  cbv beta iota.
  repeat (first
    [ match goal with
      | |- preserves _ (bind (truthyM _) _) =>
          apply (preserves_bind_truthy _ rr true); [exact Htrue|];
          cbv beta iota delta [negb]
      end
    | preserves_step; try assumption ]).
Qed.

(** ** The defaults of the module-level functions *)

Lemma dict_get_app (k : string) (d d' : pdict) :
  dict_get k (d ++ d')
  = match dict_get k d with
    | Some v => Some v
    | None => dict_get k d'
    end.
Proof.
  induction d as [|[a b] t IH]; simpl; [reflexivity|].
  now destruct (String.eqb a k).
Qed.

Lemma dict_get_default_snoc (k k' : string) (v v0 : pyobj)
  (kwargs : pdict) :
  String.eqb k' k = false ->
  dict_get_default k v0 (kwargs ++ [(k', v)]) = dict_get_default k v0 kwargs.
Proof.
  intros Hne. unfold dict_get_default. rewrite dict_get_app. simpl.
  rewrite Hne. now destruct (dict_get k kwargs).
Qed.

Lemma check_kwargs_snoc (allowed : list string) (k : string) (v : pyobj)
  (kwargs : pdict) :
  existsb (String.eqb k) allowed = true ->
  check_kwargs allowed (kwargs ++ [(k, v)]) = check_kwargs allowed kwargs.
Proof.
  intros Hk. unfold check_kwargs, keys. rewrite map_app, forallb_app. simpl.
  rewrite Hk. simpl. now rewrite andb_true_r.
Qed.

(** Passing [allow_redirects] to [api.request] changes the arguments it
    builds in that entry and in nothing else: it succeeds, or fails,
    exactly as the call without the keyword does. *)
Lemma api_request_args_allow_redirects (E : collaborators)
  (method : string) (url v : pyobj) (kwargs : pdict) (w : world) :
  dict_get "allow_redirects" kwargs = None ->
  api.request_args E method url (kwargs ++ [("allow_redirects", v)]) w
  = (match fst (api.request_args E method url kwargs w) with
     | Ok args => Ok (dict_set "allow_redirects" v args)
     | Err e => Err e
     end,
     snd (api.request_args E method url kwargs w)).
Proof.
  intros Hnone. unfold api.request_args. cbv zeta.
  rewrite check_kwargs_snoc by reflexivity.
  assert (Hv : dict_get_default "allow_redirects" (PBool false)
                 (kwargs ++ [("allow_redirects", v)]) = v).
  { unfold dict_get_default. now rewrite dict_get_app, Hnone. }
  rewrite Hv. clear Hv.
  rewrite !dict_get_default_snoc by reflexivity.
  unfold bind, lift, ret.
  repeat match goal with
         | |- context [match ?m ?w0 with _ => _ end] =>
             destruct (m w0) as [[?|?] ?]; simpl
         | |- context [match ?r with Ok _ => _ | Err _ => _ end] =>
             destruct r; simpl
         end; reflexivity.
Qed.

(** C9. The module-level [head] called without [allow_redirects] calls
    [request] with [allow_redirects=True]: the arguments the request is
    built from are those of the call without the keyword, with
    [allow_redirects] set to [True]; [Session.head] called in the same way
    builds its request with [allow_redirects=False]. *)
Theorem api_head_allows_redirects (E : collaborators) (self : pdict)
  (url : pyobj) (kwargs : pdict) :
  dict_get "allow_redirects" kwargs = None ->
  let kwargs' := kwargs ++ [("allow_redirects", PBool true)] in
  (forall w, api.head E url kwargs w = api.request E "head" url kwargs' w) /\
  (forall w,
      api.request_args E "head" url kwargs' w
      = (match fst (api.request_args E "head" url kwargs w) with
         | Ok args => Ok (dict_set "allow_redirects" (PBool true) args)
         | Err e => Err e
         end,
         snd (api.request_args E "head" url kwargs w))) /\
  (forall w args w',
      api.request_args E "head" url kwargs' w = (Ok args, w') ->
      dict_get "allow_redirects" args = Some (PBool true)) /\
  (exists req,
      (forall w,
          Session.head E self url kwargs w
          = bind (lift (check_kwargs Session.request_params kwargs))
              (fun _ =>
                 bind (lift (Request_prepare E req)) (Session.send E self))
              w) /\
      getattr req "allow_redirects" = Ok (PBool false)).
Proof.
  intros Hnone kwargs'.
  assert (Hnotin : ~ In "allow_redirects" (keys kwargs))
    by (apply dict_get_None, Hnone).
  split; [|split; [|split]].
  - intros w. unfold api.head, api.allow_redirects_by_default, dict_contains.
    rewrite Hnone. simpl. now rewrite dict_set_fresh.
  - intros w. apply api_request_args_allow_redirects, Hnone.
  - intros w args w' H. unfold kwargs' in H.
    rewrite api_request_args_allow_redirects in H by exact Hnone.
    destruct (fst (api.request_args E "head" url kwargs w)) as [args0|e];
      inversion H; subst.
    rewrite dict_get_set. reflexivity.
  - eexists. split.
    + intros w. apply Session_head_issues.
    + rewrite Session_request_req_allow_redirects. now rewrite Hnone.
Qed.

Lemma api_head_allows_redirects_witness :
  let E := plain_collaborators in
  let url := PStr "http://a.example/" in
  exists args,
    api.request_args E "head" url [("allow_redirects", PBool true)]
      empty_world = (Ok args, empty_world) /\
    dict_get "allow_redirects" args = Some (PBool true).
Proof.
  intros E url. eexists. split; [reflexivity|].
  apply (proj1 (proj2 (proj2 (api_head_allows_redirects E [] url []
                                eq_refl)))
           empty_world _ empty_world).
  reflexivity.
Defined.

(** The module-level [head] at work: the request it builds allows
    redirects. *)
Example api_head_run :
  let E := plain_collaborators in
  exists r w,
    api.head E (PStr "http://a.example/") [("_return_request", PBool true)]
      empty_world = (Ok r, w) /\
    getattr r "allow_redirects" = Ok (PBool true) /\
    getattr r "method" = Ok (PStr "HEAD") /\
    sent w = [].
Proof. do 2 eexists. split; [vm_compute; reflexivity|]. repeat split. Qed.

(** ** Exceptions and their context *)

(** C10, as stated, fails: the guard is a truth test, so the request of the
    response is adopted only when the response counts as true.  An
    exception built with a response whose truth value is false (its class
    defines [__bool__] or [__len__]), and no request, has no request. *)
Lemma falsy_response_request_not_adopted :
  let request := PObj "Request" true [("url", PStr "http://a.example/")] in
  let response :=
    PObj "Response" false [("status_code", PInt 404); ("request", request)] in
  getattr response "request" = Ok request /\
  exists e,
    RequestException_init [] HTTPError [PStr "404 Client Error"]
      [("response", response)] = Ok e /\
    getattr e "response" = Ok response /\
    getattr e "request" = Ok PNone /\
    getattr e "request" <> getattr response "request".
Proof.
  split; [reflexivity|]. eexists.
  split; [reflexivity|]. split; [reflexivity|].
  split; [reflexivity | discriminate].
Qed.

(** C10, amended. An exception of any class of the module that is built
    with a response whose truth value is true, and no request, has the
    request the response refers to as its request; built with neither, it
    has [None] for both. *)
Theorem response_request_adopted (js : list jar) (c : exc_class)
  (args : list pyobj) (response request : pyobj) :
  truthy js response = true ->
  getattr response "request" = Ok request ->
  (exists e,
      RequestException_init js c args [("response", response)] = Ok e /\
      getattr e "request" = Ok request /\
      getattr e "response" = Ok response) /\
  (exists e,
      RequestException_init js c args [] = Ok e /\
      getattr e "request" = Ok PNone /\
      getattr e "response" = Ok PNone).
Proof.
  intros Htrue Hreq. split.
  - unfold RequestException_init. cbn -[truthy getattr].
    rewrite Htrue, Hreq. simpl. eexists. repeat split.
  - eexists. repeat split.
Qed.

Lemma response_request_adopted_witness :
  let request := PObj "Request" true [("url", PStr "http://a.example/")] in
  let response :=
    PObj "Response" true [("status_code", PInt 200); ("request", request)] in
  (exists e,
      RequestException_init [] ContentDecodingError [PStr "bad gzip"]
        [("response", response)] = Ok e /\
      getattr e "request" = Ok request /\
      getattr e "response" = Ok response) /\
  (exists e,
      RequestException_init [] ContentDecodingError [PStr "bad gzip"] []
      = Ok e /\
      getattr e "request" = Ok PNone /\
      getattr e "response" = Ok PNone).
Proof.
  intros request response.
  apply (response_request_adopted [] ContentDecodingError [PStr "bad gzip"]
           response request); reflexivity.
Defined.

(** * Further properties *)

(** ** merge_kwargs: precedence, order and re-application *)

(** X1. Local precedence: a key the local bag maps to a value other than
    [None] has that value in the merged bag, whatever the default bag holds
    under it; the merge of two dictionaries never fails. *)
Theorem merge_kwargs_local_precedence (local default : pdict) (k : string)
  (v : pyobj) :
  dict_wf local -> dict_wf default ->
  dict_get k local = Some v -> v <> PNone ->
  exists merged,
    merge_kwargs (PDict local) (PDict default) = Ok (PDict merged) /\
    dict_get k merged = Some v.
Proof.
  intros Hl Hd Hk Hv.
  destruct (merge_kwargs_dict_lookup local default Hl Hd)
    as (m & Hm & _ & Hget).
  exists m. split; [exact Hm|].
  rewrite Hget, Hk. destruct v; congruence.
Qed.

Lemma merge_kwargs_local_precedence_witness :
  exists merged,
    merge_kwargs (PDict [("Accept", PStr "text/html")])
      (PDict [("Accept", PStr "*/*"); ("User-Agent", PStr "requests")])
    = Ok (PDict merged) /\
    dict_get "Accept" merged = Some (PStr "text/html").
Proof.
  apply (merge_kwargs_local_precedence
           [("Accept", PStr "text/html")]
           [("Accept", PStr "*/*"); ("User-Agent", PStr "requests")]
           "Accept" (PStr "text/html")).
  - wf_by_computation.
  - wf_by_computation.
  - reflexivity.
  - discriminate.
Defined.

(** X2. Defaults are kept: a key the local bag does not mention has in the
    merged bag what it has in the default bag, a value or nothing. *)
Theorem merge_kwargs_default_kept (local default : pdict) (k : string) :
  dict_wf local -> dict_wf default ->
  dict_get k local = None ->
  exists merged,
    merge_kwargs (PDict local) (PDict default) = Ok (PDict merged) /\
    dict_get k merged = dict_get k default.
Proof.
  intros Hl Hd Hk.
  destruct (merge_kwargs_dict_lookup local default Hl Hd)
    as (m & Hm & _ & Hget).
  exists m. split; [exact Hm|]. now rewrite Hget, Hk.
Qed.

Lemma merge_kwargs_default_kept_witness :
  exists merged,
    merge_kwargs (PDict [("Accept", PStr "text/html")])
      (PDict [("Accept", PStr "*/*"); ("User-Agent", PStr "requests")])
    = Ok (PDict merged) /\
    dict_get "User-Agent" merged
    = dict_get "User-Agent"
        [("Accept", PStr "*/*"); ("User-Agent", PStr "requests")].
Proof.
  apply (merge_kwargs_default_kept
           [("Accept", PStr "text/html")]
           [("Accept", PStr "*/*"); ("User-Agent", PStr "requests")]
           "User-Agent").
  - wf_by_computation.
  - wf_by_computation.
  - reflexivity.
Defined.

Lemma filter_all {A : Type} (p : A -> bool) (l : list A) :
  (forall x, In x l -> p x = true) -> filter p l = l.
Proof.
  induction l as [|a t IH]; simpl; intros H; [reflexivity|].
  rewrite (H a) by tauto. f_equal. apply IH. intros x Hx. apply H. tauto.
Qed.

Lemma filter_none {A : Type} (p : A -> bool) (l : list A) :
  (forall x, In x l -> p x = false) -> filter p l = [].
Proof.
  induction l as [|a t IH]; simpl; intros H; [reflexivity|].
  rewrite (H a) by tauto. apply IH. intros x Hx. apply H. tauto.
Qed.

Lemma filter_filter {A : Type} (p q : A -> bool) (l : list A) :
  filter p (filter q l) = filter (fun x => q x && p x) l.
Proof.
  induction l as [|a t IH]; simpl; [reflexivity|].
  destruct (q a); simpl; [destruct (p a)|]; now rewrite IH.
Qed.

Lemma dict_contains_set (k k' : string) (v : pyobj) (d : pdict) :
  dict_contains k (dict_set k' v d) = String.eqb k' k || dict_contains k d.
Proof.
  unfold dict_contains. rewrite dict_get_set.
  now destruct (String.eqb k' k).
Qed.

Lemma dict_contains_false (k : string) (d : pdict) :
  dict_contains k d = false <-> ~ In k (keys d).
Proof.
  rewrite <- dict_contains_In. now destruct (dict_contains k d).
Qed.

(** The keys after [update]: those of the dictionary, then the new ones. *)
Lemma keys_dict_update (other : pdict) :
  forall d : pdict,
  dict_wf other ->
  keys (dict_update d other)
  = keys d ++ filter (fun k => negb (dict_contains k d)) (keys other).
Proof.
  unfold dict_update, dict_wf.
  induction other as [|[a b] t IH]; simpl; intros d H.
  - now rewrite app_nil_r.
  - inversion H as [|? ? Hnotin Hnodup]; subst.
    rewrite IH by exact Hnodup.
    assert (Hext :
      filter (fun k => negb (dict_contains k (dict_set a b d))) (keys t)
      = filter (fun k => negb (dict_contains k d)) (keys t)).
    { apply filter_ext_in. intros k Hk. rewrite dict_contains_set.
      destruct (String.eqb a k) eqn:E; [|reflexivity].
      apply String.eqb_eq in E. subst. tauto. }
    rewrite Hext.
    destruct (dict_contains a d) eqn:Ea; simpl.
    + apply dict_contains_In in Ea.
      now rewrite keys_dict_set_present.
    + apply dict_contains_false in Ea. rewrite dict_set_fresh by exact Ea.
      unfold keys. rewrite map_app, <- app_assoc. reflexivity.
Qed.

Lemma keys_dict_remove_filter (k : string) (d : pdict) :
  dict_wf d ->
  keys (dict_remove k d) = filter (fun x => negb (String.eqb x k)) (keys d).
Proof.
  unfold dict_wf.
  induction d as [|[a b] t IH]; simpl; intros H; [reflexivity|].
  inversion H as [|? ? Hnotin Hnodup]; subst.
  destruct (String.eqb a k) eqn:E; simpl.
  - apply String.eqb_eq in E. subst a. symmetry. apply filter_all.
    intros x Hx. apply negb_true_iff, String.eqb_neq. intros ->. tauto.
  - f_equal. apply IH, Hnodup.
Qed.

Lemma del_none_keys_keys (items : pdict) :
  forall kwargs m : pdict,
  dict_wf items -> dict_wf kwargs ->
  del_none_keys items kwargs = Ok m ->
  keys m = filter (fun k => negb (is_unset items k)) (keys kwargs).
Proof.
  induction items as [|[a b] t IH]; intros kwargs m Hi Hk H.
  - simpl in H. inversion H; subst. symmetry. now apply filter_all.
  - inversion Hi as [|? ? Hnotin Hnodup]; subst.
    assert (Hskip :
      b <> PNone -> del_none_keys t kwargs = Ok m ->
      keys m
      = filter (fun k => negb (is_unset ((a, b) :: t) k)) (keys kwargs)).
    { intros Hb Ht. rewrite (IH kwargs m Hnodup Hk Ht).
      apply filter_ext. intros k. unfold is_unset. simpl.
      destruct (String.eqb a k) eqn:E; [|reflexivity].
      apply String.eqb_eq in E; subst a.
      apply dict_get_None in Hnotin. rewrite Hnotin.
      destruct b; congruence. }
    destruct b; try (apply Hskip; [discriminate | exact H]).
    simpl in H. unfold dict_del in H.
    destruct (dict_contains a kwargs); [|discriminate].
    rewrite (IH _ m Hnodup (dict_remove_wf a kwargs Hk) H).
    rewrite keys_dict_remove_filter by exact Hk. rewrite filter_filter.
    apply filter_ext. intros k. unfold is_unset. simpl.
    rewrite (String.eqb_sym k a).
    now destruct (String.eqb a k).
Qed.

Lemma merge_kwargs_keys (local default merged : pdict) :
  dict_wf local -> dict_wf default ->
  merge_kwargs (PDict local) (PDict default) = Ok (PDict merged) ->
  keys merged
  = filter (fun k => negb (is_unset local k))
      (keys default
       ++ filter (fun k => negb (dict_contains k default)) (keys local)).
Proof.
  intros Hl Hd Hm.
  unfold merge_kwargs in Hm. simpl in Hm.
  rewrite (dict_update_nil local Hl), (dict_update_nil default Hd) in Hm.
  destruct (del_none_keys local (dict_update default local)) as [m'|e] eqn:E;
    simpl in Hm; [|discriminate].
  inversion Hm; subst m'.
  rewrite (del_none_keys_keys local _ merged Hl
             (dict_update_wf local default Hd) E).
  now rewrite keys_dict_update.
Qed.

(** X3. Order of the merged bag: the keys of the default bag come first, in
    their order, then the keys only the local bag has, in theirs; the keys
    the local bag maps to [None] are left out. *)
Theorem merge_kwargs_key_order (local default : pdict) :
  dict_wf local -> dict_wf default ->
  exists merged,
    merge_kwargs (PDict local) (PDict default) = Ok (PDict merged) /\
    keys merged
    = filter (fun k => negb (is_unset local k))
        (keys default
         ++ filter (fun k => negb (dict_contains k default)) (keys local)).
Proof.
  intros Hl Hd.
  destruct (merge_kwargs_dict_lookup local default Hl Hd)
    as (m & Hm & _ & _).
  exists m. split; [exact Hm|].
  apply merge_kwargs_keys; assumption.
Qed.

Lemma merge_kwargs_key_order_witness :
  exists merged,
    merge_kwargs
      (PDict [("c", PStr "3"); ("a", PNone); ("b", PStr "20")])
      (PDict [("a", PStr "1"); ("b", PStr "2")])
    = Ok (PDict merged) /\
    keys merged = ["b"; "c"].
Proof.
  apply (merge_kwargs_key_order
           [("c", PStr "3"); ("a", PNone); ("b", PStr "20")]
           [("a", PStr "1"); ("b", PStr "2")]); wf_by_computation.
Defined.

(** Two dictionaries with the same keys in the same order and the same
    value under each key are the same dictionary. *)
Lemma dict_ext (d1 : pdict) :
  forall d2 : pdict,
  dict_wf d1 -> keys d1 = keys d2 ->
  (forall k, dict_get k d1 = dict_get k d2) ->
  d1 = d2.
Proof.
  unfold dict_wf.
  induction d1 as [|[a b] t IH]; intros [|[a' b'] t'] Hwf Hkeys Hget;
    simpl in Hkeys; try discriminate; [reflexivity|].
  inversion Hkeys; subst a'.
  inversion Hwf as [|? ? Hnotin Hnodup]; subst.
  pose proof (Hget a) as Ha. simpl in Ha. rewrite String.eqb_refl in Ha.
  inversion Ha; subst b'. f_equal.
  apply IH; [exact Hnodup | assumption |].
  intros k. specialize (Hget k). simpl in Hget.
  destruct (String.eqb a k) eqn:E; [|exact Hget].
  apply String.eqb_eq in E; subst k.
  assert (Hnotin' : ~ In a (keys t')) by (rewrite <- H1; exact Hnotin).
  apply dict_get_None in Hnotin, Hnotin'. congruence.
Qed.

(** X4. Applying the same local bag a second time changes nothing: the
    merge of [local] into the merge of [local] and [default] is that merge,
    also when [local] unsets keys. *)
Theorem merge_kwargs_reapplied (local default : pdict) :
  dict_wf local -> dict_wf default ->
  exists merged,
    merge_kwargs (PDict local) (PDict default) = Ok (PDict merged) /\
    merge_kwargs (PDict local) (PDict merged) = Ok (PDict merged).
Proof.
  intros Hl Hd.
  destruct (merge_kwargs_dict_lookup local default Hl Hd)
    as (m & Hm & Hwf & Hget).
  exists m. split; [exact Hm|].
  destruct (merge_kwargs_dict_lookup local m Hl Hwf)
    as (m2 & Hm2 & Hwf2 & Hget2).
  pose proof (merge_kwargs_keys local m m2 Hl Hwf Hm2) as Hkeys.
  rewrite Hm2. do 2 f_equal.
  apply dict_ext; [exact Hwf2 | |].
  - rewrite Hkeys, filter_app.
    rewrite (filter_all _ (keys m)).
    + rewrite filter_filter, filter_none; [now rewrite app_nil_r|].
      intros k Hk. apply andb_false_iff.
      destruct (dict_contains k m) eqn:Ec; [now left | right].
      apply negb_false_iff. unfold is_unset.
      unfold dict_contains in Ec. rewrite Hget in Ec.
      destruct (dict_get k local) as [[]|] eqn:Ek; try discriminate;
        try reflexivity.
      apply dict_get_None in Ek. tauto.
    + intros k Hk. apply negb_true_iff. unfold is_unset.
      apply dict_contains_In in Hk. unfold dict_contains in Hk.
      rewrite Hget in Hk.
      destruct (dict_get k local) as [[]|]; try reflexivity. discriminate.
  - intros k. rewrite Hget2, Hget.
    now destruct (dict_get k local) as [[]|].
Qed.

Lemma merge_kwargs_reapplied_witness :
  exists merged,
    merge_kwargs (PDict [("a", PNone); ("c", PStr "3")])
      (PDict [("a", PStr "1"); ("b", PStr "2")])
    = Ok (PDict merged) /\
    merge_kwargs (PDict [("a", PNone); ("c", PStr "3")]) (PDict merged)
    = Ok (PDict merged).
Proof.
  apply (merge_kwargs_reapplied
           [("a", PNone); ("c", PStr "3")]
           [("a", PStr "1"); ("b", PStr "2")]); wf_by_computation.
Defined.

(** ** The working jar of a request *)

Lemma same_key_false (c c' : Cookie) :
  same_key c c' = false <-> cookie_key c <> cookie_key c'.
Proof.
  rewrite <- same_key_true. now destruct (same_key c c').
Qed.

Lemma In_set_cookie (c : Cookie) (j : jar) : In c (set_cookie c j).
Proof.
  induction j as [|c' t IH]; simpl; [tauto|].
  destruct (same_key c' c); simpl; tauto.
Qed.

Lemma In_set_cookie_keep (c x : Cookie) (j : jar) :
  In x j -> same_key x c = false -> In x (set_cookie c j).
Proof.
  induction j as [|c' t IH]; simpl; intros Hin Hk; [tauto|].
  destruct (same_key c' c) eqn:E; simpl.
  - destruct Hin as [->|Hin]; [congruence | tauto].
  - destruct Hin as [->|Hin]; [tauto | right; auto].
Qed.

Lemma In_set_cookie_inv (c x : Cookie) (j : jar) :
  In x (set_cookie c j) -> x = c \/ In x j.
Proof.
  induction j as [|c' t IH]; simpl; intros H; [intuition auto|].
  destruct (same_key c' c); simpl in H; [intuition auto|].
  destruct H as [H|H]; [tauto|]. destruct (IH H); tauto.
Qed.

Lemma set_cookie_wf (c : Cookie) (j : jar) :
  jar_wf j -> jar_wf (set_cookie c j).
Proof.
  unfold jar_wf.
  induction j as [|c' t IH]; simpl; intros H.
  - repeat constructor. simpl. tauto.
  - inversion H as [|? ? Hnotin Hnodup]; subst.
    destruct (same_key c' c) eqn:E; simpl.
    + apply same_key_true in E. rewrite <- E. exact H.
    + constructor; [|apply IH, Hnodup].
      intros Hin. apply in_map_iff in Hin. destruct Hin as (x & Hx & Hin).
      apply In_set_cookie_inv in Hin. destruct Hin as [->|Hin].
      * apply same_key_false in E. congruence.
      * apply Hnotin. rewrite <- Hx. apply in_map, Hin.
Qed.

Lemma set_cookies_wf (cs : list Cookie) :
  forall j, jar_wf j -> jar_wf (fold_left (fun j c => set_cookie c j) cs j).
Proof.
  induction cs as [|c t IH]; simpl; intros j H; [exact H|].
  apply IH, set_cookie_wf, H.
Qed.

Lemma In_set_cookies_keep (cs : list Cookie) (x : Cookie) :
  forall j,
  In x j -> (forall c, In c cs -> same_key x c = false) ->
  In x (fold_left (fun j c => set_cookie c j) cs j).
Proof.
  induction cs as [|c t IH]; simpl; intros j Hin Hk; [exact Hin|].
  apply IH; [|auto]. apply In_set_cookie_keep; auto.
Qed.

(** Every cookie of a well-formed source is in the target afterwards. *)
Lemma In_set_cookies_source (cs : list Cookie) (x : Cookie) :
  forall j,
  jar_wf cs -> In x cs ->
  In x (fold_left (fun j c => set_cookie c j) cs j).
Proof.
  unfold jar_wf.
  induction cs as [|c t IH]; simpl; intros j Hwf Hin; [tauto|].
  inversion Hwf as [|? ? Hnotin Hnodup]; subst.
  destruct Hin as [->|Hin]; [|apply IH; assumption].
  apply In_set_cookies_keep; [apply In_set_cookie|].
  intros c Hc. apply same_key_false. intros Hk. apply Hnotin.
  rewrite Hk. apply in_map, Hc.
Qed.

Lemma In_set_cookies_inv (cs : list Cookie) (x : Cookie) :
  forall j,
  In x (fold_left (fun j c => set_cookie c j) cs j) -> In x cs \/ In x j.
Proof.
  induction cs as [|c t IH]; simpl; intros j H; [tauto|].
  destruct (IH _ H) as [H'|H']; [tauto|].
  apply In_set_cookie_inv in H'. destruct H'; subst; tauto.
Qed.

Lemma set_cookies_app (cs : list Cookie) :
  forall pre, jar_wf (pre ++ cs) ->
  fold_left (fun j c => set_cookie c j) cs pre = pre ++ cs.
Proof.
  assert (Hfresh : forall c pre,
             ~ In (cookie_key c) (map cookie_key pre) ->
             set_cookie c pre = pre ++ [c]).
  { intros c pre. induction pre as [|c' t IH]; simpl; intros H; [reflexivity|].
    destruct (same_key c' c) eqn:E.
    - apply same_key_true in E. tauto.
    - rewrite IH by tauto. reflexivity. }
  unfold jar_wf.
  induction cs as [|c t IH]; simpl; intros pre H.
  - now rewrite app_nil_r.
  - rewrite Hfresh.
    + rewrite IH; rewrite <- app_assoc; [reflexivity | exact H].
    + rewrite map_app in H. simpl in H. apply NoDup_remove_2 in H.
      intros Hin. apply H, in_or_app. tauto.
Qed.

Lemma filter_wf (p : Cookie -> bool) (j : jar) :
  jar_wf j -> jar_wf (filter p j).
Proof.
  unfold jar_wf.
  induction j as [|c t IH]; simpl; intros H; [exact H|].
  inversion H as [|? ? Hnotin Hnodup]; subst.
  destruct (p c); simpl; [|auto].
  constructor; [|auto].
  intros Hin. apply Hnotin. apply in_map_iff in Hin.
  destruct Hin as (x & Hx & Hin). apply filter_In in Hin.
  rewrite <- Hx. apply in_map. tauto.
Qed.

Lemma remove_names_wf (names : list string) :
  forall j, jar_wf j ->
  jar_wf
    (fold_left
       (fun j name =>
          filter (fun c => negb (String.eqb (cookie_name c) name)) j)
       names j).
Proof.
  induction names as [|n t IH]; simpl; intros j H; [exact H|].
  apply IH, filter_wf, H.
Qed.

Lemma In_remove_names (names : list string) (x : Cookie) :
  forall j,
  In x
    (fold_left
       (fun j name =>
          filter (fun c => negb (String.eqb (cookie_name c) name)) j)
       names j)
  <-> In x j /\ ~ In (cookie_name x) names.
Proof.
  induction names as [|n t IH]; simpl; intros j; [tauto|].
  rewrite IH, filter_In, negb_true_iff, String.eqb_neq.
  split; intros H; repeat split; try tauto; intuition congruence.
Qed.

Lemma In_dead_names (n : string) (cd : pdict) :
  In n (Session.dead_names cd) <-> In (n, PNone) cd.
Proof.
  induction cd as [|[a b] t IH]; simpl; [tauto|].
  destruct b; simpl; rewrite IH; split; intros H;
    try (destruct H as [H|H]; [inversion H; subst|]); try tauto;
    try discriminate; auto.
Qed.

Lemma jar_of_wf (d : pdict) : jar_wf (jar_of d).
Proof.
  unfold jar_of.
  assert (H : forall j, jar_wf j ->
            jar_wf (fold_left
                      (fun j kv =>
                         set_cookie (create_cookie (fst kv) (snd kv)) j) d j)).
  { induction d as [|kv t IH]; simpl; intros j Hj; [exact Hj|].
    apply IH, set_cookie_wf, Hj. }
  apply H. constructor.
Qed.

Lemma working_jar_wf (cd : pdict) (sj : jar) : jar_wf (working_jar cd sj).
Proof.
  unfold working_jar. apply remove_names_wf, set_cookies_wf, jar_of_wf.
Qed.

Lemma jar_wf_key_inj (j : jar) (x y : Cookie) :
  jar_wf j -> In x j -> In y j -> cookie_key x = cookie_key y -> x = y.
Proof.
  unfold jar_wf.
  induction j as [|c t IH]; simpl; intros Hwf Hx Hy Hk; [tauto|].
  inversion Hwf as [|? ? Hnotin Hnodup]; subst.
  destruct Hx as [->|Hx], Hy as [->|Hy]; auto.
  - exfalso. apply Hnotin. rewrite Hk. apply in_map, Hy.
  - exfalso. apply Hnotin. rewrite <- Hk. apply in_map, Hx.
Qed.

Lemma dict_get_In (k : string) (v : pyobj) (d : pdict) :
  dict_get k d = Some v -> In (k, v) d.
Proof.
  induction d as [|[a b] t IH]; simpl; intros H; [discriminate|].
  destruct (String.eqb a k) eqn:E.
  - apply String.eqb_eq in E. inversion H; subst. tauto.
  - right. apply IH, H.
Qed.

Lemma In_dict_get (k : string) (v : pyobj) (d : pdict) :
  dict_wf d -> In (k, v) d -> dict_get k d = Some v.
Proof.
  unfold dict_wf.
  induction d as [|[a b] t IH]; simpl; intros Hwf H; [tauto|].
  inversion Hwf as [|? ? Hnotin Hnodup]; subst.
  destruct H as [H|H].
  - inversion H; subst. now rewrite String.eqb_refl.
  - destruct (String.eqb a k) eqn:E; [|auto].
    apply String.eqb_eq in E; subst a. exfalso. apply Hnotin.
    change k with (fst (k, v)). apply in_map, H.
Qed.

Lemma fold_left_on_map {A B C : Type} (f : A -> B -> A) (g : C -> B)
  (l : list C) :
  forall a, fold_left f (map g l) a = fold_left (fun a x => f a (g x)) l a.
Proof.
  induction l as [|x t IH]; simpl; intros a; [reflexivity | apply IH].
Qed.

Lemma NoDup_map_injective {A B : Type} (f : A -> B) (l : list A) :
  (forall x y, f x = f y -> x = y) -> NoDup l -> NoDup (map f l).
Proof.
  intros Hinj. induction 1 as [|a t Hnotin _ IH]; simpl; constructor; auto.
  intros Hin. apply in_map_iff in Hin. destruct Hin as (x & Hx & Hin).
  apply Hinj in Hx. subst. tauto.
Qed.

(** Every entry of a mapping is a cookie of its jar. *)
Lemma In_jar_of (d : pdict) (n : string) (v : pyobj) :
  dict_wf d -> dict_get n d = Some v -> In (create_cookie n v) (jar_of d).
Proof.
  intros Hwf Hget. unfold jar_of.
  rewrite <- (fold_left_on_map
                (fun j c => set_cookie c j)
                (fun kv => create_cookie (fst kv) (snd kv)) d []).
  apply In_set_cookies_source.
  - unfold jar_wf. rewrite map_map. unfold cookie_key. simpl.
    rewrite <- (map_map fst (fun n => ("", "/", n))).
    apply NoDup_map_injective; [|exact Hwf].
    intros x y H. now inversion H.
  - change (create_cookie n v)
      with ((fun kv => create_cookie (fst kv) (snd kv)) (n, v)).
    apply in_map, dict_get_In, Hget.
Qed.

(** X5. Dead names are purged, whatever the mapping: the working jar of a
    request that passes a cookie mapping is a new jar, it holds at most one
    cookie per (domain, path, name), and no cookie in it has a name the
    mapping gives [None] for. *)
Theorem merge_cookies_purges_dead_names (self : pdict) (cd : pdict)
  (w : world) (l : nat) (sj : jar) :
  self_attr self "cookies" = Ok (PJar l) ->
  jar_at l sj w ->
  exists wj,
    Session.merge_cookies self (PDict cd) w
    = (Ok (PJar (length (jars w))), mkWorld (jars w ++ [wj]) (sent w)) /\
    jar_wf wj /\
    forall c, In c wj -> ~ In (cookie_name c, PNone) cd.
Proof.
  intros Hself Hl. exists (working_jar cd sj).
  split; [apply (merge_cookies_dict_run self cd w l sj Hself Hl)|].
  split; [apply working_jar_wf|].
  intros c Hc Hdead. unfold working_jar in Hc.
  apply In_remove_names in Hc. destruct Hc as [_ Hc].
  apply Hc, In_dead_names, Hdead.
Qed.

Lemma merge_cookies_purges_dead_names_witness :
  exists wj,
    Session.merge_cookies [("cookies", PJar 0)]
      (PDict [("sid", PNone); ("lang", PStr "en")])
      (mkWorld [jar_of [("sid", PStr "1"); ("theme", PStr "dark")]] [])
    = (Ok (PJar 1),
       mkWorld [jar_of [("sid", PStr "1"); ("theme", PStr "dark")]; wj] []) /\
    jar_wf wj /\
    forall c,
      In c wj ->
      ~ In (cookie_name c, PNone) [("sid", PNone); ("lang", PStr "en")].
Proof.
  apply (merge_cookies_purges_dead_names [("cookies", PJar 0)]
           [("sid", PNone); ("lang", PStr "en")]
           (mkWorld [jar_of [("sid", PStr "1"); ("theme", PStr "dark")]] [])
           0 (jar_of [("sid", PStr "1"); ("theme", PStr "dark")]));
    reflexivity.
Defined.

(** X6. The cookies of the session win: every cookie of the session whose
    name the mapping does not unset is in the working jar, and it is the
    only cookie there with its (domain, path, name), so a cookie the call
    passes under the same key is overwritten. *)
Theorem merge_cookies_session_wins (self : pdict) (cd : pdict)
  (w : world) (l : nat) (sj : jar) (c : Cookie) :
  self_attr self "cookies" = Ok (PJar l) ->
  jar_at l sj w -> jar_wf sj ->
  In c sj -> ~ In (cookie_name c, PNone) cd ->
  exists wj,
    Session.merge_cookies self (PDict cd) w
    = (Ok (PJar (length (jars w))), mkWorld (jars w ++ [wj]) (sent w)) /\
    In c wj /\
    forall x, In x wj -> cookie_key x = cookie_key c -> x = c.
Proof.
  intros Hself Hl Hwf Hc Hlive. exists (working_jar cd sj).
  split; [apply (merge_cookies_dict_run self cd w l sj Hself Hl)|].
  assert (Hin : In c (working_jar cd sj)).
  { unfold working_jar. apply In_remove_names. split.
    - apply In_set_cookies_source; assumption.
    - intros Hd. apply Hlive, In_dead_names, Hd. }
  split; [exact Hin|].
  intros x Hx Hk. apply (jar_wf_key_inj (working_jar cd sj)); auto.
  apply working_jar_wf.
Qed.

Lemma merge_cookies_session_wins_witness :
  exists wj,
    Session.merge_cookies [("cookies", PJar 0)]
      (PDict [("sid", PStr "call")])
      (mkWorld [jar_of [("sid", PStr "session")]] [])
    = (Ok (PJar 1), mkWorld [jar_of [("sid", PStr "session")]; wj] []) /\
    In (create_cookie "sid" (PStr "session")) wj /\
    forall x,
      In x wj ->
      cookie_key x = cookie_key (create_cookie "sid" (PStr "session")) ->
      x = create_cookie "sid" (PStr "session").
Proof.
  apply (merge_cookies_session_wins [("cookies", PJar 0)]
           [("sid", PStr "call")]
           (mkWorld [jar_of [("sid", PStr "session")]] [])
           0 (jar_of [("sid", PStr "session")])
           (create_cookie "sid" (PStr "session"))).
  - reflexivity.
  - reflexivity.
  - wf_by_computation.
  - simpl. tauto.
  - simpl. intros [H|[]]. discriminate.
Defined.

(** X7. A cookie of the call survives when nothing collides with it: an
    entry of the mapping with a value other than [None] is a cookie of the
    working jar when no cookie of the session has its (domain, path,
    name). *)
Theorem merge_cookies_call_cookie_kept (self : pdict) (cd : pdict)
  (w : world) (l : nat) (sj : jar) (n : string) (v : pyobj) :
  self_attr self "cookies" = Ok (PJar l) ->
  jar_at l sj w -> dict_wf cd ->
  dict_get n cd = Some v -> v <> PNone ->
  (forall c, In c sj -> cookie_key c <> cookie_key (create_cookie n v)) ->
  exists wj,
    Session.merge_cookies self (PDict cd) w
    = (Ok (PJar (length (jars w))), mkWorld (jars w ++ [wj]) (sent w)) /\
    In (create_cookie n v) wj.
Proof.
  intros Hself Hl Hwf Hget Hv Hfree. exists (working_jar cd sj).
  split; [apply (merge_cookies_dict_run self cd w l sj Hself Hl)|].
  unfold working_jar. apply In_remove_names. split.
  - apply In_set_cookies_keep; [apply In_jar_of; assumption|].
    intros c Hc. apply same_key_false. intros Hk.
    apply (Hfree c Hc). now symmetry.
  - simpl. intros Hd. apply In_dead_names in Hd.
    apply (In_dict_get _ _ _ Hwf) in Hd. congruence.
Qed.

Lemma merge_cookies_call_cookie_kept_witness :
  exists wj,
    Session.merge_cookies [("cookies", PJar 0)]
      (PDict [("lang", PStr "en")])
      (mkWorld [jar_of [("sid", PStr "1")]] [])
    = (Ok (PJar 1), mkWorld [jar_of [("sid", PStr "1")]; wj] []) /\
    In (create_cookie "lang" (PStr "en")) wj.
Proof.
  apply (merge_cookies_call_cookie_kept [("cookies", PJar 0)]
           [("lang", PStr "en")]
           (mkWorld [jar_of [("sid", PStr "1")]] [])
           0 (jar_of [("sid", PStr "1")]) "lang" (PStr "en")).
  - reflexivity.
  - reflexivity.
  - wf_by_computation.
  - reflexivity.
  - discriminate.
  - simpl. intros c [<-|[]]. discriminate.
Defined.

Lemma length_update_nth {A : Type} (l : list A) (n : nat) (x : A) :
  length (update_nth n x l) = length l.
Proof.
  revert n. induction l as [|a t IH]; intros [|n]; simpl; auto.
Qed.

(** X8. A [CookieJar] passed by the caller is the working jar itself: no
    jar is created, and the cookies of the session are written into the
    caller's jar.  Afterwards it holds every cookie of the session and,
    of its own cookies, those no cookie of the session shares a (domain,
    path, name) with; every other jar is as it was. *)
Theorem merge_cookies_into_callers_jar (self : pdict) (w : world)
  (l n : nat) (sj cj : jar) :
  self_attr self "cookies" = Ok (PJar l) ->
  jar_at l sj w -> jar_at n cj w -> jar_wf sj ->
  exists cj' w',
    Session.merge_cookies self (PJar n) w = (Ok (PJar n), w') /\
    jar_at n cj' w' /\
    length (jars w') = length (jars w) /\
    sent w' = sent w /\
    (forall m, m <> n -> nth_error (jars w') m = nth_error (jars w) m) /\
    (forall c, In c sj -> In c cj') /\
    (forall x,
        In x cj ->
        (forall c, In c sj -> cookie_key x <> cookie_key c) ->
        In x cj') /\
    (forall x, In x cj' -> In x sj \/ In x cj).
Proof.
  intros Hself Hl Hn Hwf.
  exists (fold_left (fun j c => set_cookie c j) sj cj).
  eexists. split.
  { apply (merge_cookies_jar_run self w l n sj cj Hself Hl Hn). }
  unfold jar_at. simpl.
  split; [eapply nth_error_update_nth_eq, Hn|].
  split; [apply length_update_nth|].
  split; [reflexivity|].
  split; [intros m Hm; apply nth_error_update_nth_ne; congruence|].
  split; [intros c Hc; apply In_set_cookies_source; assumption|].
  split.
  - intros x Hx Hfree. apply In_set_cookies_keep; [exact Hx|].
    intros c Hc. apply same_key_false. auto.
  - intros x Hx. apply In_set_cookies_inv, Hx.
Qed.

Lemma merge_cookies_into_callers_jar_witness :
  exists cj' w',
    Session.merge_cookies [("cookies", PJar 0)] (PJar 1)
      (mkWorld [jar_of [("sid", PStr "session")];
                jar_of [("sid", PStr "mine"); ("lang", PStr "en")]] [])
    = (Ok (PJar 1), w') /\
    jar_at 1 cj' w' /\
    In (create_cookie "sid" (PStr "session")) cj' /\
    In (create_cookie "lang" (PStr "en")) cj' /\
    ~ In (create_cookie "sid" (PStr "mine")) cj'.
Proof.
  destruct (merge_cookies_into_callers_jar [("cookies", PJar 0)]
              (mkWorld [jar_of [("sid", PStr "session")];
                        jar_of [("sid", PStr "mine"); ("lang", PStr "en")]]
                 [])
              0 1 (jar_of [("sid", PStr "session")])
              (jar_of [("sid", PStr "mine"); ("lang", PStr "en")]))
    as (cj' & w' & Hrun & Hat & _ & _ & _ & Hsess & Hkeep & _).
  - reflexivity.
  - reflexivity.
  - reflexivity.
  - wf_by_computation.
  - exists cj', w'. split; [exact Hrun|]. split; [exact Hat|].
    split; [apply Hsess; simpl; tauto|].
    split.
    + apply Hkeep; [simpl; tauto|]. simpl. intros c [<-|[]]. discriminate.
    + vm_compute in Hrun. inversion Hrun; subst w'.
      unfold jar_at in Hat. simpl in Hat. inversion Hat; subst cj'.
      simpl. intros [H|[H|[]]]; discriminate.
Defined.

(** X9. With no cookies passed, the working jar is a new jar that holds
    exactly the cookies of the session, in their order. *)
Theorem merge_cookies_without_cookies (self : pdict) (w : world) (l : nat)
  (sj : jar) :
  self_attr self "cookies" = Ok (PJar l) ->
  jar_at l sj w -> jar_wf sj ->
  Session.merge_cookies self PNone w
  = (Ok (PJar (length (jars w))), mkWorld (jars w ++ [sj]) (sent w)).
Proof.
  intros Hself Hl Hwf.
  rewrite (merge_cookies_none_run self w l sj Hself Hl).
  now rewrite (set_cookies_app sj []).
Qed.

Lemma merge_cookies_without_cookies_witness :
  Session.merge_cookies [("cookies", PJar 0)] PNone
    (mkWorld [jar_of [("sid", PStr "1"); ("lang", PStr "en")]] [])
  = (Ok (PJar 1),
     mkWorld [jar_of [("sid", PStr "1"); ("lang", PStr "en")];
              jar_of [("sid", PStr "1"); ("lang", PStr "en")]] []).
Proof.
  apply (merge_cookies_without_cookies [("cookies", PJar 0)]
           (mkWorld [jar_of [("sid", PStr "1"); ("lang", PStr "en")]] [])
           0 (jar_of [("sid", PStr "1"); ("lang", PStr "en")])).
  - reflexivity.
  - reflexivity.
  - wf_by_computation.
Defined.

(** ** The arguments old_request builds *)

(** A default that is no mapping is replaced, not merged; an absent local
    value falls back on it. *)
Lemma merge_kwargs_scalar (local default : pyobj) :
  hasattr_items default = false ->
  merge_kwargs local default = Ok (if_none local default).
Proof.
  intros H. destruct default; simpl in H; try discriminate;
    destruct local; simpl; try rewrite H; reflexivity.
Qed.

Ltac attrs_nodup :=
  unfold Session.__attrs__;
  repeat (constructor; [simpl; intuition discriminate|]); constructor.

(** The loop of lines 271 to 278, as [old_request] runs it. *)
Lemma old_request_args_loop (E : collaborators) (self : pdict)
  (method : string) (url : pyobj) (kwargs : pdict) (w w' : world)
  (args : pdict) :
  Session.old_request_args E self method url kwargs w = (Ok args, w') ->
  exists args0,
    Session.merge_session_attrs self Session.__attrs__ args0 = Ok args /\
    dict_get "method" args0 = Some (PStr (upper method)) /\
    dict_get "url" args0 = Some url /\
    dict_get "data" args0
    = Some (if_none (dict_get_default "data" PNone kwargs) (PList [])) /\
    dict_get "files" args0
    = Some (if_none (dict_get_default "files" PNone kwargs) (PList [])) /\
    dict_get "allow_redirects" args0
    = Some (dict_get_default "allow_redirects" (PBool true) kwargs) /\
    dict_get "_poolmanager" args0 = dict_get "poolmanager" self /\
    dict_get "timeout" args0 = Some (dict_get_default "timeout" PNone kwargs) /\
    dict_get "auth" args0 = Some (dict_get_default "auth" PNone kwargs) /\
    dict_get "verify" args0 = Some (dict_get_default "verify" PNone kwargs) /\
    dict_get "cert" args0 = Some (dict_get_default "cert" PNone kwargs).
Proof.
  intros H. unfold Session.old_request_args in H. cbv zeta in H.
  bind_inv H.
  apply lift_Ok_inv in H. destruct H as [H _].
  apply lift_Ok_inv in Hm9. destruct Hm9 as [Hm9 _].
  unfold self_attr in Hm9.
  destruct (dict_get "poolmanager" self) as [pm|] eqn:Epm; [|discriminate].
  inversion Hm9; subst a9.
  eexists. split; [exact H|]. repeat split.
Qed.

(** X10. Scalar settings are replaced, not merged: for [timeout], [auth],
    [verify] and [cert], when the value the session holds is no mapping,
    the request gets the value of the call, and the value of the session
    when the call gives none. *)
Theorem old_request_scalar_settings (E : collaborators) (self : pdict)
  (method : string) (url : pyobj) (kwargs : pdict) (w w' : world)
  (args : pdict) (attr : string) :
  Session.old_request_args E self method url kwargs w = (Ok args, w') ->
  In attr ["timeout"; "auth"; "verify"; "cert"] ->
  hasattr_items (dict_get_default attr PNone self) = false ->
  dict_get attr args
  = Some (if_none (dict_get_default attr PNone kwargs)
            (dict_get_default attr PNone self)).
Proof.
  intros H Hattr Hscalar.
  destruct (old_request_args_loop E self method url kwargs w w' args H)
    as (args0 & Hloop & _ & _ & _ & _ & _ & _ & Ht & Ha & Hv & Hc).
  assert (Hlocal : dict_get_default attr PNone args0
                   = dict_get_default attr PNone kwargs).
  { unfold dict_get_default at 1. simpl in Hattr.
    destruct Hattr as [<-|[<-|[<-|[<-|[]]]]];
      [rewrite Ht | rewrite Ha | rewrite Hv | rewrite Hc]; reflexivity. }
  destruct (merge_session_attrs_merged self attr _ _ _ Hloop)
    as (m & Hm & Hget).
  - attrs_nodup.
  - simpl in Hattr. simpl. intuition auto.
  - simpl in Hattr. intuition (subst; discriminate).
  - rewrite Hlocal, merge_kwargs_scalar in Hm by exact Hscalar.
    inversion Hm; subst m. exact Hget.
Qed.

Lemma old_request_scalar_settings_witness :
  let E := plain_collaborators in
  let pm := PObj "PoolManager" true [] in
  let self :=
    with_poolmanager pm
      (dict_set "timeout" (PInt 30) (new_session E (PJar 0))) in
  let args :=
    dict_set "timeout" (PInt 30)
      (built_args E pm (PStr "http://a.example/") (PJar 1)) in
  dict_get "timeout" args = Some (PInt 30).
Proof.
  intros E pm self args.
  apply (old_request_scalar_settings E self "get" (PStr "http://a.example/")
           [] (mkWorld [[]] []) (mkWorld [[]; []] []) args "timeout").
  - vm_compute. reflexivity.
  - simpl. tauto.
  - reflexivity.
Defined.

(** X11. What the merge leaves alone: the method reaches the request in
    upper case, and the URL, the data and the files (an empty list when
    absent), [allow_redirects] ([True] when absent) and the pool manager of
    the session reach it as they are: no attribute of the session is merged
    into them. *)
Theorem old_request_passes_through (E : collaborators) (self : pdict)
  (method : string) (url : pyobj) (kwargs : pdict) (w w' : world)
  (args : pdict) :
  Session.old_request_args E self method url kwargs w = (Ok args, w') ->
  dict_get "method" args = Some (PStr (upper method)) /\
  dict_get "url" args = Some url /\
  dict_get "data" args
  = Some (if_none (dict_get_default "data" PNone kwargs) (PList [])) /\
  dict_get "files" args
  = Some (if_none (dict_get_default "files" PNone kwargs) (PList [])) /\
  dict_get "allow_redirects" args
  = Some (dict_get_default "allow_redirects" (PBool true) kwargs) /\
  dict_get "_poolmanager" args = dict_get "poolmanager" self.
Proof.
  intros H.
  destruct (old_request_args_loop E self method url kwargs w w' args H)
    as (args0 & Hloop & Hm & Hu & Hd & Hf & Har & Hp & _).
  assert (Hother : forall k,
             ~ In k Session.__attrs__ -> dict_get k args = dict_get k args0).
  { intros k Hk.
    apply (merge_session_attrs_other self k _ _ _ Hloop Hk). }
  repeat split;
    (rewrite Hother; [assumption | simpl; intuition discriminate]).
Qed.

Lemma old_request_passes_through_witness :
  let E := plain_collaborators in
  let pm := PObj "PoolManager" true [] in
  let self := with_poolmanager pm (new_session E (PJar 0)) in
  let url := PStr "http://a.example/" in
  let kwargs := [("data", PStr "x=1"); ("allow_redirects", PBool false)] in
  exists args w',
    Session.old_request_args E self "post" url kwargs (mkWorld [[]] [])
    = (Ok args, w') /\
    dict_get "method" args = Some (PStr "POST") /\
    dict_get "data" args = Some (PStr "x=1") /\
    dict_get "allow_redirects" args = Some (PBool false).
Proof.
  intros E pm self url kwargs. do 2 eexists.
  split; [vm_compute; reflexivity|].
  destruct (old_request_passes_through E self "post" url kwargs
              (mkWorld [[]] []) _ _ eq_refl)
    as (Hm & _ & Hd & _ & Har & _).
  repeat split; assumption.
Defined.

(** The expansion loop rewrites the value under each key it visits and
    touches nothing else. *)
Lemma expand_headers_spec (E : collaborators) (items : pdict) :
  forall headers h' : pdict,
  dict_wf items -> dict_wf headers ->
  expand_headers E items headers = Ok h' ->
  dict_wf h' /\
  (forall k v,
      dict_get k items = Some v ->
      exists v', header_expand E v = Ok v' /\ dict_get k h' = Some v') /\
  (forall k, dict_get k items = None -> dict_get k h' = dict_get k headers).
Proof.
  induction items as [|[a b] t IH]; simpl; intros headers h' Hi Hh H.
  - inversion H; subst. repeat split; auto. discriminate.
  - inversion Hi as [|? ? Hnotin Hnodup]; subst.
    destruct (header_expand E b) as [b'|e] eqn:Eb; simpl in H; [|discriminate].
    destruct (IH _ _ Hnodup (dict_set_wf a b' headers Hh) H)
      as (Hwf & Hsome & Hnone).
    split; [exact Hwf|]. split.
    + intros k v Hk. destruct (String.eqb a k) eqn:Eak.
      * apply String.eqb_eq in Eak; subst k. inversion Hk; subst v.
        exists b'. split; [exact Eb|].
        rewrite Hnone by (apply dict_get_None, Hnotin).
        now rewrite dict_get_set, String.eqb_refl.
      * apply Hsome, Hk.
    + intros k Hk. destruct (String.eqb a k) eqn:Eak; [discriminate|].
      rewrite (Hnone k Hk), dict_get_set, Eak. reflexivity.
Qed.

(** X12. Headers of the call are expanded, headers of the session are not:
    under a key the call gives a header for, the request has the expansion
    of that value, or nothing when the expansion is [None]; under any other
    key it has the header of the session as it is. *)
Theorem old_request_headers (E : collaborators) (self : pdict)
  (method : string) (url : pyobj) (kwargs : pdict) (w w' : world)
  (args ch sh : pdict) :
  dict_get "headers" kwargs = Some (PDict ch) -> dict_wf ch ->
  dict_get "headers" self = Some (PDict sh) -> dict_wf sh ->
  Session.old_request_args E self method url kwargs w = (Ok args, w') ->
  exists h,
    dict_get "headers" args = Some (PDict h) /\
    (forall k v,
        dict_get k ch = Some v ->
        exists v',
          header_expand E v = Ok v' /\
          dict_get k h = match v' with PNone => None | _ => Some v' end) /\
    (forall k, dict_get k ch = None -> dict_get k h = dict_get k sh).
Proof.
  intros Hkw Hch Hself Hsh H.
  assert (Hexp : exists h',
             dict_wf h' /\
             (forall k v,
                 dict_get k ch = Some v ->
                 exists v', header_expand E v = Ok v' /\
                            dict_get k h' = Some v') /\
             (forall k, dict_get k ch = None -> dict_get k h' = None) /\
             exists args0,
               Session.merge_session_attrs self Session.__attrs__ args0
               = Ok args /\
               dict_get "headers" args0 = Some (PDict h')).
  { unfold Session.old_request_args in H. cbv zeta in H.
    unfold dict_get_default in H. rewrite Hkw in H. simpl if_none in H.
    bind_inv H.
    apply lift_Ok_inv in H. destruct H as [H _].
    apply lift_Ok_inv in Hm5. destruct Hm5 as [Hm5 _].
    unfold expanded_headers, bind, truthyM in Hm3. simpl in Hm3.
    destruct ch as [|kv ch'].
    - inversion Hm3; subst a3. simpl in Hm5. inversion Hm5; subst a5.
      exists []. split; [constructor|]. split; [discriminate|].
      split; [reflexivity|]. eexists. split; [exact H | reflexivity].
    - unfold lift, ret in Hm3.
      destruct (expand_headers E (kv :: ch') (kv :: ch')) as [h'|e] eqn:Ee;
        [|discriminate].
      inversion Hm3; subst a3.
      destruct (expand_headers_spec E _ _ _ Hch Hch Ee)
        as (Hwf & Hsome & Hnone).
      simpl in Hm5. rewrite (dict_update_nil h' Hwf) in Hm5.
      inversion Hm5; subst a5.
      exists h'. split; [exact Hwf|]. split; [exact Hsome|].
      split; [intros k Hk; rewrite (Hnone k Hk); exact Hk|].
      eexists. split; [exact H | reflexivity]. }
  destruct Hexp as (h' & Hwf & Hsome & Hnone & args0 & Hloop & Hh0).
  destruct (merge_session_attrs_merged self "headers" _ _ _ Hloop)
    as (m & Hm & Hget).
  - attrs_nodup.
  - simpl. tauto.
  - discriminate.
  - unfold dict_get_default in Hm. rewrite Hh0, Hself in Hm.
    destruct (merge_kwargs_dict_lookup h' sh Hwf Hsh)
      as (h & Hh & _ & Hlook).
    rewrite Hh in Hm. inversion Hm; subst m.
    exists h. split; [exact Hget|]. split.
    + intros k v Hk. destruct (Hsome k v Hk) as (v' & Hv' & Hk').
      exists v'. split; [exact Hv'|]. rewrite Hlook, Hk'.
      now destruct v'.
    + intros k Hk. now rewrite Hlook, (Hnone k Hk).
Qed.

Lemma old_request_headers_witness :
  let E := plain_collaborators in
  let pm := PObj "PoolManager" true [] in
  let self :=
    with_poolmanager pm
      (dict_set "headers" (PDict [("X-A", PStr "1")])
         (new_session E (PJar 0))) in
  let kwargs := [("headers", PDict [("X-A", PNone); ("X-B", PStr "2")])] in
  exists args w' h,
    Session.old_request_args E self "get" (PStr "http://a.example/") kwargs
      (mkWorld [[]] []) = (Ok args, w') /\
    dict_get "headers" args = Some (PDict h) /\
    dict_get "X-A" h = None /\
    dict_get "X-B" h = Some (PStr "2").
Proof.
  intros E pm self kwargs.
  destruct (old_request_headers E self "get" (PStr "http://a.example/")
              kwargs (mkWorld [[]] []) (mkWorld [[]; []] [])
              (dict_set "headers" (PDict [("X-B", PStr "2")])
                 (built_args E pm (PStr "http://a.example/") (PJar 1)))
              [("X-A", PNone); ("X-B", PStr "2")] [("X-A", PStr "1")])
    as (h & Hargs & Hcall & _).
  - reflexivity.
  - wf_by_computation.
  - reflexivity.
  - wf_by_computation.
  - vm_compute. reflexivity.
  - do 3 eexists. split; [vm_compute; reflexivity|].
    split; [exact Hargs|].
    vm_compute in Hargs. inversion Hargs; subst h.
    split; reflexivity.
Defined.

(** ** A new session *)

Lemma or_else_inv (x y a : pyobj) (w w' : world) :
  or_else x y w = (Ok a, w') ->
  a = (if truthy (jars w) x then x else y) /\ w' = w.
Proof.
  unfold or_else, bind, truthyM, ret. intros H. inversion H. auto.
Qed.

Lemma normalised_wf (d : pdict) : dict_wf (dict_update [] d).
Proof. apply dict_update_wf. constructor. Qed.

(** What [from_key_val_list] returns is a dictionary, unless it was given
    [None]. *)
Lemma from_key_val_list_dict (x y : pyobj) :
  from_key_val_list x = Ok y ->
  (x = PNone /\ y = PNone) \/ exists d, y = PDict d /\ dict_wf d.
Proof.
  destruct x; simpl; intros H; try discriminate.
  - inversion H. auto.
  - destruct (pairs_of items); inversion H.
    right. eexists. split; [reflexivity | apply normalised_wf].
  - destruct (pairs_of items); inversion H.
    right. eexists. split; [reflexivity | apply normalised_wf].
  - inversion H. right. eexists. split; [reflexivity | apply normalised_wf].
Qed.

Lemma from_key_val_list_or_else (js : list jar) (x y : pyobj) :
  from_key_val_list (if truthy js x then x else PList []) = Ok y ->
  exists d, y = PDict d /\ dict_wf d.
Proof.
  intros H. destruct (from_key_val_list_dict _ _ H) as [[Hx _]|Hd];
    [|exact Hd].
  destruct (truthy js x) eqn:E; [|discriminate]. subst x. discriminate.
Qed.

Lemma from_key_val_list_or_dict (js : list jar) (x y : pyobj) :
  from_key_val_list (if truthy js x then x else PDict []) = Ok y ->
  exists d, y = PDict d /\ dict_wf d.
Proof.
  intros H. destruct (from_key_val_list_dict _ _ H) as [[Hx _]|Hd];
    [|exact Hd].
  destruct (truthy js x) eqn:E; [|discriminate]. subst x. discriminate.
Qed.

(** What [Session.__init__] leaves when it returns. *)
Lemma Session_init_inv (E : collaborators) (kwargs : pdict)
  (w w1 : world) (self : pdict) :
  Session.__init__ E kwargs w = (Ok self, w1) ->
  exists headers proxies hooks params c0 cookies,
    self
    = [("headers", PDict headers);
       ("auth", dict_get_default "auth" PNone kwargs);
       ("timeout", dict_get_default "timeout" PNone kwargs);
       ("proxies", PDict proxies); ("hooks", PDict hooks);
       ("params", PDict params);
       ("config",
        PDict (fold_left (fun c kv => dict_setdefault (fst kv) (snd kv) c)
                 (defaults E) c0));
       ("prefetch", dict_get_default "prefetch" (PBool true) kwargs);
       ("verify", dict_get_default "verify" (PBool true) kwargs);
       ("cert", dict_get_default "cert" PNone kwargs);
       ("cookies", cookies)] /\
    dict_wf headers /\ dict_wf proxies /\ dict_wf hooks /\ dict_wf params /\
    dict_wf c0 /\
    from_key_val_list
      (if truthy (jars w) (dict_get_default "config" PNone kwargs)
       then dict_get_default "config" PNone kwargs else PDict [])
    = Ok (PDict c0) /\
    let given := dict_get_default "cookies" PNone kwargs in
    (if is_cookiejar given then cookies = given /\ w1 = w
     else cookiejar_from_dict given w = (Ok cookies, w1)).
Proof.
  intros H. unfold Session.__init__ in H. cbv zeta in H.
  bind_inv H.
  apply lift_Ok_inv in Hm. destruct Hm as [_ ->].
  apply or_else_inv in Hm0. destruct Hm0 as [-> ->].
  apply lift_Ok_inv in Hm1. destruct Hm1 as [Hm1 ->].
  apply or_else_inv in Hm2. destruct Hm2 as [-> ->].
  apply lift_Ok_inv in Hm3. destruct Hm3 as [Hm3 ->].
  apply or_else_inv in Hm4. destruct Hm4 as [-> ->].
  apply lift_Ok_inv in Hm5. destruct Hm5 as [Hm5 ->].
  apply or_else_inv in Hm6. destruct Hm6 as [-> ->].
  apply lift_Ok_inv in Hm7. destruct Hm7 as [Hm7 ->].
  apply or_else_inv in Hm8. destruct Hm8 as [-> ->].
  apply lift_Ok_inv in Hm9. destruct Hm9 as [Hm9 ->].
  destruct (from_key_val_list_or_else _ _ _ Hm1) as (headers & -> & Hh).
  destruct (from_key_val_list_or_else _ _ _ Hm3) as (proxies & -> & Hp).
  destruct (from_key_val_list_or_dict _ _ _ Hm5) as (hooks & -> & Hk).
  destruct (from_key_val_list_or_else _ _ _ Hm7) as (params & -> & Hpa).
  destruct (from_key_val_list_or_dict _ _ _ Hm9) as (c0 & -> & Hc).
  unfold ret in Hm10. inversion Hm10; subst a10 w12. clear Hm10.
  unfold ret in H. inversion H; subst self w13. clear H.
  exists headers, proxies, hooks, params, c0, a11.
  split; [reflexivity|]. repeat (split; [assumption|]).
  cbv zeta.
  destruct (is_cookiejar (dict_get_default "cookies" PNone kwargs)).
  - unfold ret in Hm11. inversion Hm11. auto.
  - exact Hm11.
Qed.

Lemma fresh_session_old_request_args (E : collaborators)
  (init_kwargs : pdict) (w0 w1 : world) (self : pdict) :
  Session.__init__ E init_kwargs w0 = (Ok self, w1) ->
  forall method url kwargs w,
  exists e, Session.old_request_args E self method url kwargs w = (Err e, w).
Proof.
  intros Hinit method url kwargs w.
  destruct (Session_init_inv E init_kwargs w0 w1 self Hinit)
    as (headers & proxies & hooks & params & c0 & cookies & -> & _).
  clear Hinit.
  unfold Session.old_request_args. cbv zeta.
  unfold expanded_headers, bind, lift, ret, raise, truthyM. simpl.
  repeat match goal with
         | |- exists e, (Err _, _) = (Err e, _) => eexists; reflexivity
         | |- context [match ?x with _ => _ end] =>
             lazymatch x with
             | context [match _ with _ => _ end] => fail
             | _ => destruct x; simpl
             end
         end.
Qed.

(** X13. [old_request] cannot run on a session as [__init__] leaves it:
    [__init__] sets no [poolmanager], which line 248 reads, so every call
    fails before the cookies are merged, with no jar created and nothing
    sent. *)
Theorem fresh_session_old_request_fails (E : collaborators)
  (init_kwargs : pdict) (w0 w1 : world) (self : pdict) (method : string)
  (url : pyobj) (kwargs : pdict) (w : world) :
  Session.__init__ E init_kwargs w0 = (Ok self, w1) ->
  dict_get "poolmanager" self = None /\
  exists e, Session.old_request E self method url kwargs w = (Err e, w).
Proof.
  intros Hinit. split.
  - destruct (Session_init_inv E init_kwargs w0 w1 self Hinit)
      as (headers & proxies & hooks & params & c0 & cookies & -> & _).
    reflexivity.
  - destruct (fresh_session_old_request_args E init_kwargs w0 w1 self Hinit
                method url kwargs w) as (e & He).
    exists e. unfold Session.old_request. cbv zeta.
    unfold bind at 1. now rewrite He.
Qed.

Lemma fresh_session_old_request_fails_witness :
  let E := plain_collaborators in
  exists self w1,
    Session.__init__ E [("cookies", PDict [("sid", PStr "1")])] empty_world
    = (Ok self, w1) /\
    dict_get "poolmanager" self = None /\
    exists e,
      Session.old_request E self "get" (PStr "http://a.example/")
        [("cookies", PDict [("sid", PNone)])] w1 = (Err e, w1).
Proof.
  intros E. do 2 eexists. split; [vm_compute; reflexivity|].
  eapply (fresh_session_old_request_fails E
            [("cookies", PDict [("sid", PStr "1")])] empty_world).
  vm_compute. reflexivity.
Defined.

Lemma fold_setdefault_lookup (defs : pdict) :
  forall c : pdict,
  (dict_wf c ->
   dict_wf (fold_left (fun c kv => dict_setdefault (fst kv) (snd kv) c)
              defs c)) /\
  forall k,
    dict_get k
      (fold_left (fun c kv => dict_setdefault (fst kv) (snd kv) c) defs c)
    = match dict_get k c with
      | Some v => Some v
      | None => dict_get k defs
      end.
Proof.
  induction defs as [|[a b] t IH]; intros c; simpl.
  - split; [auto|]. intros k. now destruct (dict_get k c).
  - destruct (IH (dict_setdefault a b c)) as [Hwf Hget]. split.
    + intros H. apply Hwf, dict_setdefault_wf, H.
    + intros k. rewrite Hget, dict_get_setdefault.
      destruct (dict_get k c); [reflexivity|].
      destruct (String.eqb a k); reflexivity.
Qed.

(** X14. The configuration of a new session: what the caller configures
    wins, and the defaults fill in every key the caller leaves out. *)
Theorem Session_init_config (E : collaborators) (init_kwargs : pdict)
  (w w1 : world) (self : pdict) (c : pdict) :
  Session.__init__ E init_kwargs w = (Ok self, w1) ->
  dict_get "config" init_kwargs = Some (PDict c)
  \/ (dict_get "config" init_kwargs = None /\ c = []) ->
  dict_wf c ->
  exists cfg,
    dict_get "config" self = Some (PDict cfg) /\
    dict_wf cfg /\
    forall k,
      dict_get k cfg
      = match dict_get k c with
        | Some v => Some v
        | None => dict_get k (defaults E)
        end.
Proof.
  intros Hinit Hc Hwf.
  destruct (Session_init_inv E init_kwargs w w1 self Hinit)
    as (headers & proxies & hooks & params & c0 & cookies & -> & _ & _ & _
        & _ & _ & Hc0 & _).
  assert (c0 = c) as ->.
  { unfold dict_get_default in Hc0.
    destruct Hc as [Hc|[Hc ->]]; rewrite Hc in Hc0; simpl in Hc0.
    - destruct c; simpl in Hc0; inversion Hc0; [reflexivity|].
      apply (dict_update_nil _ Hwf).
    - inversion Hc0. reflexivity. }
  eexists. split; [reflexivity|].
  destruct (fold_setdefault_lookup (defaults E) c) as [Hwf' Hget].
  split; [apply Hwf', Hwf | exact Hget].
Qed.

Lemma Session_init_config_witness :
  let E :=
    mkCollaborators (fun _ x => Ok x) (fun v => Ok v)
      [("max_retries", PInt 0); ("pool_maxsize", PInt 10)]
      (fun r => Ok r) (fun r => Ok r) (fun _ r _ => ret r)
      (fun c => Ok c) (fun h => Ok h) (fun r => Ok r) in
  exists self w1 cfg,
    Session.__init__ E [("config", PDict [("max_retries", PInt 3)])]
      empty_world = (Ok self, w1) /\
    dict_get "config" self = Some (PDict cfg) /\
    dict_get "max_retries" cfg = Some (PInt 3) /\
    dict_get "pool_maxsize" cfg = Some (PInt 10).
Proof.
  intros E.
  destruct (Session_init_config E [("config", PDict [("max_retries", PInt 3)])]
              empty_world (mkWorld [[]] [])
              (dict_set "config"
                 (PDict [("max_retries", PInt 3); ("pool_maxsize", PInt 10)])
                 (new_session E (PJar 0)))
              [("max_retries", PInt 3)])
    as (cfg & Hcfg & _ & Hget).
  - vm_compute. reflexivity.
  - left. reflexivity.
  - wf_by_computation.
  - do 3 eexists. split; [vm_compute; reflexivity|].
    split; [exact Hcfg|]. split; rewrite Hget; reflexivity.
Defined.

(** X15. The jar of a new session: a cookie mapping becomes a new jar and
    no jar that exists is touched; a [CookieJar] is taken as it is, so the
    session and the caller share it; without cookies, or with an empty
    sequence or string for them, the session gets a new empty jar. *)
Theorem Session_init_cookies_jar (E : collaborators) (init_kwargs : pdict)
  (w w1 : world) (self : pdict) :
  Session.__init__ E init_kwargs w = (Ok self, w1) ->
  let given := dict_get_default "cookies" PNone init_kwargs in
  (forall n,
      given = PJar n -> dict_get "cookies" self = Some (PJar n) /\ w1 = w) /\
  (forall d,
      given = PDict d ->
      dict_get "cookies" self = Some (PJar (length (jars w))) /\
      w1 = mkWorld (jars w ++ [jar_of d]) (sent w)) /\
  (given = PNone \/ given = PList [] \/ given = PTuple [] \/ given = PStr "" ->
   dict_get "cookies" self = Some (PJar (length (jars w))) /\
   w1 = mkWorld (jars w ++ [[]]) (sent w)).
Proof.
  intros Hinit given.
  destruct (Session_init_inv E init_kwargs w w1 self Hinit)
    as (headers & proxies & hooks & params & c0 & cookies & -> & _ & _ & _
        & _ & _ & _ & Hck).
  cbv zeta in Hck. fold given in Hck.
  split; [|split].
  - intros n Hn. rewrite Hn in Hck. simpl in Hck.
    destruct Hck as [-> ->]. auto.
  - intros d Hd. rewrite Hd in Hck. simpl in Hck.
    unfold bind, new_jar, ret in Hck. inversion Hck. auto.
  - intros [Hg|[Hg|[Hg|Hg]]]; rewrite Hg in Hck; simpl in Hck;
      unfold bind, new_jar, ret in Hck; inversion Hck; auto.
Qed.

Lemma Session_init_cookies_jar_witness :
  let E := plain_collaborators in
  let w := mkWorld [jar_of [("sid", PStr "1")]] [] in
  dict_get "cookies" (new_session E (PJar 0)) = Some (PJar 0) /\ w = w.
Proof.
  intros E w.
  apply (proj1 (Session_init_cookies_jar E [("cookies", PJar 0)] w w
                  (new_session E (PJar 0)) ltac:(vm_compute; reflexivity))
           0 eq_refl).
Defined.

(** X16. After [__init__] every attribute [__attrs__] names is set, and
    the five settings bags (headers, proxies, hooks, params, config) are
    dictionaries with no key twice, whatever the caller passed for them. *)
Theorem Session_init_attrs (E : collaborators) (init_kwargs : pdict)
  (w w1 : world) (self : pdict) :
  Session.__init__ E init_kwargs w = (Ok self, w1) ->
  (forall attr, In attr Session.__attrs__ -> dict_contains attr self = true)
  /\
  (forall attr,
      In attr ["headers"; "proxies"; "hooks"; "params"; "config"] ->
      exists d, dict_get attr self = Some (PDict d) /\ dict_wf d).
Proof.
  intros Hinit.
  destruct (Session_init_inv E init_kwargs w w1 self Hinit)
    as (headers & proxies & hooks & params & c0 & cookies & -> & Hh & Hp
        & Hk & Hpa & Hc & _).
  split.
  - intros attr Hattr. simpl in Hattr.
    repeat (destruct Hattr as [<-|Hattr]; [reflexivity|]). tauto.
  - intros attr Hattr. simpl in Hattr.
    destruct Hattr as [<-|[<-|[<-|[<-|[<-|[]]]]]];
      eexists; (split; [reflexivity|]); try assumption.
    apply (fold_setdefault_lookup (defaults E) c0), Hc.
Qed.

Lemma Session_init_attrs_witness :
  let E := plain_collaborators in
  exists d,
    dict_get "headers"
      (dict_set "headers" (PDict [("X-A", PStr "2")]) (new_session E (PJar 0)))
    = Some (PDict d) /\ dict_wf d.
Proof.
  intros E.
  apply (proj2 (Session_init_attrs E
                  [("headers",
                    PList [PTuple [PStr "X-A"; PStr "1"];
                           PTuple [PStr "X-A"; PStr "2"]])]
                  empty_world (mkWorld [[]] [])
                  (dict_set "headers" (PDict [("X-A", PStr "2")])
                     (new_session E (PJar 0)))
                  ltac:(vm_compute; reflexivity))).
  simpl. tauto.
Defined.

(** ** Pickling a session *)

Lemma getstate_items (s : pdict) :
  Session.__getstate__ s
  = map (fun attr => (attr, dict_get_default attr PNone s)) Session.__attrs__.
Proof.
  unfold Session.__getstate__. apply dict_update_nil.
  unfold dict_wf, keys. rewrite map_map. simpl. attrs_nodup.
Qed.

Lemma getstate_lookup (s : pdict) (attr : string) :
  dict_get attr (Session.__getstate__ s)
  = if existsb (String.eqb attr) Session.__attrs__
    then Some (dict_get_default attr PNone s) else None.
Proof.
  rewrite getstate_items.
  induction Session.__attrs__ as [|a t IH]; simpl; [reflexivity|].
  rewrite (String.eqb_sym attr a).
  destruct (String.eqb a attr) eqn:Ea; simpl; [|exact IH].
  apply String.eqb_eq in Ea. now subst.
Qed.

(** X17. Pickling round trip.  The state [__getstate__] takes from a
    session has exactly the attributes [__attrs__] names; restored with
    [__setstate__] into any object, the object handed to
    [init_poolmanager] has each of them as the pickled session had it
    ([None] for one it lacked), keeps every other attribute of its own (the
    pool manager is not part of the state), and pickles to the same state
    again. *)
Theorem Session_pickle_round_trip (init_poolmanager : pdict -> M pdict)
  (self s : pdict) :
  keys (Session.__getstate__ s) = Session.__attrs__ /\
  exists restored,
    Session.__setstate__ init_poolmanager self
      (PDict (Session.__getstate__ s))
    = init_poolmanager restored /\
    (forall attr, In attr Session.__attrs__ ->
       dict_get attr restored = Some (dict_get_default attr PNone s)) /\
    (forall attr, ~ In attr Session.__attrs__ ->
       dict_get attr restored = dict_get attr self) /\
    Session.__getstate__ restored = Session.__getstate__ s.
Proof.
  assert (Hkeys : keys (Session.__getstate__ s) = Session.__attrs__).
  { rewrite getstate_items. unfold keys. rewrite map_map. reflexivity. }
  assert (Hwf : dict_wf (Session.__getstate__ s)).
  { unfold dict_wf. rewrite Hkeys. attrs_nodup. }
  assert (Hin : forall attr, In attr Session.__attrs__ ->
            dict_get attr (dict_update self (Session.__getstate__ s))
            = Some (dict_get_default attr PNone s)).
  { intros attr Hattr. rewrite (dict_get_update _ _ _ Hwf), getstate_lookup.
    replace (existsb (String.eqb attr) Session.__attrs__) with true;
      [reflexivity|].
    symmetry. apply existsb_exists. exists attr.
    split; [exact Hattr | apply String.eqb_refl]. }
  split; [exact Hkeys|].
  exists (dict_update self (Session.__getstate__ s)).
  split; [reflexivity|]. split; [exact Hin|]. split.
  - intros attr Hattr. rewrite (dict_get_update _ _ _ Hwf).
    replace (dict_get attr (Session.__getstate__ s)) with (@None pyobj);
      [reflexivity|].
    symmetry. apply dict_get_None. now rewrite Hkeys.
  - rewrite (getstate_items (dict_update _ _)).
    transitivity
      (map (fun attr => (attr, dict_get_default attr PNone s))
         Session.__attrs__); [|symmetry; apply getstate_items].
    apply map_ext_in. intros attr Hattr.
    unfold dict_get_default at 1. now rewrite (Hin attr Hattr).
Qed.

(** ** What [Session.request] sends *)

(** X18. [Session.request] hands the transport one request, the one
    [Request.prepare] returned, and returns what the transport answers;
    when a keyword is unknown or preparing fails nothing is sent and the
    failure is raised.  It touches no cookie jar, and nothing of the
    session it is called on reaches the request: any other session gives
    the same result. *)
Theorem Session_request_sends_once (E : collaborators) (self : pdict)
  (method : string) (url : pyobj) (kwargs : pdict) (w w' : world)
  (r : res pyobj) :
  Session.request E self method url kwargs w = (r, w') ->
  jars w' = jars w /\
  (forall e, check_kwargs Session.request_params kwargs = Err e ->
     r = Err e /\ sent w' = sent w) /\
  (forall e,
     check_kwargs Session.request_params kwargs = Ok tt ->
     Request_prepare E (Session.request_req method url kwargs) = Err e ->
     r = Err e /\ sent w' = sent w) /\
  (forall prep,
     check_kwargs Session.request_params kwargs = Ok tt ->
     Request_prepare E (Session.request_req method url kwargs) = Ok prep ->
     r = HTTPAdapter_send E prep /\ sent w' = sent w ++ [prep]) /\
  (forall other,
     Session.request E other method url kwargs w = (r, w')).
Proof.
  intros H. split; [|split; [|split; [|split]]].
  - revert H. unfold Session.request, Session.send, bind, lift, record_send.
    destruct (check_kwargs _ _) as [[]|?];
      [|intros H; inversion H; reflexivity].
    destruct (Request_prepare _ _);
      [|intros H; inversion H; reflexivity].
    simpl. destruct (HTTPAdapter_send _ _);
      intros H; inversion H; reflexivity.
  - intros e He. revert H.
    unfold Session.request, bind, lift. rewrite He.
    intros H. inversion H. auto.
  - intros e Hk He. revert H.
    unfold Session.request, bind, lift. rewrite Hk, He.
    intros H. inversion H. auto.
  - intros prep Hk Hp. revert H.
    unfold Session.request, Session.send, bind, lift, record_send.
    rewrite Hk, Hp. simpl.
    destruct (HTTPAdapter_send E prep); intros H; inversion H; auto.
  - intros other. exact H.
Qed.

Lemma Session_request_sends_once_witness :
  let E := plain_collaborators in
  let url := PStr "http://a.example/" in
  let kwargs := [("params", PDict [("q", PStr "1")])] in
  let req := Session.request_req "GET" url kwargs in
  let prep := PObj "PreparedRequest" true [("request", req)] in
  let w' := mkWorld [] [prep] in
  Session.request E [] "GET" url kwargs empty_world
  = (HTTPAdapter_send E prep, w') /\
  HTTPAdapter_send E prep = HTTPAdapter_send E prep /\
  sent w' = sent empty_world ++ [prep].
Proof.
  intros E url kwargs req prep w'.
  assert (H : Session.request E [] "GET" url kwargs empty_world
              = (HTTPAdapter_send E prep, w')) by (vm_compute; reflexivity).
  split; [exact H|].
  apply (proj1 (proj2 (proj2 (proj2
           (Session_request_sends_once E [] "GET" url kwargs empty_world w'
              (HTTPAdapter_send E prep) H)))) prep);
    vm_compute; reflexivity.
Defined.

(** ** The settings [api.request] falls back on *)

(** X19. [api.request] takes [timeout] and [proxies] from the caller when
    what the caller passed is true, and from the configuration otherwise: a
    timeout of [0], an empty proxies mapping and [None] all give way to the
    configured value.  Building the arguments changes nothing in the
    world. *)
Theorem api_request_timeout_proxies (E : collaborators) (method : string)
  (url : pyobj) (kwargs : pdict) (w w' : world) (args : pdict) :
  api.request_args E method url kwargs w = (Ok args, w') ->
  w' = w /\
  forall name, name = "timeout" \/ name = "proxies" ->
    let given := dict_get_default name PNone kwargs in
    if truthy (jars w) given then dict_get name args = Some given
    else
      exists c,
        get_config E (dict_get_default "config" PNone kwargs) = Ok (PDict c)
        /\ dict_get name args = Some (dict_get_default name PNone c).
Proof.
  unfold api.request_args. cbv zeta.
  unfold api.or_config, expanded_headers, truthyM, bind, lift, ret, raise.
  destruct (check_kwargs _ _) as [[]|?]; [|discriminate].
  destruct (get_config E _) as [config|?]; [|discriminate].
  set (headers := dict_get_default "headers" PNone kwargs).
  set (timeout := dict_get_default "timeout" PNone kwargs).
  set (proxies := dict_get_default "proxies" PNone kwargs).
  destruct (truthy (jars w) headers) eqn:Hth.
  - destruct headers eqn:Hhd; try discriminate.
    destruct (expand_headers E d d); [|discriminate]. simpl.
    destruct (truthy (jars w) timeout) eqn:Ht;
      destruct (truthy (jars w) proxies) eqn:Hp; simpl;
      unfold api.config_get;
      destruct config; try discriminate;
      intros H; inversion H; subst; (split; [reflexivity|]);
      intros name [->| ->]; cbv zeta;
      fold timeout; fold proxies; rewrite ?Ht, ?Hp;
      try reflexivity; eexists; split; reflexivity.
  - simpl.
    destruct (truthy (jars w) timeout) eqn:Ht;
      destruct (truthy (jars w) proxies) eqn:Hp; simpl;
      unfold api.config_get;
      destruct config; try discriminate;
      intros H; inversion H; subst; (split; [reflexivity|]);
      intros name [->| ->]; cbv zeta;
      fold timeout; fold proxies; rewrite ?Ht, ?Hp;
      try reflexivity; eexists; split; reflexivity.
Qed.

Lemma api_request_timeout_proxies_witness :
  let E := plain_collaborators in
  let kwargs :=
    [("timeout", PInt 0); ("config", PDict [("timeout", PInt 5)])] in
  exists args,
    api.request_args E "get" (PStr "http://a.example/") kwargs empty_world
    = (Ok args, empty_world) /\
    dict_get "timeout" args = Some (PInt 5).
Proof.
  intros E kwargs. eexists. split; [vm_compute; reflexivity|].
  destruct (proj2 (api_request_timeout_proxies E "get"
                     (PStr "http://a.example/") kwargs empty_world _ _
                     ltac:(vm_compute; reflexivity))
              "timeout" (or_introl eq_refl)) as (c & Hc & Hget).
  inversion Hc; subst c. exact Hget.
Defined.

(** ** What [api.request] sends *)

Lemma api_request_args_world (E : collaborators) (method : string)
  (url : pyobj) (kwargs : pdict) (w : world) :
  snd (api.request_args E method url kwargs w) = w.
Proof.
  unfold api.request_args. cbv zeta.
  unfold api.or_config, expanded_headers, truthyM, bind, lift, ret, raise.
  repeat match goal with
         | |- snd (_, _) = _ => reflexivity
         | |- ?x = ?x => reflexivity
         | |- context [match ?x with _ => _ end] =>
             lazymatch x with
             | context [match _ with _ => _ end] => fail
             | _ => destruct x; simpl
             end
         end.
Qed.

(** X20. [api.request] sends at most one request and touches no cookie
    jar.  Asked to return the request ([_return_request] true) it sends
    nothing; otherwise a call that returns has sent exactly one request,
    and a call that raises has sent one or none. *)
Theorem api_request_sends_at_most_once (E : collaborators)
  (method : string) (url : pyobj) (kwargs : pdict) (w w' : world)
  (r : res pyobj) :
  api.request E method url kwargs w = (r, w') ->
  jars w' = jars w /\
  if truthy (jars w) (dict_get_default "_return_request" (PBool false) kwargs)
  then sent w' = sent w
  else (exists req, sent w' = sent w ++ [req])
       \/ (sent w' = sent w /\ exists e, r = Err e).
Proof.
  unfold api.request. cbv zeta. unfold bind at 1.
  pose proof (api_request_args_world E method url kwargs w) as Hw.
  destruct (api.request_args E method url kwargs w) as [[args|e] w1].
  2:{ simpl in Hw. subst w1. intros H. inversion H; subst.
      split; [reflexivity|].
      destruct (truthy _ _); [reflexivity|]. right. eauto. }
  simpl in Hw. subst w1.
  unfold truthyM, record_send, bind, lift, ret, raise.
  set (rr := dict_get_default "_return_request" (PBool false) kwargs).
  destruct (truthy (jars w) rr) eqn:Hrr;
    repeat match goal with
           | |- context [truthy (jars w) rr] => rewrite Hrr; simpl
           | |- (_, _) = (_, _) -> _ =>
               let H := fresh in
               intros H; inversion H; subst; simpl;
               split; [reflexivity|]; eauto
           | |- context [match ?x with _ => _ end] =>
               lazymatch x with
               | context [match _ with _ => _ end] => fail
               | _ => destruct x; simpl
               end
           end.
Qed.

Lemma api_request_sends_at_most_once_witness :
  let E := plain_collaborators in
  let url := PStr "http://a.example/" in
  exists r w',
    api.request E "get" url [("_return_request", PBool true)] empty_world
    = (r, w') /\
    jars w' = jars empty_world /\ sent w' = sent empty_world.
Proof.
  intros E url. do 2 eexists. split; [vm_compute; reflexivity|].
  exact (api_request_sends_at_most_once E "get" url
           [("_return_request", PBool true)] empty_world _ _
           ltac:(vm_compute; reflexivity)).
Defined.

(** ** The exception classes *)

(** X21. What an [except] clause catches.  Every exception class of the
    module is a [RequestException] and an [IOError]; the ones that are a
    [ValueError] are exactly [MissingSchema], [InvalidSchema] and
    [InvalidURL]; the ones that are a [ConnectionError] are exactly that
    class, [ProxyError] and [SSLError], so a [Timeout] is not one; only
    [ContentDecodingError] is an [HTTPError] of urllib3; and no two classes
    derive from each other. *)
Theorem exception_hierarchy (c : exc_class) :
  In c exception_classes /\
  issubclass (Class c) (Class RequestException) = true /\
  issubclass (Class c) Builtin_IOError = true /\
  (issubclass (Class c) Builtin_ValueError = true <->
   c = MissingSchema \/ c = InvalidSchema \/ c = InvalidURL) /\
  (issubclass (Class c) (Class ConnectionError) = true <->
   c = ConnectionError \/ c = ProxyError \/ c = SSLError) /\
  (issubclass (Class c) BaseHTTPError = true <-> c = ContentDecodingError) /\
  (forall c',
      issubclass (Class c) (Class c') = true ->
      issubclass (Class c') (Class c) = true -> c = c').
Proof.
  split; [destruct c; simpl; tauto|].
  split; [destruct c; reflexivity|].
  split; [destruct c; reflexivity|].
  split; [|split; [|split]].
  - destruct c; vm_compute; split; intros H; try discriminate; auto;
      repeat (destruct H as [H|H]; try discriminate).
  - destruct c; vm_compute; split; intros H; try discriminate; auto;
      repeat (destruct H as [H|H]; try discriminate).
  - destruct c; vm_compute; split; intros H; try discriminate; auto.
  - intros c'. destruct c, c'; vm_compute; intros H1 H2;
      first [reflexivity | discriminate].
Qed.

(** ** The keywords of an exception *)

Lemma filter_nil_forallb {A : Type} (p : A -> bool) (l : list A) :
  filter p l = [] <-> forallb (fun x => negb (p x)) l = true.
Proof.
  induction l as [|a t IH]; simpl; [tauto|].
  destruct (p a); simpl; [|exact IH]. split; discriminate.
Qed.

Lemma forallb_pointwise {A : Type} (f g : A -> bool) (l : list A) :
  (forall x, f x = g x) -> forallb f l = forallb g l.
Proof.
  intros H. induction l as [|a t IH]; simpl; [reflexivity|].
  now rewrite H, IH.
Qed.

Lemma pop_response_request_rest (kwargs : pdict) :
  dict_wf kwargs ->
  dict_remove "request" (dict_remove "response" kwargs) = [] <->
  forallb (fun k => String.eqb k "response" || String.eqb k "request")
    (keys kwargs) = true.
Proof.
  intros Hwf.
  assert (Hkeys : keys (dict_remove "request"
                          (dict_remove "response" kwargs))
                  = filter (fun k => negb (String.eqb k "response")
                                     && negb (String.eqb k "request"))
                      (keys kwargs)).
  { rewrite keys_dict_remove_filter by (apply dict_remove_wf, Hwf).
    rewrite keys_dict_remove_filter by exact Hwf.
    apply filter_filter. }
  rewrite <- (forallb_pointwise
                (fun k => negb (negb (String.eqb k "response")
                                && negb (String.eqb k "request")))).
  2:{ intros k. destruct (String.eqb k "response"),
                  (String.eqb k "request"); reflexivity. }
  rewrite <- filter_nil_forallb, <- Hkeys.
  destruct (dict_remove "request" (dict_remove "response" kwargs));
    simpl; split; intros H; try reflexivity; discriminate.
Qed.

(** X22. The keywords of an exception.  Whatever the order of the
    keywords, building an exception succeeds exactly when [response] and
    [request] are the only ones and, where the request is to be taken from
    the response (a true response, a false or missing request, which
    replaces even a request that was passed), the response has one.  The
    exception then holds the response, the request passed or adopted, and
    the positional arguments as [IOError] keeps them: all of them, or the
    first two when three to five are given and the third is not [None].  A
    response without a request fails with what reading the attribute
    raises, before any other keyword is looked at; another keyword
    otherwise fails with [TypeError]. *)
Theorem RequestException_init_keywords (js : list jar) (c : exc_class)
  (args : list pyobj) (kwargs : pdict) :
  dict_wf kwargs ->
  let response := dict_get_default "response" PNone kwargs in
  let request := dict_get_default "request" PNone kwargs in
  let adopt := truthy js response && negb (truthy js request) in
  let known :=
    forallb (fun k => String.eqb k "response" || String.eqb k "request")
      (keys kwargs) in
  match RequestException_init js c args kwargs with
  | Ok e =>
      known = true /\
      getattr e "response" = Ok response /\
      getattr e "args" = Ok (PTuple (IOError_args args)) /\
      getattr e "request"
      = (if adopt then getattr response "request" else Ok request)
  | Err err =>
      match (if adopt then getattr response "request" else Ok request) with
      | Err err' => err = err'
      | Ok _ => known = false /\ err = TypeError
      end
  end.
Proof.
  intros Hwf response request adopt known.
  pose proof (pop_response_request_rest kwargs Hwf) as Hrest.
  fold known in Hrest.
  unfold RequestException_init, dict_pop.
  assert (Hreq : dict_get_default "request" PNone
                   (dict_remove "response" kwargs) = request).
  { unfold request, dict_get_default.
    now rewrite (dict_get_remove _ _ _ Hwf). }
  rewrite Hreq. fold response. fold adopt.
  destruct adopt.
  - destruct (getattr response "request") as [rq|err] eqn:Hget; simpl;
      [|reflexivity].
    destruct (dict_remove "request" (dict_remove "response" kwargs)).
    + repeat split. apply Hrest. reflexivity.
    + split; [|reflexivity].
      destruct known; [|reflexivity].
      discriminate (proj2 Hrest eq_refl).
  - simpl.
    destruct (dict_remove "request" (dict_remove "response" kwargs)).
    + repeat split. apply Hrest. reflexivity.
    + split; [|reflexivity].
      destruct known; [|reflexivity].
      discriminate (proj2 Hrest eq_refl).
Qed.

Lemma RequestException_init_keywords_witness :
  let response := PObj "Response" true [("request", PStr "sent")] in
  let args := [PInt 110; PStr "timed out"; PStr "a.example"] in
  exists e,
    RequestException_init [] Timeout args
      [("request", PStr ""); ("response", response)] = Ok e /\
    getattr e "request" = Ok (PStr "sent") /\
    getattr e "args" = Ok (PTuple [PInt 110; PStr "timed out"]).
Proof.
  intros response args. eexists. split; [reflexivity|].
  pose proof (RequestException_init_keywords [] Timeout args
                [("request", PStr ""); ("response", response)]
                ltac:(wf_by_computation)) as H.
  split; [exact (proj2 (proj2 (proj2 H))) | exact (proj1 (proj2 (proj2 H)))].
Defined.

(** ** The verbs *)

Lemma Session_request_default_redirects (E : collaborators) (self : pdict)
  (method : string) (url : pyobj) (kwargs : pdict) (w : world) :
  dict_get "allow_redirects" kwargs = None ->
  Session.request E self method url
    (kwargs ++ [("allow_redirects", PBool true)]) w
  = Session.request E self method url kwargs w.
Proof.
  intros Hnone. unfold Session.request, Session.request_req. cbv zeta.
  rewrite check_kwargs_snoc by reflexivity.
  assert (Hv : dict_get_default "allow_redirects" (PBool true)
                 (kwargs ++ [("allow_redirects", PBool true)])
               = dict_get_default "allow_redirects" (PBool true) kwargs).
  { unfold dict_get_default. now rewrite dict_get_app, Hnone. }
  rewrite Hv. clear Hv.
  rewrite !dict_get_default_snoc by reflexivity.
  reflexivity.
Qed.

Lemma check_kwargs_set (allowed : list string) (k : string) (v : pyobj)
  (kwargs : pdict) :
  existsb (String.eqb k) allowed = true ->
  dict_get k kwargs = None ->
  dict_set k v kwargs = kwargs ++ [(k, v)] /\
  check_kwargs allowed (dict_set k v kwargs) = check_kwargs allowed kwargs.
Proof.
  intros Hk Hnone.
  assert (Hset : dict_set k v kwargs = kwargs ++ [(k, v)]).
  { apply dict_set_fresh, dict_get_None, Hnone. }
  split; [exact Hset|]. rewrite Hset. apply check_kwargs_snoc, Hk.
Qed.

(** X23. The verbs of a session other than [head].  Called without
    [allow_redirects], [options], [post], [put], [patch] and [delete] are
    the calls of [request] under the lower-case name of the verb with
    [allow_redirects=True] spelled out, and [post], [put] and [patch] pass
    their [data] on as the [data] keyword; the request built has that body
    and follows redirects. *)
Theorem Session_verbs_defaults (E : collaborators) (self : pdict)
  (url data : pyobj) (kwargs : pdict) (w : world) :
  dict_get "data" kwargs = None ->
  dict_get "allow_redirects" kwargs = None ->
  let redirects := [("allow_redirects", PBool true)] in
  let body := [("data", data); ("allow_redirects", PBool true)] in
  Session.options E self url kwargs w
  = Session.request E self "options" url (kwargs ++ redirects) w /\
  Session.delete E self url kwargs w
  = Session.request E self "delete" url (kwargs ++ redirects) w /\
  Session.post E self url data kwargs w
  = Session.request E self "post" url (kwargs ++ body) w /\
  Session.put E self url data kwargs w
  = Session.request E self "put" url (kwargs ++ body) w /\
  Session.patch E self url data kwargs w
  = Session.request E self "patch" url (kwargs ++ body) w /\
  forall method,
    getattr (Session.request_req method url (kwargs ++ body)) "data"
    = Ok data /\
    getattr (Session.request_req method url (kwargs ++ body))
      "allow_redirects" = Ok (PBool true).
Proof.
  intros Hdata Hallow redirects body.
  assert (Hbody : kwargs ++ body = (kwargs ++ [("data", data)]) ++ redirects).
  { unfold body, redirects. now rewrite <- app_assoc. }
  assert (Hallow' : dict_get "allow_redirects" (kwargs ++ [("data", data)])
                    = None).
  { rewrite dict_get_app, Hallow. reflexivity. }
  assert (Hset : dict_set "data" data kwargs = kwargs ++ [("data", data)]).
  { apply dict_set_fresh, dict_get_None, Hdata. }
  split; [|split; [|split; [|split; [|split]]]].
  - unfold Session.options, dict_setdefault, dict_contains.
    rewrite Hallow.
    now rewrite (dict_set_fresh _ _ _ (proj1 (dict_get_None _ _) Hallow)).
  - unfold Session.delete, redirects.
    now rewrite Session_request_default_redirects.
  - unfold Session.post. rewrite Hbody, Hset.
    now rewrite Session_request_default_redirects.
  - unfold Session.put. rewrite Hbody, Hset.
    now rewrite Session_request_default_redirects.
  - unfold Session.patch. rewrite Hbody, Hset.
    now rewrite Session_request_default_redirects.
  - intros method. unfold Session.request_req. cbv zeta.
    unfold getattr. rewrite !dict_get_set. simpl.
    unfold dict_get_default, body. rewrite !dict_get_app, Hdata, Hallow.
    split; reflexivity.
Qed.

Lemma Session_verbs_defaults_witness :
  let E := plain_collaborators in
  let url := PStr "http://a.example/" in
  let kwargs := [("headers", PDict [("X-A", PStr "1")])] in
  Session.post E [] url (PStr "body") kwargs empty_world
  = Session.request E [] "post" url
      (kwargs ++ [("data", PStr "body"); ("allow_redirects", PBool true)])
      empty_world.
Proof.
  intros E url kwargs.
  apply (Session_verbs_defaults E [] url (PStr "body") kwargs empty_world);
    reflexivity.
Defined.

Lemma api_request_default_redirects (E : collaborators) (method : string)
  (url : pyobj) (kwargs : pdict) (w : world) :
  dict_get "allow_redirects" kwargs = None ->
  api.request E method url (kwargs ++ [("allow_redirects", PBool false)]) w
  = api.request E method url kwargs w.
Proof.
  intros Hnone. unfold api.request, api.request_args. cbv zeta.
  rewrite check_kwargs_snoc by reflexivity.
  assert (Hv : dict_get_default "allow_redirects" (PBool false)
                 (kwargs ++ [("allow_redirects", PBool false)])
               = dict_get_default "allow_redirects" (PBool false) kwargs).
  { unfold dict_get_default. now rewrite dict_get_app, Hnone. }
  rewrite Hv. clear Hv.
  rewrite !dict_get_default_snoc by reflexivity.
  reflexivity.
Qed.

(** X24. The module-level verbs.  Called without [allow_redirects],
    [post], [put], [patch] and [delete] are the calls of [request] with
    [allow_redirects=False] spelled out, where the same verbs of a session
    follow redirects, and [get] is the call with [allow_redirects=True];
    [post], [put] and [patch] pass their [data] on.  The arguments built
    carry the method in upper case, the body, and the redirect flag. *)
Theorem api_verbs_defaults (E : collaborators) (url data : pyobj)
  (kwargs : pdict) (w : world) :
  dict_get "data" kwargs = None ->
  dict_get "allow_redirects" kwargs = None ->
  let stay := [("allow_redirects", PBool false)] in
  let body := [("data", data); ("allow_redirects", PBool false)] in
  api.get E url kwargs w
  = api.request E "get" url (kwargs ++ [("allow_redirects", PBool true)]) w
  /\
  api.delete E url kwargs w = api.request E "delete" url (kwargs ++ stay) w
  /\
  api.post E url data kwargs w = api.request E "post" url (kwargs ++ body) w
  /\
  api.put E url data kwargs w = api.request E "put" url (kwargs ++ body) w
  /\
  api.patch E url data kwargs w
  = api.request E "patch" url (kwargs ++ body) w /\
  forall method args w',
    api.request_args E method url (kwargs ++ body) w = (Ok args, w') ->
    dict_get "method" args = Some (PStr (upper method)) /\
    dict_get "data" args = Some data /\
    dict_get "allow_redirects" args = Some (PBool false).
Proof.
  intros Hdata Hallow stay body.
  assert (Hbody : kwargs ++ body = (kwargs ++ [("data", data)]) ++ stay).
  { unfold body, stay. now rewrite <- app_assoc. }
  assert (Hallow' : dict_get "allow_redirects" (kwargs ++ [("data", data)])
                    = None).
  { rewrite dict_get_app, Hallow. reflexivity. }
  assert (Hset : dict_set "data" data kwargs = kwargs ++ [("data", data)]).
  { apply dict_set_fresh, dict_get_None, Hdata. }
  split; [|split; [|split; [|split; [|split]]]].
  - unfold api.get, api.allow_redirects_by_default, dict_contains.
    rewrite Hallow. simpl.
    now rewrite (dict_set_fresh _ _ _ (proj1 (dict_get_None _ _) Hallow)).
  - unfold api.delete, stay. now rewrite api_request_default_redirects.
  - unfold api.post. rewrite Hbody, Hset.
    now rewrite api_request_default_redirects.
  - unfold api.put. rewrite Hbody, Hset.
    now rewrite api_request_default_redirects.
  - unfold api.patch. rewrite Hbody, Hset.
    now rewrite api_request_default_redirects.
  - intros method args w' H.
    assert (Hd : dict_get_default "data" PNone (kwargs ++ body) = data).
    { unfold dict_get_default, body. now rewrite dict_get_app, Hdata. }
    assert (Ha : dict_get_default "allow_redirects" (PBool false)
                   (kwargs ++ body) = PBool false).
    { unfold dict_get_default, body. now rewrite dict_get_app, Hallow. }
    unfold api.request_args in H. cbv zeta in H.
    rewrite Hd, Ha in H. bind_inv H.
    unfold ret in H. injection H as <- _. repeat split.
Qed.

Lemma api_verbs_defaults_witness :
  let E := plain_collaborators in
  let url := PStr "http://a.example/" in
  let kwargs := [("headers", PDict [("X-A", PStr "1")])] in
  api.post E url (PStr "body") kwargs empty_world
  = api.request E "post" url
      (kwargs ++ [("data", PStr "body"); ("allow_redirects", PBool false)])
      empty_world.
Proof.
  intros E url kwargs.
  apply (api_verbs_defaults E url (PStr "body") kwargs empty_world);
    reflexivity.
Defined.

(** ** A request that is not to be sent *)

Lemma bind_ext {A B : Type} (m : M A) (k k' : A -> M B) (w : world) :
  (forall a w', k a w' = k' a w') -> bind m k w = bind m k' w.
Proof.
  intros H. unfold bind. destruct (m w) as [[a|e] w']; [apply H|reflexivity].
Qed.

Lemma expand_headers_ext (E E' : collaborators) :
  (forall v, header_expand E' v = header_expand E v) ->
  forall items headers,
    expand_headers E' items headers = expand_headers E items headers.
Proof.
  intros H. induction items as [|[k v] t IH]; intros headers; simpl.
  - reflexivity.
  - rewrite H. destruct (header_expand E v); [apply IH | reflexivity].
Qed.

Lemma expanded_headers_ext (E E' : collaborators) :
  (forall v, header_expand E' v = header_expand E v) ->
  forall headers, expanded_headers E' headers = expanded_headers E headers.
Proof.
  intros H headers. unfold expanded_headers.
  destruct headers; try reflexivity.
  now rewrite (expand_headers_ext E E' H).
Qed.

Lemma run_hooks_ext (E E' : collaborators) :
  (forall f x, call_hook E' f x = call_hook E f x) ->
  forall chain hook_data,
    run_hooks E' chain hook_data = run_hooks E chain hook_data.
Proof.
  intros H. induction chain as [|c t IH]; intros hook_data; simpl.
  - reflexivity.
  - destruct c as [| | | | | | |f| |]; try reflexivity. rewrite H.
    destruct (call_hook E f hook_data) as [[]|]; try apply IH. reflexivity.
Qed.

Lemma dispatch_hook_ext (E E' : collaborators) :
  (forall f x, call_hook E' f x = call_hook E f x) ->
  forall key hooks hook_data,
    dispatch_hook E' key hooks hook_data = dispatch_hook E key hooks hook_data.
Proof.
  intros H key hooks hook_data. unfold dispatch_hook.
  destruct hooks; try reflexivity.
  destruct (dict_get key d); [|reflexivity].
  destruct (chain_of p); simpl; [apply (run_hooks_ext E E' H) | reflexivity].
Qed.

(** X25. [old_request] asked not to send ([return_response] false)
    never reaches [_send_request]: whatever that method does, the call
    behaves the same; it sends nothing, and what it returns is the request
    built, with the session it was built on as its [session]. *)
Theorem old_request_unsent (E : collaborators) (self : pdict)
  (method : string) (url : pyobj) (kwargs : pdict) (rr : pyobj)
  (send_request : pdict -> pyobj -> pdict -> M pyobj) (w : world) :
  dict_get "return_response" kwargs = Some rr ->
  (forall js, truthy js rr = false) ->
  let E' :=
    mkCollaborators (call_hook E) (header_expand E) (defaults E)
      (Request_prepare E) (HTTPAdapter_send E) send_request (get_config E)
      (setup_hooks E) (Request_send E) in
  Session.old_request E' self method url kwargs w
  = Session.old_request E self method url kwargs w /\
  sent (snd (Session.old_request E self method url kwargs w)) = sent w /\
  forall r,
    fst (Session.old_request E self method url kwargs w) = Ok r ->
    getattr r "session" = Ok (PObj "Session" true self).
Proof.
  intros Hrr Hfalse E'.
  assert (Hargs : Session.old_request_args E' self method url kwargs
                  = Session.old_request_args E self method url kwargs).
  { unfold Session.old_request_args. cbv zeta.
    now rewrite (expanded_headers_ext E E' (fun v => eq_refl)). }
  assert (Hhook : forall name hooks data,
             dispatch_hook E' name hooks data = dispatch_hook E name hooks data).
  { apply dispatch_hook_ext. reflexivity. }
  split; [|split].
  - unfold Session.old_request. cbv zeta.
    unfold dict_get_default. rewrite Hrr, Hargs.
    apply bind_ext. intros args w1.
    unfold bind, lift, ret, raise, truthyM. simpl.
    repeat match goal with
           | |- ?x = ?x => reflexivity
           | |- context [dispatch_hook E' _ _ _] => rewrite Hhook
           | |- context [truthy _ rr] => rewrite Hfalse; simpl
           | |- context [match ?x with _ => _ end] =>
               lazymatch x with
               | context [match _ with _ => _ end] => fail
               | _ => destruct x; simpl
               end
           end.
  - pose proof (proj1 (old_request_prepare_only E self method url kwargs rr
                         (sent w) Hrr Hfalse) w eq_refl) as H.
    exact H.
  - intros r. unfold Session.old_request. cbv zeta.
    unfold dict_get_default at 1. rewrite Hrr.
    unfold bind at 1.
    destruct (Session.old_request_args E self method url kwargs w)
      as [[args|e] w1]; [|discriminate].
    unfold bind, lift, ret, raise, truthyM. simpl.
    repeat match goal with
           | |- Err _ = Ok _ -> _ => discriminate
           | |- context [truthy _ rr] => rewrite Hfalse; simpl
           | |- Ok _ = Ok _ -> _ =>
               let H := fresh in
               intros H; injection H as <-; simpl;
               rewrite dict_get_set, String.eqb_refl; reflexivity
           | |- context [match ?x with _ => _ end] =>
               lazymatch x with
               | context [match _ with _ => _ end] => fail
               | _ => destruct x; simpl
               end
           end.
Qed.

Lemma old_request_unsent_witness :
  let E := plain_collaborators in
  let self :=
    with_poolmanager (PObj "PoolManager" true []) (new_session E (PJar 0)) in
  let url := PStr "http://a.example/" in
  let kwargs := [("return_response", PBool false)] in
  let w := mkWorld [[]] [] in
  sent (snd (Session.old_request E self "get" url kwargs w)) = sent w /\
  exists r,
    fst (Session.old_request E self "get" url kwargs w) = Ok r /\
    getattr r "session" = Ok (PObj "Session" true self).
Proof.
  intros E self url kwargs w.
  destruct (old_request_unsent E self "get" url kwargs (PBool false)
              (fun _ _ _ => raise TypeError) w eq_refl
              (fun _ => eq_refl)) as (_ & Hsent & Hr).
  split; [exact Hsent|].
  eexists. split; [vm_compute; reflexivity|].
  apply Hr. vm_compute. reflexivity.
Defined.

(** ** The headers of [api.request] *)

(** X26. [api.request] expands every header value the caller passes and
    hands on the same keys: under each key the arguments have the expansion
    of the value, an expansion to [None] included, where [old_request]
    drops such a header; an expansion that fails makes the call fail. *)
Theorem api_request_headers (E : collaborators) (method : string)
  (url : pyobj) (kwargs : pdict) (w w' : world) (args ch : pdict) :
  dict_get "headers" kwargs = Some (PDict ch) -> dict_wf ch ->
  api.request_args E method url kwargs w = (Ok args, w') ->
  exists h,
    dict_get "headers" args = Some (PDict h) /\
    dict_wf h /\
    (forall k v,
        dict_get k ch = Some v ->
        exists v', header_expand E v = Ok v' /\ dict_get k h = Some v') /\
    (forall k, dict_get k ch = None -> dict_get k h = None).
Proof.
  intros Hkw Hch H.
  unfold api.request_args in H. cbv zeta in H.
  unfold dict_get_default in H. rewrite Hkw in H.
  bind_inv H. unfold ret in H. injection H as <- _.
  match goal with
  | Hx : expanded_headers E (PDict ch) _ = (Ok ?a, _) |- _ =>
      rename Hx into Hexp; rename a into hs
  end.
  unfold expanded_headers, bind, truthyM, lift, ret in Hexp. simpl in Hexp.
  destruct ch as [|kv ch'].
  - injection Hexp as <- _. exists []. simpl.
    split; [reflexivity|]. split; [constructor|].
    split; [discriminate | reflexivity].
  - destruct (expand_headers E (kv :: ch') (kv :: ch')) as [h'|e] eqn:Ee;
      [|discriminate].
    injection Hexp as <- _.
    destruct (expand_headers_spec E _ _ _ Hch Hch Ee)
      as (Hwf & Hsome & Hnone).
    exists h'. split; [reflexivity|]. split; [exact Hwf|].
    split; [exact Hsome|].
    intros k Hk. rewrite (Hnone k Hk). exact Hk.
Qed.

Lemma api_request_headers_witness :
  let E :=
    mkCollaborators (fun _ x => Ok x) (fun _ => Ok PNone) []
      (fun r => Ok r) (fun r => Ok r) (fun _ r _ => ret r)
      (fun c => Ok (if_none c (PDict []))) (fun h => Ok h)
      (fun r => Ok r) in
  let kwargs := [("headers", PDict [("Accept", PStr "a")])] in
  exists args h,
    api.request_args E "get" (PStr "http://a.example/") kwargs empty_world
    = (Ok args, empty_world) /\
    dict_get "headers" args = Some (PDict h) /\
    dict_get "Accept" h = Some PNone.
Proof.
  intros E kwargs.
  destruct (api_request_headers E "get" (PStr "http://a.example/") kwargs
              empty_world empty_world
              [("method", PStr "GET"); ("url", PStr "http://a.example/");
               ("data", PNone); ("params", PNone);
               ("headers", PDict [("Accept", PNone)]); ("cookies", PNone);
               ("files", PNone); ("auth", PNone); ("timeout", PNone);
               ("hooks", PNone); ("allow_redirects", PBool false);
               ("proxies", PNone); ("_pools", PNone)]
              [("Accept", PStr "a")] eq_refl)
    as (h & Hh & _ & Hsome & _).
  - wf_by_computation.
  - vm_compute. reflexivity.
  - do 2 eexists. split; [vm_compute; reflexivity|].
    split; [exact Hh|].
    destruct (Hsome "Accept" (PStr "a") eq_refl) as (v' & Hv' & Hget).
    simpl in Hv'. injection Hv' as <-. exact Hget.
Defined.
